(** * Console todo application: the task store and its JSON persistence

    A shallow embedding of [src/console-todo/todo_app.py] (classes [Task]
    and [TodoManager]) together with the properties of the task store
    that the specification states.

    Python values are dynamically typed: whatever [json.load] decodes is
    stored in a task without any check.  The embedding therefore keeps the
    attributes of a task as Python values ([pyval]) and gives the
    operators the code applies to them ([==], [+=], subscription,
    iteration, [dict.get]) their Python meaning, including the exceptions
    they raise.  JSON numbers are restricted to integers; floating point
    numbers are outside the model.

    The file system is part of the state: what reading each path gives
    (a document, text that is not JSON, bytes that are not text, or an
    error of [open]) and what becomes of each write, which may fail.
    [save_tasks] catches a failed write and returns normally, so a method
    that has returned need not have saved.

    The menu layer ([main] and the functions it dispatches to) is embedded
    over a console: the lines still to be typed and the lines written.
    The built-ins [int], [str.lower] and [str.upper] are parameters of
    that part. *)

From Stdlib Require Import ZArith Ascii String.
From stdpp Require Import gmap list strings sorting.

Set Warnings "-register-all".

(** ** Python strings *)

(** A Python [str] is a sequence of Unicode code points. *)
Definition pystr : Type := list N.

(** A string literal of the source (ASCII only). *)
Definition u (s : string) : pystr := N_of_ascii <$> list_ascii_of_string s.

(** [str.isspace] on one character: the code points that [str.strip]
    removes (U+0009-000D, U+001C-0020, U+0085, U+00A0, U+1680,
    U+2000-200A, U+2028, U+2029, U+202F, U+205F, U+3000). *)
Definition isspace (c : N) : bool :=
  ((9 <=? c) && (c <=? 13) || (28 <=? c) && (c <=? 32)
   || (c =? 133) || (c =? 160) || (c =? 5760)
   || (8192 <=? c) && (c <=? 8202)
   || (c =? 8232) || (c =? 8233) || (c =? 8239) || (c =? 8287)
   || (c =? 12288))%N.

Fixpoint lstrip (s : pystr) : pystr :=
  match s with
  | c :: s' => if isspace c then lstrip s' else s
  | [] => []
  end.

Definition rstrip (s : pystr) : pystr := reverse (lstrip (reverse s)).

(** [s.strip()] *)
Definition strip (s : pystr) : pystr := rstrip (lstrip s).

(** ** Python values, exceptions and results *)

(** The values [json.load] produces and [json.dump] accepts. *)
Inductive pyval :=
  | VNone
  | VBool (b : bool)
  | VInt (z : Z)
  | VStr (s : list N)
  | VList (l : list pyval)
  | VDict (d : gmap (list N) pyval).

(** The three [ValueError]s of [TodoManager], by their message:
    "Task title cannot be empty", "Task with ID {task_id} not found",
    "Status must be 'pending' or 'completed'". *)
Inductive value_error :=
  | TitleEmpty
  | TaskNotFound (task_id : Z)
  | StatusInvalid.

Inductive exn :=
  | ValueError (msg : value_error)
  | KeyError (key : pystr)
  | TypeError
  | AttributeError
  | JSONDecodeError
  | FileNotFoundError
  | UnicodeDecodeError
  | OSError.

(** The result of evaluating an expression or a call: a value, or a
    raised exception. *)
Inductive outcome (A : Type) :=
  | Return (a : A)
  | Raise (e : exn).
Arguments Return {A} a.
Arguments Raise {A} e.

#[global] Instance outcome_ret : MRet outcome := λ A a, Return a.
#[global] Instance outcome_bind : MBind outcome := λ A B f m,
  match m with
  | Return a => f a
  | Raise e => Raise e
  end.

(** [v == n] for an [int] n: [bool] is a subclass of [int] in Python, so
    [True == 1] and [False == 0]. *)
Definition py_eq_int (v : pyval) (n : Z) : bool :=
  match v with
  | VInt z => (z =? n)%Z
  | VBool b => (Z.b2z b =? n)%Z
  | _ => false
  end.

(** [v == s] for a [str] s. *)
Definition py_eq_str (v : pyval) (s : pystr) : bool :=
  match v with
  | VStr s' => bool_decide (s' = s)
  | _ => false
  end.

(** [v += 1]: defined on numbers; [None + 1], [str + 1] and [dict + 1]
    raise [TypeError], and [list += 1] raises it too (an [int] is not
    iterable). *)
Definition py_incr (v : pyval) : outcome pyval :=
  match v with
  | VInt z => Return (VInt (z + 1))
  | VBool b => Return (VInt (Z.b2z b + 1))
  | _ => Raise TypeError
  end.

(** [data[key]] for a [str] key: a lookup in a [dict] ([KeyError] when the
    key is absent); lists and strings take integer indices only, and the
    other values are not subscriptable. *)
Definition py_getitem (data : pyval) (key : pystr) : outcome pyval :=
  match data with
  | VDict d =>
      match d !! key with
      | Some v => Return v
      | None => Raise (KeyError key)
      end
  | _ => Raise TypeError
  end.

(** [data.get(key, dflt)]: only a [dict] has the method. *)
Definition py_get (data : pyval) (key : pystr) (dflt : pyval)
  : outcome pyval :=
  match data with
  | VDict d => Return (default dflt (d !! key))
  | _ => Raise AttributeError
  end.

(** The elements a [for] clause draws from a value: the items of a list,
    the keys of a dict, the characters of a string; the other values are
    not iterable. *)
Definition py_iter (v : pyval) : outcome (list pyval) :=
  match v with
  | VList l => Return l
  | VDict d => Return (VStr <$> (map_to_list d).*1)
  | VStr s => Return ((λ c, VStr [c]) <$> s)
  | _ => Raise TypeError
  end.

(** ** class Task *)

Definition pending : pystr := u "pending".
Definition completed : pystr := u "completed".

Module Task.

(** The attributes of a [Task] object.  The class declares no types for
    them: [add_task] stores an [int] and four [str], [from_dict] stores
    whatever the file holds. *)
Record t := mk {
  id : pyval;
  title : pyval;
  description : pyval;
  status : pyval;
  created_at : pyval
}.

(** [Task.__init__]; [now] is [datetime.now().isoformat()]. *)
Definition init (now : pystr) (task_id title description status : pyval)
  : t :=
  {| id := task_id; title := title; description := description;
     status := status; created_at := VStr now |}.

(** Attribute assignments [task.title = v], [task.description = v],
    [task.status = v]. *)
Definition set_title (v : pyval) (task : t) : t :=
  {| id := id task; title := v; description := description task;
     status := status task; created_at := created_at task |}.
Definition set_description (v : pyval) (task : t) : t :=
  {| id := id task; title := title task; description := v;
     status := status task; created_at := created_at task |}.
Definition set_status (v : pyval) (task : t) : t :=
  {| id := id task; title := title task; description := description task;
     status := v; created_at := created_at task |}.

Definition to_dict (self : t) : pyval :=
  VDict (<[u "id" := id self]>
        (<[u "title" := title self]>
        (<[u "description" := description self]>
        (<[u "status" := status self]>
        (<[u "created_at" := created_at self]> ∅))))).

(** [from_dict]: the four subscriptions are evaluated in order, the
    constructor stamps the task with the current time, and the stamp is
    then overwritten by [data["created_at"]]. *)
Definition from_dict (data : pyval) : outcome t :=
  task_id ← py_getitem data (u "id");
  title ← py_getitem data (u "title");
  description ← py_getitem data (u "description");
  status ← py_getitem data (u "status");
  created_at ← py_getitem data (u "created_at");
  mret {| id := task_id; title := title; description := description;
          status := status; created_at := created_at |}.

End Task.

(** ** The storage file *)

(** What is found at a path, as [open(path, 'r')] and [json.load] see
    it: text that is not JSON; the document the text decodes to; bytes
    that are not text in the encoding [open] assumes; or something that
    cannot be opened for reading, such as a directory or a file without
    read permission. *)
Inductive file :=
  | Malformed
  | Document (data : pyval)
  | Undecodable
  | Unreadable.

(** [with open(path, 'r') as f: data = json.load(f)] on what is found at
    the path. *)
Definition json_load (f : file) : outcome pyval :=
  match f with
  | Document data => Return data
  | Malformed => Raise JSONDecodeError
  | Undecodable => Raise UnicodeDecodeError
  | Unreadable => Raise OSError
  end.

(** What becomes of [with open(path, 'w') as f: json.dump(data, f,
    indent=2)]: the document is written; or [open] raises and the path is left as it was
    (a missing directory, no write permission, the empty path); or [open]
    has emptied the file and the write then raises (a full disk, a value
    [json.dump] refuses), which leaves the beginning of a document: text
    that is not JSON. *)
Inductive written :=
  | Saved
  | Refused
  | Truncated.

(** ** class TodoManager *)

Module TodoManager.

Record t := mk {
  storage_file : string;
  tasks : list Task.t;
  next_id : pyval
}.

End TodoManager.

(** The state a method runs in: the manager object, the files on disk,
    by path, and what the disk does with a write of a document to a
    path: a write of the same document to the same path always has the
    same fate, and no method changes that. *)
Record world := World {
  manager : TodoManager.t;
  files : gmap string file;
  disk : string → pyval → written
}.

(** A method call: it may change the manager and the files, and returns a
    value or raises; the changes made before an exception is raised
    remain. *)
Definition M (A : Type) : Type := world → outcome A * world.

#[global] Instance M_ret : MRet M := λ A a w, (Return a, w).
#[global] Instance M_bind : MBind M := λ A B f m w,
  match m w with
  | (Return a, w') => f a w'
  | (Raise e, w') => (Raise e, w')
  end.

Definition raise {A} (e : exn) : M A := λ w, (Raise e, w).

(** Evaluating an expression that may raise, within a method. *)
Definition eval {A} (o : outcome A) : M A := λ w, (o, w).

(** [try: body except (json.JSONDecodeError, KeyError): handler] *)
Definition try_except {A} (body handler : M A) : M A := λ w,
  match body w with
  | (Raise JSONDecodeError, w') | (Raise (KeyError _), w') => handler w'
  | r => r
  end.

(** [try: body except Exception: handler]: every exception of the model
    is an [Exception]. *)
Definition try_except_Exception {A} (body handler : M A) : M A := λ w,
  match body w with
  | (Raise _, w') => handler w'
  | r => r
  end.

Definition self : M TodoManager.t := λ w, (Return (manager w), w).

(** [self.tasks = v] and [self.next_id = v] *)
Definition assign_tasks (v : list Task.t) : M unit := λ w,
  (Return (),
   World (TodoManager.mk (TodoManager.storage_file (manager w)) v
            (TodoManager.next_id (manager w)))
         (files w) (disk w)).
Definition assign_next_id (v : pyval) : M unit := λ w,
  (Return (),
   World (TodoManager.mk (TodoManager.storage_file (manager w))
            (TodoManager.tasks (manager w)) v)
         (files w) (disk w)).

(** An attribute assignment on the task object held at position [i] of
    [self.tasks]. *)
Definition assign_task (i : nat) (f : Task.t → Task.t) : M unit := λ w,
  assign_tasks (alter f i (TodoManager.tasks (manager w))) w.

(** [os.path.exists(path)], and reading and writing a document at a
    path.  A failed write raises; which exception it is does not matter
    to [save_tasks], which catches them all. *)
Definition path_exists (path : string) : M bool := λ w,
  (Return (bool_decide (is_Some (files w !! path))), w).
Definition read_json (path : string) : M pyval := λ w,
  match files w !! path with
  | Some f => (json_load f, w)
  | None => (Raise FileNotFoundError, w)
  end.
Definition write_json (path : string) (data : pyval) : M unit := λ w,
  match disk w path data with
  | Saved =>
      (Return (),
       World (manager w) (<[path := Document data]> (files w)) (disk w))
  | Refused => (Raise OSError, w)
  | Truncated =>
      (Raise OSError,
       World (manager w) (<[path := Malformed]> (files w)) (disk w))
  end.

Module Import Methods.

(** [TodoManager.load_tasks] *)
Definition load_tasks : M pyval :=
  this ← self;
  found ← path_exists (TodoManager.storage_file this);
  if found : bool then
    try_except
      (data ← read_json (TodoManager.storage_file this);
       items ← eval (py_get data (u "tasks") (VList []) ≫= py_iter);
       loaded ← eval (mapM Task.from_dict items);
       assign_tasks loaded;;
       n ← eval (py_get data (u "next_id") (VInt 1));
       assign_next_id n;;
       mret VNone)
      (assign_tasks [];;
       assign_next_id (VInt 1);;
       mret VNone)
  else
    assign_tasks [];;
    assign_next_id (VInt 1);;
    mret VNone.

(** [TodoManager.__init__] *)
Definition init (storage_file : string) : M pyval := λ w,
  load_tasks
    (World (TodoManager.mk storage_file [] (VInt 1)) (files w) (disk w)).

(** [TodoManager.save_tasks]: a failed write is caught, and the method
    returns as after a successful one.  The line the handler prints is
    written by the menu layer, see [method]. *)
Definition save_data (this : TodoManager.t) : pyval :=
  VDict (<[u "tasks" := VList (Task.to_dict <$> TodoManager.tasks this)]>
        (<[u "next_id" := TodoManager.next_id this]> ∅)).

Definition save_tasks : M pyval :=
  this ← self;
  let data := save_data this in
  try_except_Exception
    (write_json (TodoManager.storage_file this) data;;
     mret VNone)
    (mret VNone).

(** [TodoManager.get_task_by_id]: the first task of the list whose id
    equals [task_id], with the position that identifies the object. *)
Definition get_task_by_id (this : TodoManager.t) (task_id : Z)
  : option (nat * Task.t) :=
  list_find (λ task, py_eq_int (Task.id task) task_id = true)
            (TodoManager.tasks this).

(** [TodoManager.add_task] *)
Definition add_task (now : pystr) (title description : pystr)
  : M Task.t :=
  if bool_decide (strip title = []) then
    raise (ValueError TitleEmpty)
  else
    this ← self;
    let task :=
      Task.init now (TodoManager.next_id this) (VStr (strip title))
                (VStr (strip description)) (VStr pending) in
    assign_tasks (TodoManager.tasks this ++ [task]);;
    n ← eval (py_incr (TodoManager.next_id this));
    assign_next_id n;;
    save_tasks;;
    mret task.

(** [TodoManager.update_task]; an argument left at [None] is [None]
    here. *)
Definition update_task (task_id : Z)
    (title description status : option pystr) : M pyval :=
  this ← self;
  match get_task_by_id this task_id with
  | None => raise (ValueError (TaskNotFound task_id))
  | Some (i, _) =>
      (if title is Some title' then
         assign_task i (Task.set_title (VStr (strip title')))
       else mret ());;
      (if description is Some description' then
         assign_task i (Task.set_description (VStr (strip description')))
       else mret ());;
      (if status is Some status' then
         if bool_decide (status' ∈ [pending; completed]) then
           assign_task i (Task.set_status (VStr status'))
         else raise (ValueError StatusInvalid)
       else mret ());;
      save_tasks;;
      mret VNone
  end.

(** [TodoManager.delete_task]: [list.remove] drops the first element
    equal to [task]; a [Task] compares by identity, so that is the
    object [get_task_by_id] returned. *)
Definition delete_task (task_id : Z) : M pyval :=
  this ← self;
  match get_task_by_id this task_id with
  | None => raise (ValueError (TaskNotFound task_id))
  | Some (i, _) =>
      assign_tasks (delete i (TodoManager.tasks this));;
      save_tasks;;
      mret VNone
  end.

(** [TodoManager.list_tasks]; the empty string is a false filter. *)
Definition list_tasks (this : TodoManager.t)
    (status_filter : option pystr) : list Task.t :=
  match status_filter with
  | Some (c :: s) =>
      filter (λ task, py_eq_str (Task.status task) (c :: s) = true)
             (TodoManager.tasks this)
  | _ => TodoManager.tasks this
  end.

(** [TodoManager.toggle_task_status] *)
Definition toggle_task_status (task_id : Z) : M pyval :=
  this ← self;
  match get_task_by_id this task_id with
  | None => raise (ValueError (TaskNotFound task_id))
  | Some (i, task) =>
      assign_task i
        (Task.set_status
           (if py_eq_str (Task.status task) pending
            then VStr completed else VStr pending));;
      save_tasks;;
      mret VNone
  end.

End Methods.

(** ** Auxiliary notions for the statements *)

(** The manager state with [tasks] and [next_id] replaced. *)
Definition set_state (ts : list Task.t) (n : pyval) (w : world) : world :=
  World (TodoManager.mk (TodoManager.storage_file (manager w)) ts n)
        (files w) (disk w).

(** The files [save_tasks] leaves. *)
Definition written_files (w : world) : gmap string file :=
  let path := TodoManager.storage_file (manager w) in
  match disk w path (save_data (manager w)) with
  | Saved => <[path := Document (save_data (manager w))]> (files w)
  | Refused => files w
  | Truncated => <[path := Malformed]> (files w)
  end.

(** What the body of the [try] block of [load_tasks] computes from the
    decoded document. *)
Definition decode (data : pyval) : outcome (list Task.t * pyval) :=
  items ← py_get data (u "tasks") (VList []) ≫= py_iter;
  loaded ← mapM Task.from_dict items;
  n ← py_get data (u "next_id") (VInt 1);
  mret (loaded, n).

(** The five keys [from_dict] reads. *)
Definition task_keys : list pystr :=
  [u "id"; u "title"; u "description"; u "status"; u "created_at"].

(** The status [toggle_task_status] assigns. *)
Definition toggled (task : Task.t) : pyval :=
  if py_eq_str (Task.status task) pending then VStr completed
  else VStr pending.

(** The task after the title and description assignments of
    [update_task]. *)
Definition edited (title description : option pystr) (task : Task.t)
  : Task.t :=
  let task1 :=
    if title is Some title' then Task.set_title (VStr (strip title')) task
    else task in
  if description is Some description' then
    Task.set_description (VStr (strip description')) task1
  else task1.

(** A caller's request to the store.  [Reload] runs [load_tasks] again
    on the manager's own storage file. *)
Inductive call :=
  | Create (now title description : pystr)
  | Update (task_id : Z) (title description status : option pystr)
  | Delete (task_id : Z)
  | Toggle (task_id : Z)
  | Reload.

(** One request: the world it leaves (also when the method raised, as the
    menu loop catches the error and goes on) and the id [add_task]
    assigned, if it returned a task. *)
Definition step (c : call) (w : world) : world * list pyval :=
  match c with
  | Create now title description =>
      match add_task now title description w with
      | (Return task, w') => (w', [Task.id task])
      | (Raise _, w') => (w', [])
      end
  | Update task_id title description status =>
      ((update_task task_id title description status w).2, [])
  | Delete task_id => ((delete_task task_id w).2, [])
  | Toggle task_id => ((toggle_task_status task_id w).2, [])
  | Reload => ((load_tasks w).2, [])
  end.

(** A sequence of requests, with the ids assigned along the way in the
    order of assignment. *)
Fixpoint run (cs : list call) (w : world) : world * list pyval :=
  match cs with
  | [] => (w, [])
  | c :: cs' =>
      let (w1, ids1) := step c w in
      let (w2, ids2) := run cs' w1 in
      (w2, ids1 ++ ids2)
  end.

(** Every id of the list is an integer below [n]. *)
Definition ids_below (n : Z) (ids : list pyval) : Prop :=
  Forall (λ v, ∃ k : Z, v = VInt k ∧ (k < n)%Z) ids.

(** The storage file is absent, or it decodes to a state whose [next_id]
    is an integer above all the ids of its tasks. *)
Definition storage_sound (path : string) (fs : gmap string file) : Prop :=
  match fs !! path with
  | None => True
  | Some f =>
      ∃ ts n, json_load f ≫= decode = Return (ts, VInt n) ∧
              ids_below n (Task.id <$> ts)
  end.

(** The storage file agrees with the manager on the counter and on the
    ids of the tasks: reading it back changes neither. *)
Definition disk_agrees (w : world) : Prop :=
  match files w !! TodoManager.storage_file (manager w) with
  | None =>
      TodoManager.tasks (manager w) = [] ∧
      TodoManager.next_id (manager w) = VInt 1
  | Some f =>
      ∃ ts, json_load f ≫= decode
              = Return (ts, TodoManager.next_id (manager w)) ∧
            Task.id <$> ts = Task.id <$> TodoManager.tasks (manager w)
  end.

(** The counter is the integer [n], above every id in the store, and the
    file agrees. *)
Definition counter_above (n : Z) (w : world) : Prop :=
  TodoManager.next_id (manager w) = VInt n ∧
  ids_below n (Task.id <$> TodoManager.tasks (manager w)) ∧
  disk_agrees w.

(** The counter is the integer [n], above every id in the store. *)
Definition counter_over (n : Z) (this : TodoManager.t) : Prop :=
  TodoManager.next_id this = VInt n ∧
  ids_below n (Task.id <$> TodoManager.tasks this).

(** Every write to the storage file of the manager succeeds. *)
Definition writable (w : world) : Prop :=
  ∀ data, disk w (TodoManager.storage_file (manager w)) data = Saved.

(** What [load_tasks] makes of the file at a path satisfies [Q]: the file
    is absent, or reading it falls back to the empty list, or it decodes
    to tasks and a counter with [Q].  On any other file [load_tasks]
    raises. *)
Definition loads (Q : list Task.t → pyval → Prop) (path : string)
    (fs : gmap string file) : Prop :=
  match fs !! path with
  | None => True
  | Some f =>
      match json_load f ≫= decode with
      | Return (ts, n) => Q ts n
      | Raise JSONDecodeError | Raise (KeyError _) => True
      | Raise _ => False
      end
  end.

(** The counter is an integer above the ids of the tasks, which are
    pairwise distinct. *)
Definition distinct_below (ts : list Task.t) (n : pyval) : Prop :=
  ∃ k : Z, n = VInt k ∧ ids_below k (Task.id <$> ts) ∧
           NoDup (Task.id <$> ts).

(** [Q] holds of the tasks and the counter in memory, and of what
    [load_tasks] would make of the storage file. *)
Definition robust (Q : list Task.t → pyval → Prop) (w : world) : Prop :=
  Q (TodoManager.tasks (manager w)) (TodoManager.next_id (manager w)) ∧
  loads Q (TodoManager.storage_file (manager w)) (files w).

(** ** Example data *)

(** A disk that takes every write, one that refuses every write, and one
    that fails every write after the file is opened. *)
Definition reliable : string → pyval → written := λ _ _, Saved.
Definition locked : string → pyval → written := λ _ _, Refused.
Definition full : string → pyval → written := λ _ _, Truncated.

(** A manager on "tasks.json" holding one task, saved. *)
Definition milk (status : pystr) : Task.t :=
  Task.init (u "2024-01-01T09:00:00") (VInt 1) (VStr (u "Buy milk"))
            (VStr (u "2 litres")) (VStr status).

Definition one_task (status : pystr) : world :=
  (save_tasks
     (World (TodoManager.mk "tasks.json" [milk status] (VInt 2)) ∅
            reliable)).2.

(** The same manager, not saved, on a disk that fails. *)
Definition unsaved (d : string → pyval → written) : world :=
  World (TodoManager.mk "tasks.json" [milk pending] (VInt 2)) ∅ d.

(** A manager that has not loaded anything yet, on an empty disk. *)
Definition blank : world := World (TodoManager.mk "" [] VNone) ∅ reliable.

(** A manager that has not loaded anything yet, with the
    file [f] at "tasks.json". *)
Definition on_disk (f : file) : world :=
  World (TodoManager.mk "" [] VNone) {[ "tasks.json" := f ]} reliable.

(** A storage file, as [save_tasks] writes it, whose
    "next_id" (1) is not above the id of its task (5). *)
Definition stale_counter : gmap string file :=
  {[ "tasks.json" :=
       Document
         (save_data
            (TodoManager.mk "tasks.json"
               [Task.init (u "2024-01-01T09:00:00") (VInt 5)
                          (VStr (u "Buy milk")) (VStr (u "")) (VStr pending)]
               (VInt 1))) ]}.

(** A task record without "status", a document without
    "tasks", and a document without "next_id". *)
Definition no_status : gmap (list N) pyval :=
  <[u "id" := VInt 1]> (<[u "title" := VStr (u "Buy milk")]> ∅).
Definition one_without_status : gmap (list N) pyval :=
  {[ u "tasks" := VList [VDict no_status] ]}.
Definition no_tasks : gmap (list N) pyval := {[ u "next_id" := VInt 7 ]}.
Definition no_next_id : gmap (list N) pyval :=
  {[ u "tasks" := VList [Task.to_dict (milk pending)] ]}.

(** The scenario of the specification, with a rejected
    update and a reload added. *)
Definition scenario : list call :=
  [ Create (u "2024-01-01T09:00:00") (u "Buy milk") (u "");
    Create (u "2024-01-01T09:01:00") (u "Write report") (u "due Friday");
    Toggle 1;
    Update 2 (Some (u "Report")) None (Some (u "bogus"));
    Delete 1;
    Reload;
    Create (u "2024-01-01T09:02:00") (u "Call bank") (u "") ].

(** Five successful [add_task] calls. *)
Definition five_creates : list call :=
  [ Create (u "2024-01-02T09:00:00") (u "a") (u "");
    Create (u "2024-01-02T09:01:00") (u "b") (u "");
    Create (u "2024-01-02T09:02:00") (u "c") (u "");
    Create (u "2024-01-02T09:03:00") (u "d") (u "");
    Create (u "2024-01-02T09:04:00") (u "e") (u "") ].

(** ** Auxiliary notions for the properties of the store *)

(** The exception a result carries, if any. *)
Definition raised {A} (r : outcome A) : option exn :=
  match r with
  | Return _ => None
  | Raise e => Some e
  end.

(** One request: the exception it ends with, if any, and the world it
    leaves. *)
Definition invoke (c : call) (w : world) : option exn * world :=
  match c with
  | Create now title description =>
      let (r, w') := add_task now title description w in (raised r, w')
  | Update task_id title description status =>
      let (r, w') := update_task task_id title description status w in
      (raised r, w')
  | Delete task_id => let (r, w') := delete_task task_id w in (raised r, w')
  | Toggle task_id =>
      let (r, w') := toggle_task_status task_id w in (raised r, w')
  | Reload => let (r, w') := load_tasks w in (raised r, w')
  end.

(** A status of the two the store assigns. *)
Definition valid_status (v : pyval) : Prop :=
  v = VStr pending ∨ v = VStr completed.

(** The storage file is absent, or [load_tasks] falls back to the empty
    list on it, or it decodes and the tasks it holds have valid
    statuses. *)
Definition statuses_sound (path : string) (fs : gmap string file) : Prop :=
  loads (λ ts _, Forall (λ task, valid_status (Task.status task)) ts)
        path fs.

(** [task.status != s] is decidable. *)
#[global] Instance status_neq_dec (v : pyval) (s : pystr) :
  Decision (v ≠ VStr s).
Proof.
  destruct v as [| | |s'| |]; try (left; discriminate).
  destruct (decide (s' = s)) as [->|Hne];
    [right; by intros H|left; congruence].
Defined.

(** ** The menu layer *)

(** What the user does at a prompt: type a line, or press Ctrl-C. *)
Inductive keyboard :=
  | Line (s : pystr)
  | CtrlC.

(** The lines the menu layer writes, one constructor for each [print]
    call or [input] prompt of the source, with the values its f-string
    interpolates.  [Menu] stands for the twelve fixed lines of
    [display_menu]; the icon of [ShowStatus] is the check mark when the
    flag is set and the circle otherwise; [LoadFailed] and [SaveFailed]
    are the lines [load_tasks] and [save_tasks] print in their [except]
    clauses. *)
Inductive text :=
  | Menu
  | AskChoice
  | InvalidChoice
  | Exiting
  | AddHeader
  | AskTitle
  | TitleRequired
  | AskDescription
  | Added (task_id : pyval)
  | Error (e : value_error)
  | InvalidId
  | ListHeader (status_filter : option pystr)
  | NoTasks
  | ShowId (task_id : pyval)
  | ShowTitle (title : pyval)
  | ShowStatus (check : bool) (status : pyval)
  | ShowDescription (description : pyval)
  | Rule
  | UpdateHeader
  | AskUpdateId
  | NotFound (task_id : Z)
  | CurrentTitle (title : pyval)
  | CurrentDescription (description : pyval)
  | CurrentStatus (status : pyval)
  | AskNewTitle (title : pyval)
  | AskNewDescription
  | AskNewStatus (status : pyval)
  | Updated
  | DeleteHeader
  | AskDeleteId
  | Deleted
  | ToggleHeader
  | AskToggleId
  | StatusUpdated (status : pyval)
  | Welcome
  | LoadFailed
  | SaveFailed
  | Goodbye
  | PressEnter.

(** The state a menu function runs in: the store, what the user will do
    at the coming prompts, and what has been written so far (latest
    last). *)
Record console := Console {
  store : world;
  stdin : list keyboard;
  stdout : list text
}.

(** The exceptions that may leave a menu function: one of the store, the
    end of the input, or the interrupt. *)
Inductive escape :=
  | Escaped (e : exn)
  | EOFError
  | KeyboardInterrupt.

Inductive finish (A : Type) :=
  | Done (a : A)
  | Abort (e : escape).
Arguments Done {A} a.
Arguments Abort {A} e.

Definition UI (A : Type) : Type := console → finish A * console.

#[global] Instance UI_ret : MRet UI := λ A a c, (Done a, c).
#[global] Instance UI_bind : MBind UI := λ A B f m c,
  match m c with
  | (Done a, c') => f a c'
  | (Abort e, c') => (Abort e, c')
  end.

#[global] Instance UI_fmap : FMap UI := λ A B f m c,
  match m c with
  | (Done a, c') => (Done (f a), c')
  | (Abort e, c') => (Abort e, c')
  end.

(** [print(t)] *)
Definition print (t : text) : UI unit := λ c,
  (Done (), Console (store c) (stdin c) (stdout c ++ [t])).

(** [input(prompt)]: the prompt is written, then a line is read;
    [EOFError] at the end of the input, [KeyboardInterrupt] on Ctrl-C. *)
Definition input (prompt : text) : UI pystr := λ c,
  let out := stdout c ++ [prompt] in
  match stdin c with
  | Line s :: rest => (Done s, Console (store c) rest out)
  | CtrlC :: rest => (Abort KeyboardInterrupt, Console (store c) rest out)
  | [] => (Abort EOFError, Console (store c) [] out)
  end.

(** What [save_tasks] prints when it runs in [w]: the line of its
    [except] clause if the write fails. *)
Definition save_warning (w : world) : list text :=
  match disk w (TodoManager.storage_file (manager w))
             (save_data (manager w)) with
  | Saved => []
  | Refused | Truncated => [SaveFailed]
  end.

(** A call of one of the four methods the menu layer calls: [add_task],
    [update_task], [delete_task] and [toggle_task_status].  Each ends
    with [self.save_tasks()], which changes neither the manager nor what
    the disk does: when the method returns, [save_tasks] has run in the
    state the method leaves and has printed its line if the write
    failed; when it raises, [save_tasks] has not run. *)
Definition method {A} (m : M A) : UI A := λ c,
  match m (store c) with
  | (Return a, w) =>
      (Done a, Console w (stdin c) (stdout c ++ save_warning w))
  | (Raise e, w) => (Abort (Escaped e), Console w (stdin c) (stdout c))
  end.

(** The manager object. *)
Definition todo_manager : UI TodoManager.t := λ c, (Done (manager (store c)), c).

(** [try: body except ValueError as e: handler(e)], for the
    [ValueError]s the manager raises. *)
Definition except_ValueError {A} (body : UI A) (handler : value_error → UI A)
  : UI A := λ c,
  match body c with
  | (Abort (Escaped (ValueError e)), c') => handler e c'
  | r => r
  end.

(** The truth value of a Python value, as [if v:] tests it. *)
Definition py_bool (v : pyval) : bool :=
  match v with
  | VNone => false
  | VBool b => b
  | VInt z => negb (z =? 0)%Z
  | VStr s => if s is [] then false else true
  | VList l => if l is [] then false else true
  | VDict d => negb (size d =? 0)%nat
  end.

(** [x if x else None], for a string. *)
Definition or_None (s : pystr) : option pystr :=
  if s is [] then None else Some s.

Section MenuLayer.

(** The built-in [int] on a string ([None] when it raises [ValueError])
    and the methods [str.lower] and [str.upper], whose tables are not
    part of the model. *)
Variable py_int : pystr → option Z.
Variables py_lower py_upper : pystr → pystr.

(** [display_menu] *)
Definition display_menu : UI unit := print Menu.

(** [str(i) for i in range(8)] with the integer each one reads as. *)
Definition choices : list (pystr * Z) :=
  [(u "0", 0); (u "1", 1); (u "2", 2); (u "3", 3);
   (u "4", 4); (u "5", 5); (u "6", 6); (u "7", 7)]%Z.

(** [get_user_choice]: one turn of the loop for each line read. *)
Fixpoint get_user_choice_from (keys : list keyboard) (w : world)
    (out : list text) : finish Z * console :=
  match keys with
  | Line s :: rest =>
      match list_find (λ c, c.1 = strip s) choices with
      | Some (_, (_, n)) => (Done n, Console w rest (out ++ [AskChoice]))
      | None =>
          get_user_choice_from rest w (out ++ [AskChoice; InvalidChoice])
      end
  | CtrlC :: rest => (Done 0%Z, Console w rest (out ++ [AskChoice; Exiting]))
  | [] => (Abort EOFError, Console w [] (out ++ [AskChoice]))
  end.

Definition get_user_choice : UI Z := λ c,
  get_user_choice_from (stdin c) (store c) (stdout c).

(** [add_task_ui]; [now] is the time at which the task is built. *)
Definition add_task_ui (now : pystr) : UI unit :=
  print AddHeader;;
  title ← strip <$> input AskTitle;
  if title is [] then
    print TitleRequired
  else
    description ← strip <$> input AskDescription;
    except_ValueError
      (task ← method (add_task now title description);
       print (Added (Task.id task)))
      (λ e, print (Error e)).

(** The lines [list_tasks_ui] writes for one task. *)
Definition show_task (task : Task.t) : UI unit :=
  print (ShowId (Task.id task));;
  print (ShowTitle (Task.title task));;
  print (ShowStatus (py_eq_str (Task.status task) completed)
                    (Task.status task));;
  (if py_bool (Task.description task) then
     print (ShowDescription (Task.description task))
   else mret ());;
  print Rule.

Fixpoint show_tasks (tasks : list Task.t) : UI unit :=
  match tasks with
  | [] => mret ()
  | task :: rest => show_task task;; show_tasks rest
  end.

(** [list_tasks_ui] *)
Definition list_tasks_ui (status_filter : option pystr) : UI unit :=
  this ← todo_manager;
  let filtered :=
    if status_filter is Some (c :: s) then Some (c :: s) else None in
  let tasks := list_tasks this filtered in
  print (ListHeader (py_upper <$> filtered));;
  if tasks is [] then print NoTasks else show_tasks tasks.

(** [update_task_ui] *)
Definition update_task_ui : UI unit :=
  print UpdateHeader;;
  line ← input AskUpdateId;
  match py_int line with
  | None => print InvalidId
  | Some task_id =>
      this ← todo_manager;
      match get_task_by_id this task_id with
      | None => print (NotFound task_id)
      | Some (_, task) =>
          print (CurrentTitle (Task.title task));;
          print (CurrentDescription (Task.description task));;
          print (CurrentStatus (Task.status task));;
          new_title ← strip <$> input (AskNewTitle (Task.title task));
          new_description ← strip <$> input AskNewDescription;
          new_status ←
            (λ s, py_lower (strip s)) <$>
            input (AskNewStatus (Task.status task));
          let title := or_None new_title in
          let description := or_None new_description in
          let status :=
            if bool_decide (new_status ∈ [pending; completed])
            then Some new_status else None in
          except_ValueError
            (method (update_task task_id title description status);;
             print Updated)
            (λ e, print (Error e))
      end
  end.

(** [delete_task_ui] *)
Definition delete_task_ui : UI unit :=
  print DeleteHeader;;
  line ← input AskDeleteId;
  match py_int line with
  | None => print InvalidId
  | Some task_id =>
      except_ValueError
        (method (delete_task task_id);;
         print Deleted)
        (λ e, print (Error e))
  end.

(** [toggle_task_status_ui]; reading [status] off [None] would raise
    [AttributeError]. *)
Definition toggle_task_status_ui : UI unit :=
  print ToggleHeader;;
  line ← input AskToggleId;
  match py_int line with
  | None => print InvalidId
  | Some task_id =>
      except_ValueError
        (method (toggle_task_status task_id);;
         this ← todo_manager;
         match get_task_by_id this task_id with
         | Some (_, task) => print (StatusUpdated (Task.status task))
         | None => λ c, (Abort (Escaped AttributeError), c)
         end)
        (λ e, print (Error e))
  end.

(** [TodoManager(path)], with the line [load_tasks] prints when it falls
    back to the empty list: the file exists and reading it raised
    [JSONDecodeError] or [KeyError]. *)
Definition construct (path : string) : UI unit := λ c,
  let warning :=
    match files (store c) !! path with
    | Some f =>
        match json_load f ≫= decode with
        | Raise JSONDecodeError | Raise (KeyError _) => [LoadFailed]
        | _ => []
        end
    | None => []
    end in
  match init path (store c) with
  | (Return _, w) => (Done (), Console w (stdin c) (stdout c ++ warning))
  | (Raise e, w) =>
      (Abort (Escaped e), Console w (stdin c) (stdout c ++ warning))
  end.

(** The time [datetime.now()] gives in each turn of the loop of [main]. *)
Variable now : nat → pystr.

(** The [elif] chain of [main] for a choice other than 0. *)
Definition dispatch (choice : Z) (turn : nat) : UI unit :=
  match choice with
  | 1 => add_task_ui (now turn)
  | 2 => list_tasks_ui None
  | 3 => update_task_ui
  | 4 => delete_task_ui
  | 5 => toggle_task_status_ui
  | 6 => list_tasks_ui (Some pending)
  | 7 => list_tasks_ui (Some completed)
  | _ => mret ()
  end%Z.

(** The [while True] loop of [main], for at most [fuel] turns; [None]
    when the turns are used up. *)
Fixpoint main_loop (fuel turn : nat) (c : console)
  : option (finish unit * console) :=
  match fuel with
  | O => None
  | S fuel' =>
      match (display_menu;; get_user_choice) c with
      | (Abort e, c1) => Some (Abort e, c1)
      | (Done choice, c1) =>
          if (choice =? 0)%Z then Some (print Goodbye c1)
          else
            match (dispatch choice turn;; input PressEnter) c1 with
            | (Abort e, c2) => Some (Abort e, c2)
            | (Done _, c2) => main_loop fuel' (S turn) c2
            end
      end
  end.

(** [main].  Every turn of the loop reads at least one line, so one turn
    more than there are lines to read is enough. *)
Definition main (c : console) : option (finish unit * console) :=
  match (print Welcome;; construct "tasks.json") c with
  | (Abort e, c0) => Some (Abort e, c0)
  | (Done _, c0) => main_loop (S (length (stdin c0))) 0 c0
  end.

End MenuLayer.

(** ** Auxiliary notions for the properties of the menu layer *)

(** A title that is a string with something other than whitespace. *)
Definition titled (task : Task.t) : Prop :=
  ∃ s, Task.title task = VStr s ∧ strip s ≠ [].

(** The calls the menu layer makes to the store: [add_task] with a title
    that is not blank, [update_task] with no blank title and no invalid
    status, [delete_task] and [toggle_task_status]. *)
Inductive guarded (w : world) : world → Prop :=
  | guarded_none : guarded w w
  | guarded_add now title description :
      strip title ≠ [] →
      guarded w (add_task now title description w).2
  | guarded_update task_id title description status :
      (∀ s, title = Some s → strip s ≠ []) →
      (∀ s, status = Some s → s ∈ [pending; completed]) →
      guarded w (update_task task_id title description status w).2
  | guarded_delete task_id : guarded w (delete_task task_id w).2
  | guarded_toggle task_id : guarded w (toggle_task_status task_id w).2.

(** The five functions the menu dispatches to. *)
Inductive screen :=
  | AddScreen (now : pystr)
  | ListScreen (status_filter : option pystr)
  | UpdateScreen
  | DeleteScreen
  | ToggleScreen.

Definition show (py_int : pystr → option Z)
    (py_lower py_upper : pystr → pystr) (s : screen) : UI unit :=
  match s with
  | AddScreen now => add_task_ui now
  | ListScreen status_filter => list_tasks_ui py_upper status_filter
  | UpdateScreen => update_task_ui py_int py_lower
  | DeleteScreen => delete_task_ui py_int
  | ToggleScreen => toggle_task_status_ui py_int
  end.

(** The lines [list_tasks_ui] writes for one task. *)
Definition task_lines (task : Task.t) : list text :=
  [ShowId (Task.id task); ShowTitle (Task.title task);
   ShowStatus (py_eq_str (Task.status task) completed) (Task.status task)]
  ++ (if py_bool (Task.description task)
      then [ShowDescription (Task.description task)] else [])
  ++ [Rule].

(** What every menu function does, whatever is typed: it calls the store
    as [guarded] says, only adds to the output, only consumes input,
    lets no exception of the store out but the [TypeError] of a counter
    that cannot be incremented, and ends with [EOFError] only when the
    input is used up. *)
Definition orderly (c : console) (r : finish unit) (c' : console) : Prop :=
  guarded (store c) (store c') ∧
  (∃ extra, stdout c' = stdout c ++ extra) ∧
  (∃ used, stdin c = used ++ stdin c') ∧
  (∀ e, r = Abort (Escaped e) →
        e = TypeError ∧
        py_incr (TodoManager.next_id (manager (store c))) = Raise TypeError) ∧
  (r = Abort EOFError → stdin c' = []).

(** The storage file is absent, or it decodes to tasks with pairwise
    distinct integer ids below an integer "next_id", valid statuses and
    titles that are not blank. *)
Definition file_healthy (path : string) (fs : gmap string file) : Prop :=
  match fs !! path with
  | None => True
  | Some f =>
      ∃ ts n, json_load f ≫= decode = Return (ts, VInt n) ∧
              ids_below n (Task.id <$> ts) ∧
              NoDup (Task.id <$> ts) ∧
              Forall (λ task, valid_status (Task.status task)) ts ∧
              Forall titled ts
  end.

(** The store the menu layer keeps: the counter is above the ids, the ids
    are distinct, the statuses valid and the titles not blank. *)
Definition healthy (w : world) : Prop :=
  (∃ n, counter_over n (manager w)) ∧
  NoDup (Task.id <$> TodoManager.tasks (manager w)) ∧
  Forall (λ task, valid_status (Task.status task))
         (TodoManager.tasks (manager w)) ∧
  Forall titled (TodoManager.tasks (manager w)).

(** ** Example data for the menu layer *)

(** A reading of the one-digit numbers "0" to "7", no change of case,
    and a clock that stands still. *)
Definition one_digit (s : pystr) : option Z :=
  (λ found, found.2.2) <$> list_find (λ c, c.1 = strip s) choices.
Definition same_case (s : pystr) : pystr := s.
Definition noon (turn : nat) : pystr := u "2024-01-03T12:00:00".

(** The store with one pending task, and the lines to be typed. *)
Definition typed (lines : list pystr) : console :=
  Console (one_task pending) (Line <$> lines) [].

(** * Properties *)

(** Unfolding of the method monad. *)
Ltac run_M :=
  unfold mbind, mret, M_bind, M_ret, raise, eval, self, assign_task,
    assign_tasks, assign_next_id, write_json, path_exists, read_json,
    try_except, try_except_Exception;
  repeat (progress (cbv beta;
    cbn [manager files disk TodoManager.storage_file TodoManager.tasks
         TodoManager.next_id])).

Section Persistence.

Lemma from_dict_to_dict (task : Task.t) :
  Task.from_dict (Task.to_dict task) = Return task.
Proof. destruct task. reflexivity. Qed.

Lemma mapM_cons {A B} (f : A → outcome B) (x : A) (l : list A) :
  mapM f (x :: l) = y ← f x; k ← mapM f l; mret (y :: k).
Proof. reflexivity. Qed.

Lemma mapM_from_dict_to_dict (l : list Task.t) :
  mapM Task.from_dict (Task.to_dict <$> l) = Return l.
Proof.
  induction l as [|task l IH]; [done|].
  rewrite fmap_cons, mapM_cons, from_dict_to_dict, IH. reflexivity.
Qed.

Lemma decode_save_data (this : TodoManager.t) :
  decode (save_data this)
  = Return (TodoManager.tasks this, TodoManager.next_id this).
Proof.
  unfold decode, save_data, py_get.
  rewrite lookup_insert_eq, lookup_insert_ne, lookup_insert_eq by done.
  cbn -[mapM]. rewrite mapM_from_dict_to_dict. reflexivity.
Qed.

(** [save_tasks] returns whatever becomes of the write, and changes the
    files only. *)
Lemma save_tasks_eq (w : world) :
  save_tasks w = (Return VNone, World (manager w) (written_files w) (disk w)).
Proof.
  unfold save_tasks, written_files. run_M.
  destruct (disk w _ _); [reflexivity|by destruct w|reflexivity].
Qed.

Lemma save_tasks_pair (w : world) :
  save_tasks w = (Return VNone, (save_tasks w).2).
Proof. by rewrite save_tasks_eq. Qed.

(** Saving the same state again leaves the files as the first write left
    them. *)
Lemma written_files_twice (this : TodoManager.t) (fs : gmap string file)
    (d : string → pyval → written) :
  written_files (World this (written_files (World this fs d)) d)
  = written_files (World this fs d).
Proof.
  unfold written_files. cbn [manager files disk].
  destruct (d _ _); [|done|]; by rewrite insert_insert_eq.
Qed.

Lemma written_files_writable (w : world) :
  writable w →
  written_files w
  = <[TodoManager.storage_file (manager w)
      := Document (save_data (manager w))]> (files w).
Proof. intros Hw. unfold written_files. by rewrite Hw. Qed.

(** Elsewhere than at the storage path the files are as they were; at the
    storage path there is what was there, the document of the manager, or
    text that is not JSON. *)
Lemma written_files_other (w : world) (path : string) :
  path ≠ TodoManager.storage_file (manager w) →
  written_files w !! path = files w !! path.
Proof.
  intros Hne. unfold written_files.
  destruct (disk w _ _); [|done|]; by rewrite lookup_insert_ne.
Qed.

Lemma written_files_storage (w : world) :
  let path := TodoManager.storage_file (manager w) in
  written_files w !! path = files w !! path ∨
  written_files w !! path = Some (Document (save_data (manager w))) ∨
  written_files w !! path = Some Malformed.
Proof.
  cbv zeta. unfold written_files.
  destruct (disk w _ _); [right; left|by left|right; right];
    by rewrite lookup_insert_eq.
Qed.

(** [load_tasks] as a function of the file found at the storage path. *)
Lemma load_tasks_eq (w : world) :
  load_tasks w =
  match files w !! TodoManager.storage_file (manager w) with
  | None => (Return VNone, set_state [] (VInt 1) w)
  | Some f =>
      match json_load f ≫= decode with
      | Return (ts, n) => (Return VNone, set_state ts n w)
      | Raise JSONDecodeError | Raise (KeyError _) =>
          (Return VNone, set_state [] (VInt 1) w)
      | Raise e => (Raise e, w)
      end
  end.
Proof.
  destruct w as [[path ts0 n0] fs d].
  unfold load_tasks, decode, set_state. run_M.
  destruct (fs !! path) as [f|] eqn:Hfs.
  2:{ rewrite bool_decide_false by (by intros [??]). reflexivity. }
  rewrite bool_decide_true by eauto. run_M. rewrite Hfs.
  destruct f as [|data| |]; [reflexivity| |reflexivity..]. cbn [json_load].
  unfold mbind, mret, outcome_bind, outcome_ret.
  destruct (py_get data (u "tasks") (VList [])) as [v|e] eqn:Hget.
  - destruct data; try discriminate Hget.
    destruct (py_iter v) as [items|e]; [|by destruct e].
    destruct (mapM Task.from_dict items) as [l|e]; [|by destruct e].
    reflexivity.
  - destruct data; try discriminate Hget; injection Hget as <-; reflexivity.
Qed.

Lemma init_eq (path : string) (w : world) :
  init path w
  = load_tasks (World (TodoManager.mk path [] (VInt 1)) (files w) (disk w)).
Proof. reflexivity. Qed.

End Persistence.

Section Loading.

(** On a dict, [from_dict] returns a task or raises [KeyError]; it
    returns a task exactly when the five keys are present. *)
Lemma from_dict_dict (d : gmap (list N) pyval) :
  (∃ task, Task.from_dict (VDict d) = Return task ∧
           ∀ k, k ∈ task_keys → is_Some (d !! k)) ∨
  (∃ k, Task.from_dict (VDict d) = Raise (KeyError k)).
Proof.
  unfold Task.from_dict, py_getitem.
  destruct (d !! u "id") eqn:H1; [|right; by eexists].
  destruct (d !! u "title") eqn:H2; [|right; by eexists].
  destruct (d !! u "description") eqn:H3; [|right; by eexists].
  destruct (d !! u "status") eqn:H4; [|right; by eexists].
  destruct (d !! u "created_at") eqn:H5; [|right; by eexists].
  left. eexists. split; [reflexivity|].
  intros k Hk. unfold task_keys in Hk.
  repeat (apply elem_of_cons in Hk as [->|Hk]; [by eexists|]).
  by apply elem_of_nil in Hk.
Qed.

(** Decoding a list of dicts one of which lacks a key raises
    [KeyError]. *)
Lemma mapM_from_dict_missing_key (items : list pyval) :
  Forall (λ v, ∃ d, v = VDict d) items →
  Exists (λ v, ∃ d k, v = VDict d ∧ k ∈ task_keys ∧ d !! k = None) items →
  ∃ k, mapM Task.from_dict items = Raise (KeyError k).
Proof.
  induction 1 as [|v items [d ->] Hdicts IH]; intros Hex.
  - by apply Exists_nil in Hex.
  - rewrite mapM_cons.
    destruct (from_dict_dict d) as [(task & -> & Hall)|[k ->]];
      [|by exists k].
    apply Exists_cons in Hex as [(d' & k & Heq & Hk & Hnone)|Hex].
    + injection Heq as <-. destruct (Hall k Hk) as [? ?]. congruence.
    + destruct (IH Hex) as [k Hraise]. exists k.
      cbn [mbind outcome_bind]. by rewrite Hraise.
Qed.

Lemma mapM_from_dict_Forall2 (items : list pyval) (ts : list Task.t) :
  Forall2 (λ v task, Task.from_dict v = Return task) items ts →
  mapM Task.from_dict items = Return ts.
Proof.
  induction 1 as [|v task items ts Hv _ IH]; [done|].
  rewrite mapM_cons, Hv. cbn [mbind outcome_bind]. by rewrite IH.
Qed.

End Loading.

Section Lookup.

(** An attribute assignment that leaves the id alone does not change
    which object [get_task_by_id] finds. *)
Lemma list_find_alter {A} (P : A → Prop) `{!∀ x, Decision (P x)}
    (f : A → A) (l : list A) (i : nat) (x : A) :
  (∀ y, P (f y) ↔ P y) →
  list_find P l = Some (i, x) →
  list_find P (alter f i l) = Some (i, f x).
Proof.
  intros Hf (Hi & HP & Hleast)%list_find_Some. apply list_find_Some.
  split_and!.
  - by rewrite list_lookup_alter_eq, Hi.
  - by apply Hf.
  - intros j y Hj Hlt. rewrite list_lookup_alter_ne in Hj by lia. eauto.
Qed.

Lemma get_task_by_id_alter (this : TodoManager.t) (task_id : Z)
    (f : Task.t → Task.t) (i : nat) (task : Task.t) :
  (∀ task', Task.id (f task') = Task.id task') →
  get_task_by_id this task_id = Some (i, task) →
  get_task_by_id
    (TodoManager.mk (TodoManager.storage_file this)
                    (alter f i (TodoManager.tasks this))
                    (TodoManager.next_id this))
    task_id
  = Some (i, f task).
Proof.
  intros Hid Hget. unfold get_task_by_id in *. cbn [TodoManager.tasks].
  apply list_find_alter; [|done]. intros y. by rewrite Hid.
Qed.

Lemma fmap_id_alter (f : Task.t → Task.t) (i : nat) (l : list Task.t) :
  (∀ task, Task.id (f task) = Task.id task) →
  Task.id <$> alter f i l = Task.id <$> l.
Proof.
  intros Hid. revert i.
  induction l as [|x l IH]; intros [|i]; cbn; rewrite ?Hid, ?IH; done.
Qed.

End Lookup.

Lemma set_status_same (v : pyval) (task : Task.t) :
  Task.set_status v task = task ↔ v = Task.status task.
Proof.
  destruct task; unfold Task.set_status; cbn. split; [by intros [=]|by intros ->].
Qed.

Section Toggle.

(** A task that [get_task_by_id] finds. *)
Context (w : world) (task_id : Z) (i : nat) (task : Task.t).
Hypothesis Hget : get_task_by_id (manager w) task_id = Some (i, task).

Lemma toggle_found :
  toggle_task_status task_id w =
  save_tasks
    (set_state
       (alter (Task.set_status (toggled task)) i
              (TodoManager.tasks (manager w)))
       (TodoManager.next_id (manager w)) w).
Proof.
  unfold toggle_task_status. run_M. rewrite Hget, !save_tasks_eq.
  reflexivity.
Qed.

Lemma toggle_get :
  ∃ w',
    toggle_task_status task_id w = (Return VNone, w') ∧
    get_task_by_id (manager w') task_id
    = Some (i, Task.set_status (toggled task) task).
Proof.
  rewrite toggle_found, save_tasks_eq.
  eexists. split; [reflexivity|].
  cbn [manager set_state]. by apply get_task_by_id_alter.
Qed.

Lemma toggled_pending :
  Task.status task = VStr pending → toggled task = VStr completed.
Proof. unfold toggled. by intros ->. Qed.

Lemma toggled_other :
  Task.status task ≠ VStr pending → toggled task = VStr pending.
Proof.
  unfold toggled, py_eq_str. intros Hne.
  destruct (Task.status task); try done.
  case_bool_decide; [congruence|done].
Qed.

Lemma toggled_twice :
  Task.set_status (toggled (Task.set_status (toggled task) task))
                  (Task.set_status (toggled task) task)
  = Task.set_status
      (if py_eq_str (Task.status task) pending then VStr pending
       else VStr completed)
      task.
Proof.
  unfold toggled, Task.set_status. cbn [Task.status Task.id Task.title
    Task.description Task.created_at].
  by destruct (py_eq_str (Task.status task) pending).
Qed.

End Toggle.

Section Update.

Lemma edited_id (title description : option pystr) (task : Task.t) :
  Task.id (edited title description task) = Task.id task.
Proof. by destruct title, description. Qed.

(** [update_task] on a task that is found: the title and description
    are assigned first, and the status is checked after that. *)
Lemma update_found (w : world) (task_id : Z) (i : nat) (task : Task.t)
    (title description status : option pystr) :
  get_task_by_id (manager w) task_id = Some (i, task) →
  update_task task_id title description status w =
  let tasks := TodoManager.tasks (manager w) in
  let n := TodoManager.next_id (manager w) in
  match status with
  | None => save_tasks (set_state (alter (edited title description) i tasks) n w)
  | Some status' =>
      if bool_decide (status' ∈ [pending; completed]) then
        save_tasks
          (set_state
             (alter (Task.set_status (VStr status') ∘ edited title description)
                    i tasks) n w)
      else
        (Raise (ValueError StatusInvalid),
         set_state (alter (edited title description) i tasks) n w)
  end.
Proof.
  intros Hget. destruct w as [[path ts n] fs d].
  cbn [manager TodoManager.tasks TodoManager.next_id] in *.
  unfold update_task. run_M. rewrite Hget.
  destruct title, description, status as [status'|];
    run_M; try case_bool_decide; run_M; rewrite ?save_tasks_eq;
    unfold set_state, written_files;
    run_M; unfold edited;
    rewrite ?list_alter_alter_eq; try reflexivity;
    rewrite (list_alter_id (λ task, task)) by done; reflexivity.
Qed.

Lemma update_not_found (w : world) (task_id : Z)
    (title description status : option pystr) :
  get_task_by_id (manager w) task_id = None →
  update_task task_id title description status w
  = (Raise (ValueError (TaskNotFound task_id)), w).
Proof. intros Hget. unfold update_task. run_M. by rewrite Hget. Qed.

(** With an invalid status as the only argument nothing is assigned. *)
Lemma update_invalid_status_only (w : world) (task_id : Z) (i : nat)
    (task : Task.t) (status : pystr) :
  get_task_by_id (manager w) task_id = Some (i, task) →
  status ∉ [pending; completed] →
  update_task task_id None None (Some status) w
  = (Raise (ValueError StatusInvalid), w).
Proof.
  intros Hget Hstatus.
  rewrite (update_found w task_id i task None None (Some status) Hget).
  cbv zeta. rewrite bool_decide_false by done.
  unfold edited. rewrite (list_alter_id (λ task, task)) by done.
  by destruct w as [[path ts n] fs d].
Qed.

End Update.

Section Add.

(** [add_task] with a title that does not strip to nothing, on a
    numeric counter. *)
Lemma add_task_ok (w : world) (now title description : pystr) (n : pyval) :
  strip title ≠ [] →
  py_incr (TodoManager.next_id (manager w)) = Return n →
  let task :=
    Task.init now (TodoManager.next_id (manager w)) (VStr (strip title))
              (VStr (strip description)) (VStr pending) in
  add_task now title description w =
  (Return task,
   (save_tasks
      (set_state (TodoManager.tasks (manager w) ++ [task]) n w)).2).
Proof.
  intros Htitle Hincr. cbv zeta. unfold add_task.
  rewrite bool_decide_false by done. run_M. rewrite Hincr, ?save_tasks_eq.
  reflexivity.
Qed.

End Add.


Section Removal.

Local Open Scope Z_scope.

Lemma delete_found (w : world) (task_id : Z) (i : nat) (task : Task.t) :
  get_task_by_id (manager w) task_id = Some (i, task) →
  delete_task task_id w =
  save_tasks
    (set_state (delete i (TodoManager.tasks (manager w)))
               (TodoManager.next_id (manager w)) w).
Proof.
  intros Hget. unfold delete_task. run_M. rewrite Hget, !save_tasks_eq.
  reflexivity.
Qed.

Lemma delete_not_found (w : world) (task_id : Z) :
  get_task_by_id (manager w) task_id = None →
  delete_task task_id w = (Raise (ValueError (TaskNotFound task_id)), w).
Proof. intros Hget. unfold delete_task. run_M. by rewrite Hget. Qed.

Lemma toggle_not_found (w : world) (task_id : Z) :
  get_task_by_id (manager w) task_id = None →
  toggle_task_status task_id w
  = (Raise (ValueError (TaskNotFound task_id)), w).
Proof. intros Hget. unfold toggle_task_status. run_M. by rewrite Hget. Qed.

End Removal.

Section LoadOnly.

(** [from_dict] raises nothing but [KeyError] and [TypeError]. *)
Lemma from_dict_raises (data : pyval) (e : exn) :
  Task.from_dict data = Raise e → e = TypeError ∨ ∃ k, e = KeyError k.
Proof.
  destruct data as [| | | | |d]; try (intros [= <-]; by left).
  destruct (from_dict_dict d) as [(task & -> & _)|[k ->]]; [done|].
  intros [= <-]. right. by exists k.
Qed.

Lemma mapM_from_dict_raises (items : list pyval) (e : exn) :
  mapM Task.from_dict items = Raise e → e = TypeError ∨ ∃ k, e = KeyError k.
Proof.
  induction items as [|v items IH]; [done|]. rewrite mapM_cons.
  destruct (Task.from_dict v) as [task|e'] eqn:Hv.
  - cbn [mbind outcome_bind].
    destruct (mapM Task.from_dict items) as [ts|e'']; [done|].
    intros [= <-]. by apply IH.
  - intros [= <-]. by apply (from_dict_raises v).
Qed.

Lemma decode_raises (data : pyval) (e : exn) :
  decode data = Raise e →
  e = AttributeError ∨ e = TypeError ∨ ∃ k, e = KeyError k.
Proof.
  unfold decode.
  destruct data as [| | | | |d]; try (intros [= <-]; by left).
  cbn [py_get mbind outcome_bind].
  destruct (py_iter _) as [items|e'] eqn:Hiter; cbn [mbind outcome_bind].
  - destruct (mapM Task.from_dict items) as [ts|e''] eqn:Hmap; [done|].
    intros [= <-]. right. by apply (mapM_from_dict_raises items).
  - intros [= <-]. right. left.
    revert Hiter. by destruct (default _ _); intros [= <-].
Qed.

Lemma load_tasks_files (w : world) :
  files (load_tasks w).2 = files w ∧
  TodoManager.storage_file (manager (load_tasks w).2)
  = TodoManager.storage_file (manager w) ∧
  disk (load_tasks w).2 = disk w.
Proof.
  rewrite load_tasks_eq. destruct (files w !! _) as [f|]; [|done].
  destruct (json_load f ≫= decode) as [[ts n]|e]; [done|]. by destruct e.
Qed.

Lemma load_after_save (w : world) :
  disk w (TodoManager.storage_file (manager w)) (save_data (manager w))
    = Saved →
  load_tasks (save_tasks w).2 = (Return VNone, (save_tasks w).2).
Proof.
  intros Hsaved. rewrite save_tasks_eq, load_tasks_eq. unfold written_files.
  cbn [snd manager files]. rewrite Hsaved, lookup_insert_eq.
  cbn [json_load mbind outcome_bind]. rewrite decode_save_data.
  by destruct w as [[path ts n] fs d].
Qed.

(** After a write that failed once the file was open, loading falls back
    to the empty list. *)
Lemma load_after_truncated (w : world) :
  disk w (TodoManager.storage_file (manager w)) (save_data (manager w))
    = Truncated →
  load_tasks (save_tasks w).2
  = (Return VNone, set_state [] (VInt 1) (save_tasks w).2).
Proof.
  intros Htrunc. rewrite save_tasks_eq, load_tasks_eq. unfold written_files.
  cbn [snd manager files]. by rewrite Htrunc, lookup_insert_eq.
Qed.

(** Loading again gives the same result and the same state. *)
Lemma load_tasks_again (w : world) :
  load_tasks (load_tasks w).2 = load_tasks w.
Proof.
  destruct w as [[path ts0 n0] fs d].
  rewrite (load_tasks_eq (load_tasks _).2).
  destruct (load_tasks_files (World (TodoManager.mk path ts0 n0) fs d))
    as (-> & -> & _).
  rewrite load_tasks_eq. unfold set_state.
  cbn [manager files TodoManager.storage_file].
  destruct (fs !! path) as [f|]; [|done].
  destruct (json_load f ≫= decode) as [[ts n]|e]; [done|]. by destruct e.
Qed.

Lemma load_tasks_returns (w : world) (v : pyval) :
  (load_tasks w).1 = Return v → v = VNone.
Proof.
  rewrite load_tasks_eq. destruct (files w !! _) as [f|]; [|by intros [= <-]].
  destruct (json_load f ≫= decode) as [[ts n]|e]; [by intros [= <-]|].
  by destruct e; intros [= <-].
Qed.

End LoadOnly.

Section Requests.

(** [add_task] when the counter cannot be incremented: the task is
    already appended when [TypeError] is raised. *)
Lemma add_task_counter_error (w : world) (now title description : pystr)
    (e : exn) :
  strip title ≠ [] →
  py_incr (TodoManager.next_id (manager w)) = Raise e →
  add_task now title description w =
  (Raise e,
   set_state
     (TodoManager.tasks (manager w) ++
      [Task.init now (TodoManager.next_id (manager w)) (VStr (strip title))
                 (VStr (strip description)) (VStr pending)])
     (TodoManager.next_id (manager w)) w).
Proof.
  intros Htitle Hincr. unfold add_task.
  rewrite bool_decide_false by done. run_M. rewrite Hincr, ?save_tasks_eq.
  reflexivity.
Qed.

Lemma add_task_blank (w : world) (now title description : pystr) :
  strip title = [] →
  add_task now title description w = (Raise (ValueError TitleEmpty), w).
Proof. intros Hblank. unfold add_task. by rewrite bool_decide_true. Qed.

(** A request either saves the state it has built, or raises without
    touching the files, or is a reload. *)
Lemma invoke_cases (c : call) (w : world) :
  (∃ w1, invoke c w = (None, (save_tasks w1).2) ∧
         files w1 = files w ∧
         TodoManager.storage_file (manager w1)
           = TodoManager.storage_file (manager w) ∧
         disk w1 = disk w) ∨
  (∃ e w1, invoke c w = (Some e, w1) ∧
           files w1 = files w ∧
           TodoManager.storage_file (manager w1)
             = TodoManager.storage_file (manager w) ∧
           disk w1 = disk w) ∨
  (c = Reload ∧ invoke c w = (raised (load_tasks w).1, (load_tasks w).2)).
Proof.
  destruct c as [now title description|task_id title description status
                |task_id|task_id|]; cbn [invoke].
  - destruct (decide (strip title = [])) as [Hblank|Hfull].
    { right; left. rewrite add_task_blank by done. by eexists _, _. }
    destruct (py_incr (TodoManager.next_id (manager w))) as [n|e] eqn:Hincr.
    + left. rewrite (add_task_ok w now title description n Hfull Hincr).
      cbv zeta. by eexists.
    + right; left.
      rewrite (add_task_counter_error w now title description e Hfull Hincr).
      by eexists _, _.
  - destruct (get_task_by_id (manager w) task_id) as [[i task]|] eqn:Hget.
    + rewrite (update_found w task_id i task title description status Hget).
      cbv zeta. destruct status as [status'|]; [case_bool_decide|].
      * left. rewrite save_tasks_pair. by eexists.
      * right; left. by eexists _, _.
      * left. rewrite save_tasks_pair. by eexists.
    + right; left. rewrite update_not_found by done. by eexists _, _.
  - destruct (get_task_by_id (manager w) task_id) as [[i task]|] eqn:Hget.
    + left. rewrite (delete_found w task_id i task Hget).
      rewrite save_tasks_pair. by eexists.
    + right; left. rewrite delete_not_found by done. by eexists _, _.
  - destruct (get_task_by_id (manager w) task_id) as [[i task]|] eqn:Hget.
    + left. rewrite (toggle_found w task_id i task Hget).
      rewrite save_tasks_pair. by eexists.
    + right; left. rewrite toggle_not_found by done. by eexists _, _.
  - right; right. split; [done|]. by destruct (load_tasks w).
Qed.

(** The world a request leaves is the same for [step] and [invoke]. *)
Lemma step_invoke (c : call) (w : world) : (step c w).1 = (invoke c w).2.
Proof.
  destruct c as [now title description|task_id title description status
                |task_id|task_id|]; cbn [step invoke].
  - by destruct (add_task now title description w) as [[task|e] w1].
  - by destruct (update_task task_id title description status w).
  - by destruct (delete_task task_id w).
  - by destruct (toggle_task_status task_id w).
  - by destruct (load_tasks w).
Qed.

(** No request changes the storage path or what the disk does. *)
Lemma step_disk (c : call) (w : world) :
  TodoManager.storage_file (manager (step c w).1)
    = TodoManager.storage_file (manager w) ∧
  disk (step c w).1 = disk w.
Proof.
  rewrite step_invoke.
  destruct (invoke_cases c w)
    as [(w1 & -> & _ & Hpath & Hdisk)|[(e & w1 & -> & _ & Hpath & Hdisk)
       |[-> ->]]]; cbn [snd].
  - by rewrite save_tasks_eq.
  - done.
  - by destruct (load_tasks_files w) as (_ & ? & ?).
Qed.

Lemma step_writable (c : call) (w : world) :
  writable w → writable (step c w).1.
Proof.
  unfold writable. destruct (step_disk c w) as [-> ->]. done.
Qed.

(** A request other than a reload leaves, at the storage path, what was
    there, the document of the manager, or text that is not JSON. *)
Lemma step_files (c : call) (w : world) :
  c ≠ Reload →
  let w' := (step c w).1 in
  let path := TodoManager.storage_file (manager w) in
  files w' !! path = files w !! path ∨
  files w' !! path = Some (Document (save_data (manager w'))) ∨
  files w' !! path = Some Malformed.
Proof.
  intros Hc. cbv zeta. rewrite step_invoke.
  destruct (invoke_cases c w)
    as [(w1 & -> & Hfiles & Hpath & _)|[(e & w1 & -> & Hfiles & _)
       |[-> _]]]; cbn [snd]; [| |done].
  - rewrite save_tasks_eq. cbn [snd files manager].
    rewrite <- Hpath, <- Hfiles. apply written_files_storage.
  - left. by rewrite Hfiles.
Qed.

End Requests.

Section Strip.

Lemma lstrip_idemp (s : pystr) : lstrip (lstrip s) = lstrip s.
Proof.
  induction s as [|c s IH]; [done|].
  cbn. destruct (isspace c) eqn:Hc; [done|]. cbn. by rewrite Hc.
Qed.

Lemma lstrip_snoc (s : pystr) (c : N) :
  isspace c = false → lstrip (s ++ [c]) = lstrip s ++ [c].
Proof.
  intros Hc. induction s as [|c' s IH]; cbn; [by rewrite Hc|].
  by destruct (isspace c').
Qed.

Lemma rstrip_cons (c : N) (s : pystr) :
  isspace c = false → rstrip (c :: s) = c :: rstrip s.
Proof.
  intros Hc. unfold rstrip.
  rewrite reverse_cons, lstrip_snoc, reverse_app by done. done.
Qed.

Lemma rstrip_idemp (s : pystr) : rstrip (rstrip s) = rstrip s.
Proof. unfold rstrip. by rewrite reverse_involutive, lstrip_idemp. Qed.

Lemma lstrip_rstrip_lstrip (s : pystr) :
  lstrip (rstrip (lstrip s)) = rstrip (lstrip s).
Proof.
  induction s as [|c s IH]; [done|].
  cbn [lstrip]. destruct (isspace c) eqn:Hc; [done|].
  rewrite rstrip_cons by done. cbn. by rewrite Hc.
Qed.

(** Stripping a stripped string changes nothing. *)
Lemma strip_idemp (s : pystr) : strip (strip s) = strip s.
Proof. unfold strip. by rewrite lstrip_rstrip_lstrip, rstrip_idemp. Qed.

(** A stripped string neither starts nor ends with whitespace. *)
Lemma strip_head (s : pystr) (c : N) :
  head (strip s) = Some c → isspace c = false.
Proof.
  unfold strip. induction s as [|c' s IH]; [done|].
  cbn [lstrip]. destruct (isspace c') eqn:Hc; [done|].
  rewrite rstrip_cons by done. by intros [= <-].
Qed.

Lemma lstrip_head (s : pystr) (c : N) :
  head (lstrip s) = Some c → isspace c = false.
Proof.
  induction s as [|c' s IH]; [done|].
  cbn [lstrip]. destruct (isspace c') eqn:Hc; [done|]. by intros [= <-].
Qed.

Lemma strip_last (s : pystr) (c : N) :
  last (strip s) = Some c → isspace c = false.
Proof.
  unfold strip, rstrip. rewrite last_reverse. apply lstrip_head.
Qed.

(** A string that neither starts nor ends with whitespace is left as it
    is. *)
Lemma lstrip_clean (s : pystr) :
  (∀ c, head s = Some c → isspace c = false) → lstrip s = s.
Proof.
  destruct s as [|c s]; [done|]. intros Hhead. cbn [lstrip].
  by rewrite (Hhead c).
Qed.

Lemma strip_clean (s : pystr) :
  (∀ c, head s = Some c → isspace c = false) →
  (∀ c, last s = Some c → isspace c = false) →
  strip s = s.
Proof.
  intros Hhead Hlast. unfold strip, rstrip. rewrite (lstrip_clean s Hhead).
  rewrite lstrip_clean; [apply reverse_involutive|].
  intros c Hc. apply Hlast. by rewrite <- head_reverse.
Qed.

(** What [strip] removes is whitespace before and after what it
    returns. *)
Lemma lstrip_prefix (s : pystr) :
  ∃ lead, s = lead ++ lstrip s ∧ Forall (λ c, isspace c = true) lead.
Proof.
  induction s as [|c s (lead & Hs & Hlead)]; [by exists []|].
  cbn [lstrip]. destruct (isspace c) eqn:Hc; [|by exists []].
  exists (c :: lead). split; [cbn; by f_equal|by constructor].
Qed.

Lemma rstrip_suffix (s : pystr) :
  ∃ trail, s = rstrip s ++ trail ∧ Forall (λ c, isspace c = true) trail.
Proof.
  unfold rstrip. destruct (lstrip_prefix (reverse s)) as (lead & Hs & Hlead).
  exists (reverse lead). split; [|by apply Forall_reverse].
  by rewrite <- reverse_app, <- Hs, reverse_involutive.
Qed.

Lemma strip_surrounded (s : pystr) :
  ∃ lead trail,
    s = lead ++ strip s ++ trail ∧
    Forall (λ c, isspace c = true) lead ∧
    Forall (λ c, isspace c = true) trail.
Proof.
  destruct (lstrip_prefix s) as (lead & Hs & Hlead).
  destruct (rstrip_suffix (lstrip s)) as (trail & Ht & Htrail).
  exists lead, trail. split; [|done]. unfold strip. by rewrite <- Ht.
Qed.

End Strip.

Section Counter.

Local Open Scope Z_scope.

(** One request other than a reload keeps the counter above the ids of
    the store, and assigns either no id or the value of the counter,
    which it then increments; whether the write succeeds plays no part. *)
Lemma step_counter_over (c : call) (n : Z) (w : world) :
  c ≠ Reload →
  counter_over n (manager w) →
  (counter_over n (manager (step c w).1) ∧ (step c w).2 = []) ∨
  (counter_over (n + 1) (manager (step c w).1) ∧ (step c w).2 = [VInt n]).
Proof.
  intros Hc (Hn & Hbelow). unfold counter_over.
  destruct c as [now title description|task_id title description status
                |task_id|task_id|]; cbn [step]; [| | | |done].
  - (* add_task *)
    destruct (decide (strip title = [])) as [Hempty|Hfull].
    + left. by rewrite add_task_blank.
    + right.
      rewrite (add_task_ok w now title description (VInt (n + 1)) Hfull)
        by (by rewrite Hn).
      cbv zeta. rewrite save_tasks_eq.
      cbn [fst snd manager set_state TodoManager.tasks TodoManager.next_id
           Task.id Task.init].
      split; [|by rewrite Hn]. split; [done|].
      rewrite fmap_app. apply Forall_app. split.
      * eapply Forall_impl; [exact Hbelow|].
        intros v (k & -> & Hk). exists k. split; [done|lia].
      * apply Forall_singleton. cbn. rewrite Hn. exists n. split; [done|lia].
  - (* update_task *)
    left. split; [|done].
    destruct (get_task_by_id (manager w) task_id) as [[i task]|] eqn:Hget.
    + rewrite (update_found w task_id i task title description status Hget).
      cbv zeta. destruct status as [status'|]; [case_bool_decide|];
        rewrite ?save_tasks_eq;
        cbn [fst snd manager set_state TodoManager.tasks TodoManager.next_id];
        (split; [done|]); rewrite fmap_id_alter; try done;
        intros task'; cbn; apply edited_id.
    + by rewrite update_not_found.
  - (* delete_task *)
    left. split; [|done].
    destruct (get_task_by_id (manager w) task_id) as [[i task]|] eqn:Hget.
    + rewrite (delete_found w task_id i task Hget), save_tasks_eq.
      cbn [fst snd manager set_state TodoManager.tasks TodoManager.next_id].
      split; [done|]. rewrite list_fmap_delete. by apply Forall_delete.
    + by rewrite delete_not_found.
  - (* toggle_task_status *)
    left. split; [|done].
    destruct (get_task_by_id (manager w) task_id) as [[i task]|] eqn:Hget.
    + rewrite (toggle_found w task_id i task Hget), save_tasks_eq.
      cbn [fst snd manager set_state TodoManager.tasks TodoManager.next_id].
      split; [done|]. by rewrite fmap_id_alter.
    + by rewrite toggle_not_found.
Qed.

(** Saving to a disk that takes the write makes the file agree with the
    manager. *)
Lemma counter_above_save (n : Z) (ts : list Task.t) (w : world) :
  writable w →
  ids_below n (Task.id <$> ts) →
  counter_above n (save_tasks (set_state ts (VInt n) w)).2.
Proof.
  intros Hw Hbelow.
  rewrite save_tasks_eq, written_files_writable by exact Hw.
  unfold counter_above, disk_agrees.
  cbn [snd manager files set_state TodoManager.storage_file
       TodoManager.tasks TodoManager.next_id].
  split_and!; [done..|]. rewrite lookup_insert_eq. exists ts.
  cbn [json_load mbind outcome_bind]. by rewrite decode_save_data.
Qed.

(** Assignments to a task that keep its id, without saving. *)
Lemma counter_above_alter (n : Z) (f : Task.t → Task.t) (i : nat)
    (w : world) :
  (∀ task, Task.id (f task) = Task.id task) →
  counter_above n w →
  counter_above n
    (set_state (alter f i (TodoManager.tasks (manager w)))
               (TodoManager.next_id (manager w)) w).
Proof.
  intros Hid (Hn & Hbelow & Hdisk). unfold counter_above, disk_agrees in *.
  cbn [manager files set_state TodoManager.storage_file
       TodoManager.tasks TodoManager.next_id].
  rewrite (fmap_id_alter f i _ Hid). split_and!; [done..|].
  destruct (files w !! _) as [file|]; [done|].
  destruct Hdisk as [-> ?]. done.
Qed.

Lemma counter_above_next_id (n : Z) (w : world) :
  counter_above n w →
  set_state (TodoManager.tasks (manager w)) (VInt n) w = w.
Proof.
  intros (Hn & _). destruct w as [[path ts n'] fs d]. cbn in *. by subst.
Qed.

(** On a disk that takes every write, one request keeps the counter
    above the ids and the file in agreement, reloads included. *)
Lemma step_counter_above (c : call) (n : Z) (w : world) :
  writable w →
  counter_above n w →
  (counter_above n (step c w).1 ∧ (step c w).2 = []) ∨
  (counter_above (n + 1) (step c w).1 ∧ (step c w).2 = [VInt n]).
Proof.
  intros Hw Hinv. pose proof Hinv as (Hn & Hbelow & Hdisk).
  destruct c as [now title description|task_id title description status
                |task_id|task_id|]; cbn [step].
  - (* add_task *)
    destruct (decide (strip title = [])) as [Hempty|Hfull].
    + left. by rewrite add_task_blank.
    + right.
      rewrite (add_task_ok w now title description (VInt (n + 1)) Hfull)
        by (by rewrite Hn).
      cbn [fst snd Task.id Task.init]. split; [|by rewrite Hn].
      apply counter_above_save; [done|]. rewrite fmap_app. apply Forall_app.
      split.
      * eapply Forall_impl; [exact Hbelow|].
        intros v (k & -> & Hk). exists k. split; [done|lia].
      * apply Forall_singleton. cbn. rewrite Hn. exists n. split; [done|lia].
  - (* update_task *)
    left. split; [|done].
    destruct (get_task_by_id (manager w) task_id) as [[i task]|] eqn:Hget.
    + rewrite (update_found w task_id i task title description status Hget).
      cbv zeta. rewrite Hn.
      destruct status as [status'|]; [case_bool_decide|].
      * apply counter_above_save; [done|]. rewrite fmap_id_alter; [done|].
        intros task'. cbn. apply edited_id.
      * cbn [snd]. rewrite <- Hn. apply counter_above_alter; [|done].
        apply edited_id.
      * apply counter_above_save; [done|]. rewrite fmap_id_alter; [done|].
        apply edited_id.
    + by rewrite update_not_found.
  - (* delete_task *)
    left. split; [|done].
    destruct (get_task_by_id (manager w) task_id) as [[i task]|] eqn:Hget.
    + rewrite (delete_found w task_id i task Hget), Hn.
      apply counter_above_save; [done|]. rewrite list_fmap_delete.
      by apply Forall_delete.
    + by rewrite delete_not_found.
  - (* toggle_task_status *)
    left. split; [|done].
    destruct (get_task_by_id (manager w) task_id) as [[i task]|] eqn:Hget.
    + rewrite (toggle_found w task_id i task Hget), Hn.
      apply counter_above_save; [done|]. rewrite fmap_id_alter; done.
    + by rewrite toggle_not_found.
  - (* load_tasks *)
    left. split; [|done]. rewrite load_tasks_eq.
    unfold disk_agrees in Hdisk.
    destruct (files w !! _) as [file|] eqn:Hfile.
    + destruct Hdisk as (ts & Hdec & Hids). rewrite Hdec.
      unfold counter_above, disk_agrees.
      cbn [fst snd manager files set_state TodoManager.storage_file
           TodoManager.tasks TodoManager.next_id].
      rewrite Hfile, Hids. split_and!; [done..|]. by exists ts.
    + destruct Hdisk as [Hts Hnext]. cbn [fst snd].
      rewrite <- Hts. rewrite <- Hnext at 1. rewrite Hn.
      by rewrite counter_above_next_id.
Qed.

(** A sequence of requests each of which keeps [I] as one request keeps
    the counter: the ids assigned are the successive values of the
    counter. *)
Lemma run_counter (I : Z → world → Prop) (allowed : call → Prop)
    (cs : list call) (n : Z) (w : world) :
  (∀ c n w, allowed c → I n w →
            (I n (step c w).1 ∧ (step c w).2 = []) ∨
            (I (n + 1) (step c w).1 ∧ (step c w).2 = [VInt n])) →
  Forall allowed cs →
  I n w →
  ∃ (n' : Z) (ids : list Z),
    (run cs w).2 = VInt <$> ids ∧
    I n' (run cs w).1 ∧
    n ≤ n' ∧
    Forall (λ k, n ≤ k < n') ids ∧
    StronglySorted Z.lt ids.
Proof.
  intros Hstep_I Hcs. revert n w.
  induction Hcs as [|c cs Hc Hcs IH]; intros n w Hinv.
  - exists n, []. cbn. split_and!; [done..|lia|constructor|constructor].
  - cbn [run]. destruct (step c w) as [w1 ids1] eqn:Hstep.
    destruct (run cs w1) as [w2 ids2] eqn:Hrun. cbn [fst snd].
    destruct (Hstep_I c n w Hc Hinv) as [[Hinv1 Hids]|[Hinv1 Hids]];
      rewrite Hstep in Hinv1, Hids; cbn [fst snd] in Hinv1, Hids; subst ids1;
      destruct (IH _ _ Hinv1) as (n' & ids & Heq & Hinv2 & Hle & Hrange & Hsorted);
      rewrite Hrun in Heq, Hinv2; cbn [fst snd] in Heq, Hinv2; subst ids2.
    + exists n', ids. split_and!; done.
    + exists n', (n :: ids). split_and!; [done..|lia| |].
      * constructor; [lia|].
        eapply Forall_impl; [exact Hrange|]. intros k ?; simpl in *; lia.
      * constructor; [done|].
        eapply Forall_impl; [exact Hrange|]. intros k ?; simpl in *; lia.
Qed.

(** Without reloads, whatever becomes of the writes. *)
Lemma run_counter_over (cs : list call) (n : Z) (w : world) :
  Reload ∉ cs →
  counter_over n (manager w) →
  ∃ (n' : Z) (ids : list Z),
    (run cs w).2 = VInt <$> ids ∧
    counter_over n' (manager (run cs w).1) ∧
    n ≤ n' ∧
    Forall (λ k, n ≤ k < n') ids ∧
    StronglySorted Z.lt ids.
Proof.
  intros Hcs Hinv.
  apply (run_counter (λ n w, counter_over n (manager w)) (λ c, c ≠ Reload));
    [|apply Forall_forall; intros c Hc ->; by apply Hcs|done].
  intros c n1 w1 Hc Hinv1. by apply step_counter_over.
Qed.

(** With reloads, on a disk that takes every write. *)
Lemma run_counter_above (cs : list call) (n : Z) (w : world) :
  writable w →
  counter_above n w →
  ∃ (n' : Z) (ids : list Z),
    (run cs w).2 = VInt <$> ids ∧
    counter_above n' (run cs w).1 ∧
    n ≤ n' ∧
    Forall (λ k, n ≤ k < n') ids ∧
    StronglySorted Z.lt ids.
Proof.
  intros Hw Hinv.
  destruct (run_counter (λ n w, writable w ∧ counter_above n w) (λ _, True)
              cs n w) as (n' & ids & Hids & [_ Hinv'] & Hrest);
    [|by apply Forall_true|done|by exists n', ids].
  intros c n1 w1 _ [Hw1 Hinv1].
  pose proof (step_writable c w1 Hw1) as Hw2.
  destruct (step_counter_above c n1 w1 Hw1 Hinv1) as [[H ?]|[H ?]];
    [left|right]; done.
Qed.

Lemma init_counter_above (path : string) (w : world) :
  storage_sound path (files w) →
  ∃ w0 n0, init path w = (Return VNone, w0) ∧ counter_above n0 w0 ∧
           TodoManager.storage_file (manager w0) = path ∧
           disk w0 = disk w.
Proof.
  unfold storage_sound. intros Hsound. rewrite init_eq, load_tasks_eq.
  cbn [manager files TodoManager.storage_file].
  destruct (files w !! path) as [file|] eqn:Hfile.
  - destruct Hsound as (ts & n & Hdec & Hbelow). rewrite Hdec.
    eexists _, n. split; [reflexivity|]. split; [|done].
    unfold counter_above, disk_agrees.
    cbn [manager files set_state TodoManager.storage_file
         TodoManager.tasks TodoManager.next_id].
    rewrite Hfile. split_and!; [done..|]. by exists ts.
  - eexists _, 1. split; [reflexivity|]. split; [|done].
    unfold counter_above, disk_agrees.
    cbn [manager files set_state TodoManager.storage_file
         TodoManager.tasks TodoManager.next_id].
    rewrite Hfile. split_and!; [done|apply Forall_nil_2|done..].
Qed.

End Counter.

Lemma StronglySorted_lt_NoDup (l : list Z) :
  StronglySorted Z.lt l → NoDup l.
Proof.
  induction 1 as [|x l _ IH Hall]; constructor; [|done].
  intros Hin. rewrite Forall_forall in Hall. specialize (Hall x Hin). lia.
Qed.

(** * The claims of the specification *)

(** C1: the code departs from the claim. [update_task] assigns the title
    and the description before it checks the status: with an invalid
    status it raises [ValueError], but the task keeps the new title and
    description in memory, while the storage file still holds the old
    ones. *)
Theorem update_invalid_status_keeps_edits :
  ∃ w',
    get_task_by_id (manager (one_task pending)) 1 = Some (0, milk pending) ∧
    update_task 1 (Some (u "Buy bread")) (Some (u "a loaf")) (Some (u "bogus"))
                (one_task pending)
      = (Raise (ValueError StatusInvalid), w') ∧
    get_task_by_id (manager w') 1
      = Some (0, Task.mk (VInt 1) (VStr (u "Buy bread")) (VStr (u "a loaf"))
                         (VStr pending) (VStr (u "2024-01-01T09:00:00"))) ∧
    files w' = files (one_task pending).
Proof.
  exists (update_task 1 (Some (u "Buy bread")) (Some (u "a loaf"))
                      (Some (u "bogus")) (one_task pending)).2.
  split_and!; vm_compute; reflexivity.
Qed.

(** C2: the code departs from the claim. [update_task] does not test the
    stripped title as [add_task] does: a title of blanks is accepted, the
    call returns normally, and the task is left, in memory and in the
    file, with the empty title. *)
Theorem update_blank_title_accepted :
  ∃ w',
    strip (u "   ") = [] ∧
    update_task 1 (Some (u "   ")) None None (one_task pending)
      = (Return VNone, w') ∧
    get_task_by_id (manager w') 1
      = Some (0, Task.set_title (VStr []) (milk pending)) ∧
    init "tasks.json" w' = (Return VNone, w').
Proof.
  exists (update_task 1 (Some (u "   ")) None None (one_task pending)).2.
  split_and!; vm_compute; reflexivity.
Qed.

(** C3, as stated, fails: [load_tasks] takes "next_id" from the file as
    it is.  From a parseable file with a task of id 5 and "next_id" 1 the
    counter is below an id in the store, and the fifth [add_task] assigns
    the id 5 again. *)
Lemma load_keeps_stale_next_id :
  ∃ w0 w',
    init "tasks.json"
         (World (TodoManager.mk "" [] VNone) stale_counter reliable)
      = (Return VNone, w0) ∧
    TodoManager.next_id (manager w0) = VInt 1 ∧
    Task.id <$> TodoManager.tasks (manager w0) = [VInt 5] ∧
    ¬ ids_below 1 (Task.id <$> TodoManager.tasks (manager w0)) ∧
    run five_creates w0 = (w', VInt <$> [1; 2; 3; 4; 5]%Z) ∧
    Task.id <$> TodoManager.tasks (manager w')
      = VInt <$> [5; 1; 2; 3; 4; 5]%Z.
Proof.
  set (w0 := (init "tasks.json"
                (World (TodoManager.mk "" [] VNone) stale_counter
                       reliable)).2).
  exists w0.
  exists (run five_creates w0).1.
  split; [vm_compute; reflexivity|].
  split; [vm_compute; reflexivity|].
  assert (Task.id <$> TodoManager.tasks (manager w0) = [VInt 5]) as ->
    by (vm_compute; reflexivity).
  split; [reflexivity|]. split.
  - intros Hbelow. apply Forall_cons in Hbelow as [(k & Hk & Hlt) _].
    injection Hk as <-. lia.
  - split; vm_compute; reflexivity.
Qed.

(** C3, amended. Start from a storage file that is absent, or that
    decodes to an integer "next_id" strictly greater than every task id
    in it.  Then in every state reached by any sequence of create,
    update, delete and toggle calls, failed ones included, and of reloads
    of the file if every write to it succeeds, [next_id] is an integer
    strictly greater than every id in the store and every id assigned so
    far, and the ids assigned by create are strictly increasing, never
    repeat, and are never below the initial [next_id].  Without reloads
    this holds whatever becomes of the writes. *)
Theorem ids_strictly_increasing (path : string) (w : world) (cs : list call) :
  storage_sound path (files w) →
  Reload ∉ cs ∨ (∀ data, disk w path data = Saved) →
  ∃ (w0 : world) (n0 : Z) (w' : world) (ids : list Z) (n : Z),
    init path w = (Return VNone, w0) ∧
    TodoManager.next_id (manager w0) = VInt n0 ∧
    ids_below n0 (Task.id <$> TodoManager.tasks (manager w0)) ∧
    run cs w0 = (w', VInt <$> ids) ∧
    TodoManager.next_id (manager w') = VInt n ∧
    ids_below n (Task.id <$> TodoManager.tasks (manager w')) ∧
    Forall (λ k, n0 ≤ k < n)%Z ids ∧
    StronglySorted Z.lt ids ∧
    NoDup ids.
Proof.
  intros Hsound Hcs.
  destruct (init_counter_above path w Hsound)
    as (w0 & n0 & Hinit & Hinv0 & Hpath & Hdisk).
  pose proof Hinv0 as (Hn0 & Hbelow0 & _).
  assert (∃ (n : Z) (ids : list Z),
            (run cs w0).2 = VInt <$> ids ∧
            counter_over n (manager (run cs w0).1) ∧
            (n0 ≤ n)%Z ∧
            Forall (λ k, n0 ≤ k < n)%Z ids ∧
            StronglySorted Z.lt ids)
    as (n & ids & Hids & [Hn Hbelow] & _ & Hrange & Hsorted).
  { destruct Hcs as [Hnone|Hsaved].
    - by apply run_counter_over.
    - destruct (run_counter_above cs n0 w0)
        as (n & ids & Hids & (Hn & Hbelow & _) & Hrest); [|done|].
      + intros data. by rewrite Hpath, Hdisk.
      + by exists n, ids. }
  exists w0, n0, (run cs w0).1, ids, n.
  split_and!; try done.
  - rewrite <- Hids. by destruct (run cs w0).
  - by apply StronglySorted_lt_NoDup.
Qed.

Lemma ids_strictly_increasing_witness :
  (∃ (w0 : world) (n0 : Z) (w' : world) (ids : list Z) (n : Z),
     init "tasks.json" blank = (Return VNone, w0) ∧
     TodoManager.next_id (manager w0) = VInt n0 ∧
     ids_below n0 (Task.id <$> TodoManager.tasks (manager w0)) ∧
     run scenario w0 = (w', VInt <$> ids) ∧
     TodoManager.next_id (manager w') = VInt n ∧
     ids_below n (Task.id <$> TodoManager.tasks (manager w')) ∧
     Forall (λ k, n0 ≤ k < n)%Z ids ∧
     StronglySorted Z.lt ids ∧
     NoDup ids) ∧
  (∃ (w0 : world) (n0 : Z) (w' : world) (ids : list Z) (n : Z),
     init "tasks.json" (unsaved locked) = (Return VNone, w0) ∧
     TodoManager.next_id (manager w0) = VInt n0 ∧
     ids_below n0 (Task.id <$> TodoManager.tasks (manager w0)) ∧
     run five_creates w0 = (w', VInt <$> ids) ∧
     TodoManager.next_id (manager w') = VInt n ∧
     ids_below n (Task.id <$> TodoManager.tasks (manager w')) ∧
     Forall (λ k, n0 ≤ k < n)%Z ids ∧
     StronglySorted Z.lt ids ∧
     NoDup ids).
Proof.
  split.
  - apply (ids_strictly_increasing "tasks.json" blank scenario).
    + vm_compute. exact I.
    + right. intros data. reflexivity.
  - apply (ids_strictly_increasing "tasks.json" (unsaved locked)
             five_creates).
    + vm_compute. exact I.
    + left. unfold five_creates. intros Hin.
      repeat (apply elem_of_cons in Hin as [Hin|Hin]; [discriminate Hin|]).
      by apply elem_of_nil in Hin.
Defined.

(** A reload after a write that failed brings the counter back: on a
    disk that refuses the writes the second [add_task] assigns the id 1
    again. *)
Example reload_after_failed_write_repeats_id :
  ∃ w0 w',
    init "tasks.json" (unsaved locked) = (Return VNone, w0) ∧
    run [Create (u "2024-01-02T09:00:00") (u "a") (u "");
         Reload;
         Create (u "2024-01-02T09:01:00") (u "b") (u "")] w0
      = (w', VInt <$> [1; 1]%Z) ∧
    files w' = ∅.
Proof.
  set (w0 := (init "tasks.json" (unsaved locked)).2).
  exists w0, (run [Create (u "2024-01-02T09:00:00") (u "a") (u "");
                   Reload;
                   Create (u "2024-01-02T09:01:00") (u "b") (u "")] w0).1.
  split_and!; vm_compute; reflexivity.
Qed.

(** The scenario of the specification: the ids assigned are 1, 2 and 3,
    and the store is left with the tasks 2 and 3 and the counter 4. *)
Example scenario_ids :
  ∃ w0 w',
    init "tasks.json" blank = (Return VNone, w0) ∧
    run scenario w0 = (w', VInt <$> [1; 2; 3]%Z) ∧
    Task.id <$> TodoManager.tasks (manager w') = VInt <$> [2; 3]%Z ∧
    TodoManager.next_id (manager w') = VInt 4.
Proof.
  set (w0 := (init "tasks.json" blank).2).
  exists w0, (run scenario w0).1. split_and!; vm_compute; reflexivity.
Qed.

(** C4, as stated, fails: [toggle_task_status] has no [return]
    statement, so the call evaluates to [None], not to the new status
    (here "completed"). *)
Lemma toggle_returns_none :
  ∃ w',
    toggle_task_status 1 (one_task pending) = (Return VNone, w') ∧
    get_task_by_id (manager w') 1 = Some (0, milk completed) ∧
    VNone ≠ VStr completed.
Proof.
  exists (toggle_task_status 1 (one_task pending)).2.
  split; [|split]; [vm_compute; reflexivity..|discriminate].
Qed.

(** C4, amended. For every task id present in the store,
    [toggle_task_status] flips the status of the task found (pending to
    completed, completed to pending), changes no other attribute, and
    returns [None]; the caller reads the new status from the store with
    [get_task_by_id]. *)
Theorem toggle_flips (w : world) (task_id : Z) (i : nat) (task : Task.t) :
  get_task_by_id (manager w) task_id = Some (i, task) →
  ∃ w' task',
    toggle_task_status task_id w = (Return VNone, w') ∧
    get_task_by_id (manager w') task_id = Some (i, task') ∧
    task' = Task.set_status (Task.status task') task ∧
    (Task.status task = VStr pending → Task.status task' = VStr completed) ∧
    (Task.status task = VStr completed → Task.status task' = VStr pending).
Proof.
  intros Hget. destruct (toggle_get w task_id i task Hget) as (w' & Hrun & Hget').
  exists w', (Task.set_status (toggled task) task).
  split_and!; [done..| |].
  - apply toggled_pending.
  - intros Hs. apply toggled_other. rewrite Hs. by intros [=].
Qed.

Lemma toggle_flips_witness :
  ∃ w' task',
    toggle_task_status 1 (one_task completed) = (Return VNone, w') ∧
    get_task_by_id (manager w') 1 = Some (0%nat, task') ∧
    task' = Task.set_status (Task.status task') (milk completed) ∧
    (Task.status (milk completed) = VStr pending →
     Task.status task' = VStr completed) ∧
    (Task.status (milk completed) = VStr completed →
     Task.status task' = VStr pending).
Proof.
  apply (toggle_flips (one_task completed) 1 0 (milk completed)).
  vm_compute. reflexivity.
Defined.

(** C5, as stated, fails: [save_tasks] catches the error of a write
    that fails and returns as after one that succeeds.  On a disk that
    refuses the write the file is not there afterwards, and loading gives
    the empty store with [next_id = 1], not the task and the counter that
    were saved. *)
Lemma save_refused_then_load_empty :
  ∃ w1 w2,
    TodoManager.tasks (manager (unsaved locked)) = [milk pending] ∧
    TodoManager.next_id (manager (unsaved locked)) = VInt 2 ∧
    save_tasks (unsaved locked) = (Return VNone, w1) ∧
    files w1 = ∅ ∧
    init "tasks.json" w1 = (Return VNone, w2) ∧
    TodoManager.tasks (manager w2) = [] ∧
    TodoManager.next_id (manager w2) = VInt 1.
Proof.
  exists (save_tasks (unsaved locked)).2,
         (init "tasks.json" (save_tasks (unsaved locked)).2).2.
  split_and!; vm_compute; reflexivity.
Qed.

(** C5, amended. [save_tasks] always returns, and leaves the manager as
    it is.  When its write succeeds, loading from the same path into a
    newly constructed manager reproduces the same sequence of tasks (all
    five attributes of each, in the same order) and the same [next_id],
    for every sequence of tasks and every [next_id]. *)
Theorem save_load_roundtrip (w : world) :
  ∃ w1,
    save_tasks w = (Return VNone, w1) ∧
    manager w1 = manager w ∧
    (disk w (TodoManager.storage_file (manager w)) (save_data (manager w))
       = Saved →
     ∃ w2,
       init (TodoManager.storage_file (manager w)) w1 = (Return VNone, w2) ∧
       TodoManager.tasks (manager w2) = TodoManager.tasks (manager w) ∧
       TodoManager.next_id (manager w2) = TodoManager.next_id (manager w) ∧
       manager w2 = manager w).
Proof.
  destruct w as [[path ts n] fs d]. eexists.
  split; [apply save_tasks_eq|]. split; [done|]. intros Hsaved. eexists.
  rewrite init_eq, load_tasks_eq. unfold written_files.
  cbn [manager files disk TodoManager.storage_file] in *.
  rewrite Hsaved, lookup_insert_eq. cbn [json_load mbind outcome_bind].
  rewrite decode_save_data. done.
Qed.

Lemma save_load_roundtrip_witness :
  ∃ w1 w2,
    save_tasks (unsaved reliable) = (Return VNone, w1) ∧
    init "tasks.json" w1 = (Return VNone, w2) ∧
    TodoManager.tasks (manager w2) = [milk pending] ∧
    TodoManager.next_id (manager w2) = VInt 2 ∧
    manager w2 = manager (unsaved reliable).
Proof.
  destruct (save_load_roundtrip (unsaved reliable)) as (w1 & Hsave & _ & Hload).
  destruct Hload as (w2 & Hinit & Htasks & Hnext & Hmanager); [reflexivity|].
  by exists w1, w2.
Defined.

(** C6, as stated, fails: a file whose top-level object has valid tasks
    but no "next_id" is missing part of the expected structure, and it
    loads as its tasks with [next_id = 1], not as the empty store. *)
Lemma load_without_next_id_keeps_tasks :
  no_next_id !! u "next_id" = None ∧
  init "tasks.json" (on_disk (Document (VDict no_next_id)))
  = (Return VNone,
     World (TodoManager.mk "tasks.json" [milk pending] (VInt 1))
           (files (on_disk (Document (VDict no_next_id)))) reliable) ∧
  init "tasks.json" (on_disk (Document (VDict no_next_id)))
  ≠ (Return VNone,
     World (TodoManager.mk "tasks.json" [] (VInt 1))
           (files (on_disk (Document (VDict no_next_id)))) reliable).
Proof.
  split; [reflexivity|]. split.
  - vm_compute. reflexivity.
  - intros H. vm_compute in H. discriminate H.
Qed.

(** C6, amended. Loading a nonexistent path gives the empty store with
    [next_id = 1].  Loading a file of text that is not JSON
    ([JSONDecodeError]), or a JSON object whose "tasks" is a list of
    objects one of which lacks one of the five task keys, gives the same
    and does not raise.  A JSON object without "tasks" loads as no tasks
    with the file's "next_id" (1 if absent), and one whose task records
    all decode loads them with the file's "next_id" (1 if absent). *)
Theorem load_fallback (path : string) (w : world) :
  let fs := files w in
  let fresh :=
    (Return VNone, World (TodoManager.mk path [] (VInt 1)) fs (disk w)) in
  (fs !! path = None → init path w = fresh) ∧
  (fs !! path = Some Malformed → init path w = fresh) ∧
  (∀ d items,
     fs !! path = Some (Document (VDict d)) →
     d !! u "tasks" = Some (VList items) →
     Forall (λ v, ∃ d', v = VDict d') items →
     Exists (λ v, ∃ d' k, v = VDict d' ∧ k ∈ task_keys ∧ d' !! k = None)
            items →
     init path w = fresh) ∧
  (∀ d,
     fs !! path = Some (Document (VDict d)) →
     d !! u "tasks" = None →
     init path w =
     (Return VNone,
      World (TodoManager.mk path [] (default (VInt 1) (d !! u "next_id")))
            fs (disk w))) ∧
  (∀ d items ts,
     fs !! path = Some (Document (VDict d)) →
     d !! u "tasks" = Some (VList items) →
     Forall2 (λ v task, Task.from_dict v = Return task) items ts →
     init path w =
     (Return VNone,
      World (TodoManager.mk path ts (default (VInt 1) (d !! u "next_id")))
            fs (disk w))).
Proof.
  cbv zeta. rewrite init_eq, load_tasks_eq.
  cbn [manager files TodoManager.storage_file].
  split_and!.
  - by intros ->.
  - by intros ->.
  - intros d items -> Htasks Hdicts Hex.
    cbn [json_load mbind outcome_bind]. unfold decode, py_get.
    rewrite Htasks. cbn -[mapM].
    destruct (mapM_from_dict_missing_key items Hdicts Hex) as [k ->].
    reflexivity.
  - intros d -> Htasks.
    cbn [json_load mbind outcome_bind]. unfold decode, py_get.
    rewrite Htasks. reflexivity.
  - intros d items ts -> Htasks Hall.
    cbn [json_load mbind outcome_bind]. unfold decode, py_get.
    rewrite Htasks. cbn -[mapM].
    rewrite (mapM_from_dict_Forall2 items ts Hall). reflexivity.
Qed.

Lemma load_fallback_witness :
  init "tasks.json" blank
    = (Return VNone,
       World (TodoManager.mk "tasks.json" [] (VInt 1)) ∅ reliable) ∧
  init "tasks.json" (on_disk Malformed)
    = (Return VNone,
       World (TodoManager.mk "tasks.json" [] (VInt 1))
             (files (on_disk Malformed)) reliable) ∧
  init "tasks.json" (on_disk (Document (VDict one_without_status)))
    = (Return VNone,
       World (TodoManager.mk "tasks.json" [] (VInt 1))
             (files (on_disk (Document (VDict one_without_status))))
             reliable) ∧
  init "tasks.json" (on_disk (Document (VDict no_tasks)))
    = (Return VNone,
       World (TodoManager.mk "tasks.json" []
                (default (VInt 1) (no_tasks !! u "next_id")))
             (files (on_disk (Document (VDict no_tasks)))) reliable) ∧
  init "tasks.json" (on_disk (Document (VDict no_next_id)))
    = (Return VNone,
       World (TodoManager.mk "tasks.json" [milk pending]
                (default (VInt 1) (no_next_id !! u "next_id")))
             (files (on_disk (Document (VDict no_next_id)))) reliable).
Proof.
  split_and!.
  - destruct (load_fallback "tasks.json" blank) as (H & _).
    apply H. reflexivity.
  - destruct (load_fallback "tasks.json" (on_disk Malformed)) as (_ & H & _).
    apply H. reflexivity.
  - destruct (load_fallback "tasks.json"
                (on_disk (Document (VDict one_without_status))))
      as (_ & _ & H & _).
    apply (H one_without_status [VDict no_status]).
    + reflexivity.
    + reflexivity.
    + apply Forall_singleton. by eexists.
    + apply Exists_cons_hd. exists no_status, (u "status").
      split_and!; [reflexivity| |reflexivity].
      unfold task_keys. do 3 (apply elem_of_cons; right).
      apply elem_of_cons. by left.
  - destruct (load_fallback "tasks.json"
                (on_disk (Document (VDict no_tasks))))
      as (_ & _ & _ & H & _).
    apply H; reflexivity.
  - destruct (load_fallback "tasks.json"
                (on_disk (Document (VDict no_next_id))))
      as (_ & _ & _ & _ & H).
    apply (H no_next_id [Task.to_dict (milk pending)]).
    + reflexivity.
    + reflexivity.
    + constructor; [reflexivity|constructor].
Defined.

(** Content of another shape is outside the [except] clause of
    [load_tasks]: a top-level list has no [get], and a task entry that is
    not an object cannot be subscripted by a key. *)
Example load_wrong_shape_raises :
  (init "tasks.json" (on_disk (Document (VList [])))).1
    = Raise AttributeError ∧
  (init "tasks.json"
        (on_disk (Document (VDict {[ u "tasks" := VList [VInt 1] ]})))).1
    = Raise TypeError.
Proof. split; vm_compute; reflexivity. Qed.

(** So is a file that cannot be read as text: bytes that do not decode
    raise [UnicodeDecodeError], and what cannot be opened raises
    [OSError]; [load_tasks] catches neither, and the manager is left as
    [__init__] set it. *)
Example load_unreadable_raises (path : string) (w : world) :
  (files w !! path = Some Undecodable →
   init path w
   = (Raise UnicodeDecodeError,
      World (TodoManager.mk path [] (VInt 1)) (files w) (disk w))) ∧
  (files w !! path = Some Unreadable →
   init path w
   = (Raise OSError,
      World (TodoManager.mk path [] (VInt 1)) (files w) (disk w))).
Proof.
  rewrite init_eq, load_tasks_eq.
  cbn [manager files TodoManager.storage_file]. split; by intros ->.
Qed.

(** C7. For every store state, [add_task] with a title that strips to
    the empty string (in particular "" and "   ") raises [ValueError]
    ("Task title cannot be empty") and changes nothing: the number of
    tasks and [next_id] are as before. *)
Theorem add_task_empty_title (w : world) (now title description : pystr) :
  strip title = [] →
  ∃ w',
    add_task now title description w = (Raise (ValueError TitleEmpty), w') ∧
    length (TodoManager.tasks (manager w'))
      = length (TodoManager.tasks (manager w)) ∧
    TodoManager.next_id (manager w') = TodoManager.next_id (manager w) ∧
    w' = w.
Proof.
  intros Hempty. exists w. unfold add_task.
  rewrite bool_decide_true by done. done.
Qed.

Lemma add_task_empty_title_witness :
  (∃ w',
     add_task (u "2024-01-02T10:00:00") (u "") (u "x") (one_task pending)
       = (Raise (ValueError TitleEmpty), w') ∧
     length (TodoManager.tasks (manager w'))
       = length (TodoManager.tasks (manager (one_task pending))) ∧
     TodoManager.next_id (manager w')
       = TodoManager.next_id (manager (one_task pending)) ∧
     w' = one_task pending) ∧
  (∃ w',
     add_task (u "2024-01-02T10:00:00") (u "   ") (u "x") (one_task pending)
       = (Raise (ValueError TitleEmpty), w') ∧
     length (TodoManager.tasks (manager w'))
       = length (TodoManager.tasks (manager (one_task pending))) ∧
     TodoManager.next_id (manager w')
       = TodoManager.next_id (manager (one_task pending)) ∧
     w' = one_task pending).
Proof.
  split.
  - apply (add_task_empty_title (one_task pending)). reflexivity.
  - apply (add_task_empty_title (one_task pending)). reflexivity.
Defined.

(** C8, as stated, fails: [load_tasks] keeps the status of the file
    without validating it, and a task loaded with the status "done" is
    "completed" after two toggles. *)
Lemma toggle_twice_loaded_status :
  ∃ w0 w1 w2,
    init "tasks.json" (World (TodoManager.mk "" [] VNone)
                             (files (one_task (u "done"))) reliable)
      = (Return VNone, w0) ∧
    get_task_by_id (manager w0) 1 = Some (0, milk (u "done")) ∧
    toggle_task_status 1 w0 = (Return VNone, w1) ∧
    toggle_task_status 1 w1 = (Return VNone, w2) ∧
    get_task_by_id (manager w2) 1 = Some (0, milk completed) ∧
    Task.status (milk completed) ≠ Task.status (milk (u "done")).
Proof.
  set (w0 := (init "tasks.json" (World (TodoManager.mk "" [] VNone)
                                       (files (one_task (u "done")))
                                       reliable)).2).
  set (w1 := (toggle_task_status 1 w0).2).
  exists w0, w1, (toggle_task_status 1 w1).2.
  split_and!; [vm_compute; reflexivity..|]. vm_compute. discriminate.
Qed.

(** C8, amended. For every task id present in the store, two
    [toggle_task_status] calls in succession return the task found to
    what it was exactly when its status was "pending" or "completed";
    from any other status they leave it "completed". *)
Theorem toggle_twice (w : world) (task_id : Z) (i : nat) (task : Task.t) :
  get_task_by_id (manager w) task_id = Some (i, task) →
  ∃ w1 w2 task2,
    toggle_task_status task_id w = (Return VNone, w1) ∧
    toggle_task_status task_id w1 = (Return VNone, w2) ∧
    get_task_by_id (manager w2) task_id = Some (i, task2) ∧
    (task2 = task ↔
     Task.status task = VStr pending ∨ Task.status task = VStr completed) ∧
    (Task.status task ≠ VStr pending →
     Task.status task2 = VStr completed).
Proof.
  intros Hget.
  destruct (toggle_get w task_id i task Hget) as (w1 & Hrun1 & Hget1).
  destruct (toggle_get w1 task_id i _ Hget1) as (w2 & Hrun2 & Hget2).
  eexists w1, w2, _. split_and!; [done..| |].
  - rewrite toggled_twice, set_status_same. unfold py_eq_str.
    destruct (Task.status task) as [| | |s| |]; try (split; [done|by intros [|]]).
    case_bool_decide as Hp; [subst s|].
    + split; [by left|done].
    + split; [intros [= ->]; by right|intros [[= ->]|[= ->]]; done].
  - intros Hne. cbn [Task.status Task.set_status].
    rewrite (toggled_other task Hne). reflexivity.
Qed.

Lemma toggle_twice_witness :
  ∃ w1 w2 task2,
    toggle_task_status 1 (one_task pending) = (Return VNone, w1) ∧
    toggle_task_status 1 w1 = (Return VNone, w2) ∧
    get_task_by_id (manager w2) 1 = Some (0%nat, task2) ∧
    (task2 = milk pending ↔
     Task.status (milk pending) = VStr pending ∨
     Task.status (milk pending) = VStr completed) ∧
    (Task.status (milk pending) ≠ VStr pending →
     Task.status task2 = VStr completed).
Proof.
  apply (toggle_twice (one_task pending) 1 0 (milk pending)).
  vm_compute. reflexivity.
Defined.

(** C9. [toggle_task_status] sets the status to "completed" only when
    the current status is exactly "pending" and to "pending" for every
    other status; [load_tasks] keeps the status found in the file
    verbatim, so a task loaded with a status that is neither "pending" nor
    "completed" is "pending" after its first toggle. *)
Theorem toggle_completed_only_from_pending :
  (∀ (w : world) (task_id : Z) (i : nat) (task : Task.t),
     get_task_by_id (manager w) task_id = Some (i, task) →
     ∃ w' task',
       toggle_task_status task_id w = (Return VNone, w') ∧
       get_task_by_id (manager w') task_id = Some (i, task') ∧
       (Task.status task = VStr pending →
        Task.status task' = VStr completed) ∧
       (Task.status task ≠ VStr pending →
        Task.status task' = VStr pending)) ∧
  (∀ (path : string) (w : world) (this : TodoManager.t) (task_id : Z)
     (i : nat) (task : Task.t),
     files w !! path = Some (Document (save_data this)) →
     get_task_by_id this task_id = Some (i, task) →
     Task.status task ≠ VStr pending →
     Task.status task ≠ VStr completed →
     ∃ w1 w2 task',
       init path w = (Return VNone, w1) ∧
       get_task_by_id (manager w1) task_id = Some (i, task) ∧
       toggle_task_status task_id w1 = (Return VNone, w2) ∧
       get_task_by_id (manager w2) task_id = Some (i, task') ∧
       Task.status task' = VStr pending).
Proof.
  split.
  - intros w task_id i task Hget.
    destruct (toggle_get w task_id i task Hget) as (w' & Hrun & Hget').
    exists w', (Task.set_status (toggled task) task).
    split_and!; [done..| |].
    + apply toggled_pending.
    + apply toggled_other.
  - intros path w this task_id i task Hfile Hget Hnp Hnc.
    assert (init path w
            = (Return VNone,
               World (TodoManager.mk path (TodoManager.tasks this)
                        (TodoManager.next_id this)) (files w) (disk w)))
      as Hinit.
    { rewrite init_eq, load_tasks_eq.
      cbn [manager files TodoManager.storage_file]. rewrite Hfile.
      cbn [json_load mbind outcome_bind]. by rewrite decode_save_data. }
    set (w1 := World _ _ _) in Hinit.
    assert (get_task_by_id (manager w1) task_id = Some (i, task)) as Hget1
      by exact Hget.
    destruct (toggle_get w1 task_id i task Hget1) as (w2 & Hrun & Hget2).
    exists w1, w2, (Task.set_status (toggled task) task).
    split_and!; [done..|]. by apply toggled_other.
Qed.

Lemma toggle_completed_only_from_pending_witness :
  (∃ w' task',
     toggle_task_status 1 (one_task pending) = (Return VNone, w') ∧
     get_task_by_id (manager w') 1 = Some (0%nat, task') ∧
     (Task.status (milk pending) = VStr pending →
      Task.status task' = VStr completed) ∧
     (Task.status (milk pending) ≠ VStr pending →
      Task.status task' = VStr pending)) ∧
  (∃ w1 w2 task',
     init "tasks.json" (World (TodoManager.mk "" [] VNone)
                              (files (one_task (u "done"))) reliable)
       = (Return VNone, w1) ∧
     get_task_by_id (manager w1) 1 = Some (0%nat, milk (u "done")) ∧
     toggle_task_status 1 w1 = (Return VNone, w2) ∧
     get_task_by_id (manager w2) 1 = Some (0%nat, task') ∧
     Task.status task' = VStr pending).
Proof.
  split.
  - apply (proj1 toggle_completed_only_from_pending
             (one_task pending) 1%Z 0%nat (milk pending)).
    vm_compute. reflexivity.
  - apply (proj2 toggle_completed_only_from_pending "tasks.json"
             (World (TodoManager.mk "" [] VNone) (files (one_task (u "done")))
                    reliable)
             (TodoManager.mk "tasks.json" [milk (u "done")] (VInt 2))
             1%Z 0%nat (milk (u "done"))).
    + vm_compute. reflexivity.
    + vm_compute. reflexivity.
    + vm_compute. discriminate.
    + vm_compute. discriminate.
Defined.

(** C10. [add_task] and [update_task] store the description with the
    leading and trailing whitespace removed.  What is stored is the part
    of the description argument between a run of whitespace characters
    before it and one after it, and it neither starts nor ends with a
    whitespace character; so the raw text is stored only when it has no
    whitespace at either end.  This holds of the task [add_task] appends
    and returns and of the task [update_task] finds, whatever the
    description argument. *)
Theorem description_stored_stripped (w : world) (description : pystr) :
  (∃ lead trail,
     description = lead ++ strip description ++ trail ∧
     Forall (λ c, isspace c = true) lead ∧
     Forall (λ c, isspace c = true) trail) ∧
  (∀ c, head (strip description) = Some c → isspace c = false) ∧
  (∀ c, last (strip description) = Some c → isspace c = false) ∧
  (strip description = description ↔
   (∀ c, head description = Some c → isspace c = false) ∧
   (∀ c, last description = Some c → isspace c = false)) ∧
  (∀ (now title : pystr) (n : pyval),
     strip title ≠ [] →
     py_incr (TodoManager.next_id (manager w)) = Return n →
     ∃ task w',
       add_task now title description w = (Return task, w') ∧
       TodoManager.tasks (manager w')
         = TodoManager.tasks (manager w) ++ [task] ∧
       Task.description task = VStr (strip description)) ∧
  (∀ (task_id : Z) (title status : option pystr) (i : nat) (task : Task.t),
     get_task_by_id (manager w) task_id = Some (i, task) →
     ∃ r w' task',
       update_task task_id title (Some description) status w = (r, w') ∧
       get_task_by_id (manager w') task_id = Some (i, task') ∧
       Task.description task' = VStr (strip description) ∧
       ((∀ s, status = Some s → s ∈ [pending; completed]) →
        r = Return VNone)).
Proof.
  split_and!.
  - apply strip_surrounded.
  - apply strip_head.
  - apply strip_last.
  - split.
    + intros <-. split; [apply strip_head|apply strip_last].
    + intros [Hhead Hlast]. by apply strip_clean.
  - intros now title n Htitle Hincr.
    rewrite (add_task_ok w now title description n Htitle Hincr).
    cbv zeta. rewrite save_tasks_eq.
    eexists _, _. split; [reflexivity|]. split; reflexivity.
  - intros task_id title status i task Hget.
    rewrite (update_found w task_id i task title (Some description) status Hget).
    cbv zeta. destruct status as [s|]; [case_bool_decide as Hs|].
    all: eexists _, _, _;
      (split; [first [apply save_tasks_eq|reflexivity]|]);
      cbn [manager set_state];
      (split; [apply (get_task_by_id_alter (manager w)); [|done];
               intros task'; by destruct title|]);
      (split; [destruct title; reflexivity|]).
    + done.
    + intros Hok. destruct Hs. by apply Hok.
    + done.
Qed.

Lemma description_stored_stripped_witness :
  u "  due Friday " = u "  " ++ u "due Friday" ++ u " " ∧
  (∃ task w',
     add_task (u "2024-01-02T10:00:00") (u "Write report")
              (u "  due Friday ") (one_task pending) = (Return task, w') ∧
     TodoManager.tasks (manager w')
       = TodoManager.tasks (manager (one_task pending)) ++ [task] ∧
     Task.description task = VStr (u "due Friday")) ∧
  (∃ r w' task',
     update_task 1 None (Some (u "  due Friday ")) (Some completed)
                 (one_task pending) = (r, w') ∧
     get_task_by_id (manager w') 1 = Some (0%nat, task') ∧
     Task.description task' = VStr (u "due Friday") ∧
     r = Return VNone).
Proof.
  destruct (description_stored_stripped (one_task pending)
              (u "  due Friday ")) as (_ & _ & _ & _ & Hadd & Hupdate).
  split; [reflexivity|]. split.
  - destruct (Hadd (u "2024-01-02T10:00:00") (u "Write report") (VInt 3))
      as (task & w' & Hcall & Htasks & Hstored).
    + vm_compute. discriminate.
    + reflexivity.
    + exists task, w'. split; [exact Hcall|]. split; [exact Htasks|].
      rewrite Hstored. reflexivity.
  - destruct (Hupdate 1%Z None (Some completed) 0%nat (milk pending))
      as (r & w' & task' & Hcall & Hget & Hstored & Hreturn).
    + vm_compute. reflexivity.
    + exists r, w', task'. split; [exact Hcall|]. split; [exact Hget|].
      split; [rewrite Hstored; reflexivity|].
      apply Hreturn. intros s [= <-]. apply elem_of_cons. right.
      apply elem_of_cons. by left.
Defined.

(** * Further properties of the store *)



(** X2. [load_tasks] only reads: it never changes a file, the storage
    path or what the disk does.  It returns normally, or raises
    [AttributeError] or [TypeError] on a document of the wrong shape,
    [UnicodeDecodeError] on bytes that are not text, or [OSError] on what
    cannot be opened; it never raises [KeyError] or [JSONDecodeError],
    which it catches.  When it raises, the manager is as it was.  Loading
    again gives the same result and the same state. *)
Theorem load_tasks_reads_only (w : world) :
  ∃ r w',
    load_tasks w = (r, w') ∧
    files w' = files w ∧
    TodoManager.storage_file (manager w')
      = TodoManager.storage_file (manager w) ∧
    disk w' = disk w ∧
    (r = Return VNone ∨
     (∃ e, r = Raise e ∧
           e ∈ [AttributeError; TypeError; UnicodeDecodeError; OSError]) ∧
     w' = w) ∧
    (files w !! TodoManager.storage_file (manager w) = Some Undecodable →
     r = Raise UnicodeDecodeError) ∧
    (files w !! TodoManager.storage_file (manager w) = Some Unreadable →
     r = Raise OSError) ∧
    load_tasks w' = (r, w').
Proof.
  exists (load_tasks w).1, (load_tasks w).2.
  split; [by destruct (load_tasks w)|].
  destruct (load_tasks_files w) as (Hfiles & Hpath & Hdisk).
  split; [done|]. split; [done|]. split; [done|].
  split_and!; [| | |rewrite load_tasks_again; by destruct (load_tasks w)];
    rewrite load_tasks_eq.
  - destruct (files w !! _) as [f|]; [|by left].
    destruct (json_load f ≫= decode) as [[ts n]|e] eqn:Hdec; [by left|].
    assert (e = JSONDecodeError ∨ (∃ k, e = KeyError k) ∨
            e ∈ [AttributeError; TypeError; UnicodeDecodeError; OSError])
      as He.
    { destruct f as [|data| |].
      - injection Hdec as <-. by left.
      - destruct (decode_raises data e Hdec) as [->|[->|[k ->]]].
        + right; right. by repeat constructor.
        + right; right. by repeat constructor.
        + right; left. by exists k.
      - injection Hdec as <-. right; right. by repeat constructor.
      - injection Hdec as <-. right; right. by repeat constructor. }
    destruct He as [->|[[k ->]|He]]; cbn [fst snd]; [by left..|].
    right.
    repeat (apply elem_of_cons in He as [->|He];
            [split; [eexists; split; [reflexivity|]; by repeat constructor
                    |reflexivity]|]).
    by apply elem_of_nil in He.
  - by intros ->.
  - by intros ->.
Qed.

(** X4. Write-through, as far as the disk allows.  A create, update,
    delete or toggle call returns whatever becomes of its write.  If the
    write succeeds, the storage file holds the state of the manager:
    loading it back changes nothing.  If [open] fails, the files are as
    before the call.  If the write fails after the file was opened, the
    file is left with text that is not JSON, and loading gives the empty
    store with [next_id = 1]. *)
Theorem returned_call_write_through (c : call) (w : world) :
  c ≠ Reload →
  (invoke c w).1 = None →
  let w' := (invoke c w).2 in
  let path := TodoManager.storage_file (manager w) in
  TodoManager.storage_file (manager w') = path ∧
  match disk w path (save_data (manager w')) with
  | Saved =>
      files w' = <[path := Document (save_data (manager w'))]> (files w) ∧
      load_tasks w' = (Return VNone, w')
  | Refused => files w' = files w
  | Truncated =>
      files w' = <[path := Malformed]> (files w) ∧
      load_tasks w' = (Return VNone, set_state [] (VInt 1) w')
  end.
Proof.
  intros Hc Hok. cbv zeta.
  destruct (invoke_cases c w)
    as [(w1 & Heq & Hfiles & Hpath & Hdisk)|[(e & w1 & Heq & _)|[-> _]]];
    [|by rewrite Heq in Hok|done].
  rewrite Heq. cbn [snd].
  pose proof (load_after_save w1) as Hsaved.
  pose proof (load_after_truncated w1) as Htruncated.
  rewrite save_tasks_eq in *. unfold written_files in *.
  cbn [snd manager files] in *.
  rewrite Hpath, Hdisk, Hfiles in *. split; [done|].
  destruct (disk w _ _); [split|done|split]; auto.
Qed.

Lemma returned_call_write_through_witness :
  (files (invoke (Toggle 1) (one_task pending)).2
   = {[ "tasks.json" :=
          Document (save_data (TodoManager.mk "tasks.json" [milk completed]
                                              (VInt 2))) ]} ∧
   load_tasks (invoke (Toggle 1) (one_task pending)).2
   = (Return VNone, (invoke (Toggle 1) (one_task pending)).2)) ∧
  files (invoke (Toggle 1) (unsaved locked)).2 = ∅ ∧
  (files (invoke (Toggle 1) (unsaved full)).2 = {[ "tasks.json" := Malformed ]} ∧
   load_tasks (invoke (Toggle 1) (unsaved full)).2
   = (Return VNone,
      set_state [] (VInt 1) (invoke (Toggle 1) (unsaved full)).2)).
Proof.
  split_and!.
  - destruct (returned_call_write_through (Toggle 1) (one_task pending))
      as (_ & Hfiles & _); [discriminate|reflexivity|].
    rewrite Hfiles. vm_compute. reflexivity.
  - destruct (returned_call_write_through (Toggle 1) (one_task pending))
      as (_ & _ & Hload); [discriminate|reflexivity|]. exact Hload.
  - destruct (returned_call_write_through (Toggle 1) (unsaved locked))
      as (_ & Hfiles); [discriminate|reflexivity|]. exact Hfiles.
  - destruct (returned_call_write_through (Toggle 1) (unsaved full))
      as (_ & Hfiles & _); [discriminate|reflexivity|]. exact Hfiles.
  - destruct (returned_call_write_through (Toggle 1) (unsaved full))
      as (_ & _ & Hload); [discriminate|reflexivity|]. exact Hload.
Defined.

(** X5. A call that raises writes nothing: the files are as before the
    call.  No call ever touches a file other than the manager's storage
    file, and none changes the storage path. *)
Theorem raised_call_writes_nothing (c : call) (w : world) :
  (∀ e, (invoke c w).1 = Some e → files (invoke c w).2 = files w) ∧
  (∀ path, path ≠ TodoManager.storage_file (manager w) →
           files (invoke c w).2 !! path = files w !! path) ∧
  TodoManager.storage_file (manager (invoke c w).2)
    = TodoManager.storage_file (manager w).
Proof.
  destruct (invoke_cases c w)
    as [(w1 & Heq & Hfiles & Hpath & _)|[(e & w1 & Heq & Hfiles & Hpath & _)
       |[-> Heq]]];
    rewrite Heq; cbn [fst snd].
  - split_and!; [done| |by rewrite save_tasks_eq].
    intros path Hne. rewrite save_tasks_eq. cbn [snd files].
    rewrite written_files_other by congruence. by rewrite Hfiles.
  - split_and!; [done|intros; by rewrite Hfiles|done].
  - destruct (load_tasks_files w) as (Hfiles & Hpath & _).
    split_and!; [done|intros; by rewrite Hfiles|done].
Qed.

Lemma raised_call_writes_nothing_witness :
  files (invoke (Update 1 (Some (u "Buy bread")) None (Some (u "bogus")))
                (one_task pending)).2
  = files (one_task pending) ∧
  files (invoke (Toggle 1) (one_task pending)).2 !! "other.json"
  = files (one_task pending) !! "other.json".
Proof.
  split.
  - destruct (raised_call_writes_nothing
                (Update 1 (Some (u "Buy bread")) None (Some (u "bogus")))
                (one_task pending)) as (H & _).
    apply (H (ValueError StatusInvalid)). vm_compute. reflexivity.
  - destruct (raised_call_writes_nothing (Toggle 1) (one_task pending))
      as (_ & H & _).
    apply H. vm_compute. discriminate.
Defined.

Section Finding.

Context {A : Type} (P : A → Prop) `{!∀ x, Decision (P x)}.

Lemma list_find_take_None (l : list A) (i : nat) (x : A) :
  list_find P l = Some (i, x) → list_find P (take i l) = None.
Proof.
  intros (Hi & HP & Hleast)%list_find_Some.
  apply list_find_None, Forall_lookup. intros j y Hj.
  apply lookup_take_Some in Hj as [Hj Hlt]. eauto.
Qed.

(** After the first match is removed, the next match is the first. *)
Lemma list_find_delete_found (l : list A) (i : nat) (x : A) :
  list_find P l = Some (i, x) →
  list_find P (delete i l)
  = prod_map (λ n, n + i) id <$> list_find P (drop (S i) l).
Proof.
  intros Hfind. pose proof (list_find_take_None l i x Hfind) as Hnone.
  apply list_find_Some in Hfind as (Hi & _ & _).
  rewrite delete_take_drop, (list_find_app_r _ _ _ Hnone).
  rewrite length_take_le; [done|]. apply lookup_lt_Some in Hi. lia.
Qed.

(** Removing another element moves a match by at most one place. *)
Lemma list_find_delete_other (l : list A) (i j : nat) (y : A) :
  list_find P l = Some (j, y) → i ≠ j →
  list_find P (delete i l) = Some (if decide (j < i) then j else pred j, y).
Proof.
  intros (Hj & HP & Hleast)%list_find_Some Hne. apply list_find_Some.
  case_decide as Hlt.
  - split_and!; [by rewrite list_lookup_delete_lt|done|].
    intros k z Hk Hkj. rewrite list_lookup_delete_lt in Hk by lia. eauto.
  - assert (i < j) as Hij by lia. destruct j as [|j]; [lia|]. cbn [pred].
    split_and!; [by rewrite list_lookup_delete_ge by lia|done|].
    intros k z Hk Hkj. rewrite list_lookup_delete in Hk.
    case_decide; [eapply (Hleast k); [done|lia]|].
    eapply (Hleast (S k)); [done|lia].
Qed.

Lemma list_find_snoc_new (l : list A) (x : A) :
  list_find P l = None → P x →
  list_find P (l ++ [x]) = Some (length l, x).
Proof.
  intros Hnone HP. rewrite (list_find_app_r _ _ _ Hnone).
  cbn. by rewrite decide_True.
Qed.

End Finding.

Lemma py_eq_int_inj (v : pyval) (a b : Z) :
  py_eq_int v a = true → py_eq_int v b = true → a = b.
Proof. destruct v; cbn; try done; lia. Qed.

(** X6. [update_task], [delete_task] and [toggle_task_status] called with
    an id that no task has raise [ValueError] ("Task with ID ... not
    found") and change nothing, in memory or on disk. *)
Theorem absent_id_rejected (w : world) (task_id : Z)
    (title description status : option pystr) :
  get_task_by_id (manager w) task_id = None →
  update_task task_id title description status w
    = (Raise (ValueError (TaskNotFound task_id)), w) ∧
  delete_task task_id w = (Raise (ValueError (TaskNotFound task_id)), w) ∧
  toggle_task_status task_id w
    = (Raise (ValueError (TaskNotFound task_id)), w).
Proof.
  intros Hget. split_and!.
  - by apply update_not_found.
  - by apply delete_not_found.
  - by apply toggle_not_found.
Qed.

Lemma absent_id_rejected_witness :
  update_task 7 (Some (u "x")) None None (one_task pending)
    = (Raise (ValueError (TaskNotFound 7)), one_task pending) ∧
  delete_task 7 (one_task pending)
    = (Raise (ValueError (TaskNotFound 7)), one_task pending) ∧
  toggle_task_status 7 (one_task pending)
    = (Raise (ValueError (TaskNotFound 7)), one_task pending).
Proof.
  apply (absent_id_rejected (one_task pending) 7). vm_compute. reflexivity.
Defined.

(** X7. [delete_task] on an id that is present removes exactly the task
    found, keeps the others in their order and leaves [next_id] alone.
    Afterwards the id is not found unless a later task had the same id,
    and every other id is found as before, on the same task. *)
Theorem delete_removes_found (w : world) (task_id : Z) (i : nat)
    (task : Task.t) :
  get_task_by_id (manager w) task_id = Some (i, task) →
  ∃ w',
    delete_task task_id w = (Return VNone, w') ∧
    TodoManager.tasks (manager w')
      = take i (TodoManager.tasks (manager w)) ++
        drop (S i) (TodoManager.tasks (manager w)) ∧
    S (length (TodoManager.tasks (manager w')))
      = length (TodoManager.tasks (manager w)) ∧
    TodoManager.next_id (manager w') = TodoManager.next_id (manager w) ∧
    (get_task_by_id (manager w') task_id = None ↔
     Forall (λ later, py_eq_int (Task.id later) task_id = false)
            (drop (S i) (TodoManager.tasks (manager w)))) ∧
    (∀ other j task',
       other ≠ task_id →
       get_task_by_id (manager w) other = Some (j, task') →
       get_task_by_id (manager w') other
       = Some (if decide (j < i) then j else pred j, task')).
Proof.
  intros Hget. rewrite (delete_found w task_id i task Hget), save_tasks_eq.
  eexists. split; [reflexivity|].
  cbn [manager set_state TodoManager.tasks TodoManager.next_id].
  unfold get_task_by_id in *. cbn [TodoManager.tasks].
  split_and!.
  - apply delete_take_drop.
  - rewrite length_delete.
    + apply list_find_Some in Hget as (Hi & _). apply lookup_lt_Some in Hi. lia.
    + apply list_find_Some in Hget as (Hi & _). by eexists.
  - done.
  - rewrite (list_find_delete_found _ _ _ _ Hget), fmap_None, list_find_None.
    apply Forall_iff. intros later.
    by destruct (py_eq_int (Task.id later) task_id).
  - intros other j task' Hne Hother.
    apply (list_find_delete_other _ _ _ _ _ Hother). intros ->.
    apply list_find_Some in Hget as (Hi & Hid & _).
    apply list_find_Some in Hother as (Hj & Hid' & _).
    assert (task' = task) as -> by congruence.
    apply Hne. by apply (py_eq_int_inj (Task.id task)).
Qed.

Lemma delete_removes_found_witness :
  ∃ w',
    delete_task 1 (one_task pending) = (Return VNone, w') ∧
    TodoManager.tasks (manager w')
      = take 0 (TodoManager.tasks (manager (one_task pending))) ++
        drop 1 (TodoManager.tasks (manager (one_task pending))) ∧
    S (length (TodoManager.tasks (manager w')))
      = length (TodoManager.tasks (manager (one_task pending))) ∧
    TodoManager.next_id (manager w')
      = TodoManager.next_id (manager (one_task pending)) ∧
    (get_task_by_id (manager w') 1 = None ↔
     Forall (λ later, py_eq_int (Task.id later) 1 = false)
            (drop 1 (TodoManager.tasks (manager (one_task pending))))) ∧
    (∀ other j task',
       other ≠ 1%Z →
       get_task_by_id (manager (one_task pending)) other = Some (j, task') →
       get_task_by_id (manager w') other
       = Some (if decide (j < 0) then j else pred j, task')).
Proof.
  apply (delete_removes_found (one_task pending) 1 0 (milk pending)).
  vm_compute. reflexivity.
Defined.

(** X8. [add_task] with a title that is not blank, on an integer
    counter [n], returns the new task: id [n], the stripped title (not
    blank, no surrounding whitespace) and description, status "pending"
    and the current time.  The task is appended after the existing ones,
    which are untouched, [next_id] becomes [n + 1], and if no task had
    the id [n] the new task is the one [get_task_by_id] finds for it. *)
Theorem add_task_appends (w : world) (now title description : pystr)
    (n : Z) :
  strip title ≠ [] →
  TodoManager.next_id (manager w) = VInt n →
  ∃ task w',
    add_task now title description w = (Return task, w') ∧
    task = Task.mk (VInt n) (VStr (strip title)) (VStr (strip description))
                   (VStr pending) (VStr now) ∧
    strip (strip title) = strip title ∧
    TodoManager.tasks (manager w')
      = TodoManager.tasks (manager w) ++ [task] ∧
    TodoManager.next_id (manager w') = VInt (n + 1) ∧
    (get_task_by_id (manager w) n = None →
     get_task_by_id (manager w') n
     = Some (length (TodoManager.tasks (manager w)), task)).
Proof.
  intros Htitle Hn.
  rewrite (add_task_ok w now title description (VInt (n + 1)) Htitle)
    by (by rewrite Hn).
  cbv zeta. rewrite save_tasks_eq, Hn. eexists _, _.
  split; [reflexivity|].
  cbn [snd manager set_state TodoManager.tasks TodoManager.next_id].
  split_and!; [done|apply strip_idemp|done|done|].
  unfold get_task_by_id. cbn [TodoManager.tasks]. intros Hnone.
  apply list_find_snoc_new; [done|]. cbn. apply Z.eqb_refl.
Qed.

Lemma add_task_appends_witness :
  ∃ task w',
    add_task (u "2024-01-02T10:00:00") (u "  Call bank ") (u "")
             (one_task pending) = (Return task, w') ∧
    task = Task.mk (VInt 2) (VStr (strip (u "  Call bank ")))
                   (VStr (strip (u ""))) (VStr pending)
                   (VStr (u "2024-01-02T10:00:00")) ∧
    strip (strip (u "  Call bank ")) = strip (u "  Call bank ") ∧
    TodoManager.tasks (manager w')
      = TodoManager.tasks (manager (one_task pending)) ++ [task] ∧
    TodoManager.next_id (manager w') = VInt (2 + 1) ∧
    (get_task_by_id (manager (one_task pending)) 2 = None →
     get_task_by_id (manager w') 2
     = Some (length (TodoManager.tasks (manager (one_task pending))), task)).
Proof.
  apply (add_task_appends (one_task pending)).
  - vm_compute. discriminate.
  - reflexivity.
Defined.

(** X9. [add_task] on a counter that is not a number (as a file with a
    "next_id" that is null, a string, a list or an object leaves it):
    the call raises [TypeError] from the increment, after the new task
    has been appended with that counter as its id; the counter and the
    files are unchanged. *)
Theorem add_task_counter_not_a_number (w : world)
    (now title description : pystr) :
  strip title ≠ [] →
  (∀ z, TodoManager.next_id (manager w) ≠ VInt z) →
  (∀ b, TodoManager.next_id (manager w) ≠ VBool b) →
  ∃ w',
    add_task now title description w = (Raise TypeError, w') ∧
    TodoManager.tasks (manager w')
      = TodoManager.tasks (manager w) ++
        [Task.mk (TodoManager.next_id (manager w)) (VStr (strip title))
                 (VStr (strip description)) (VStr pending) (VStr now)] ∧
    TodoManager.next_id (manager w') = TodoManager.next_id (manager w) ∧
    files w' = files w.
Proof.
  intros Htitle Hint Hbool.
  rewrite (add_task_counter_error w now title description TypeError Htitle).
  - by eexists.
  - destruct (TodoManager.next_id (manager w)) as [|b|z| | |]; try done.
    + by destruct (Hbool b).
    + by destruct (Hint z).
Qed.

Lemma add_task_counter_not_a_number_witness :
  ∃ w',
    add_task (u "2024-01-02T10:00:00") (u "Call bank") (u "") blank
      = (Raise TypeError, w') ∧
    TodoManager.tasks (manager w')
      = TodoManager.tasks (manager blank) ++
        [Task.mk (TodoManager.next_id (manager blank))
                 (VStr (strip (u "Call bank"))) (VStr (strip (u "")))
                 (VStr pending) (VStr (u "2024-01-02T10:00:00"))] ∧
    TodoManager.next_id (manager w') = TodoManager.next_id (manager blank) ∧
    files w' = files blank.
Proof.
  apply (add_task_counter_not_a_number blank).
  - vm_compute. discriminate.
  - intros z. vm_compute. discriminate.
  - intros b. vm_compute. discriminate.
Defined.

(** X10. [update_task] on an id that is present changes nothing but the
    title, description and status of the task found: its id and creation
    time, the other tasks, their order and [next_id] stay.  A field whose
    argument is omitted keeps its value; a given title or description is
    stored stripped.  The call returns [None] exactly when the status is
    omitted or valid; otherwise it raises [ValueError], the status and
    the files are unchanged, but a given title or description has been
    assigned. *)
Theorem update_task_changes_given_fields (w : world) (task_id : Z)
    (i : nat) (task : Task.t) (title description status : option pystr) :
  get_task_by_id (manager w) task_id = Some (i, task) →
  let accepted := ∀ s, status = Some s → s ∈ [pending; completed] in
  ∃ r w',
    update_task task_id title description status w = (r, w') ∧
    (accepted → r = Return VNone) ∧
    (¬ accepted → r = Raise (ValueError StatusInvalid) ∧ files w' = files w) ∧
    TodoManager.next_id (manager w') = TodoManager.next_id (manager w) ∧
    TodoManager.tasks (manager w')
      = <[i := Task.mk
                 (Task.id task)
                 (from_option (λ s, VStr (strip s)) (Task.title task) title)
                 (from_option (λ s, VStr (strip s)) (Task.description task)
                              description)
                 (match r with
                  | Return _ => from_option VStr (Task.status task) status
                  | Raise _ => Task.status task
                  end)
                 (Task.created_at task)]>
        (TodoManager.tasks (manager w)).
Proof.
  intros Hget accepted. subst accepted.
  rewrite (update_found w task_id i task title description status Hget).
  cbv zeta.
  assert (TodoManager.tasks (manager w) !! i = Some task) as Hi.
  { unfold get_task_by_id in Hget. by apply list_find_Some in Hget as (? & _). }
  assert (∀ f, alter f i (TodoManager.tasks (manager w))
               = <[i := f task]> (TodoManager.tasks (manager w))) as Halter.
  { intros f. rewrite list_insert_alter. apply list_alter_ext; [|done].
    intros x Hx. congruence. }
  destruct status as [s|]; [case_bool_decide as Hs|].
  - eexists _, _. split; [apply save_tasks_eq|].
    cbn [manager set_state TodoManager.tasks TodoManager.next_id].
    split_and!; [done| |done|].
    + intros Hno. destruct Hno. by intros ? [= <-].
    + rewrite Halter. by destruct task, title, description.
  - eexists _, _. split; [reflexivity|].
    cbn [manager files set_state TodoManager.tasks TodoManager.next_id].
    split_and!; [|done|done|].
    + intros Hok. destruct Hs. by apply Hok.
    + rewrite Halter. by destruct task, title, description.
  - eexists _, _. split; [apply save_tasks_eq|].
    cbn [manager set_state TodoManager.tasks TodoManager.next_id].
    split_and!; [done| |done|].
    + intros Hno. by destruct Hno.
    + rewrite Halter. by destruct task, title, description.
Qed.

Lemma update_task_changes_given_fields_witness :
  ∃ r w',
    update_task 1 (Some (u " Buy bread ")) None (Some completed)
                (one_task pending) = (r, w') ∧
    ((∀ s, Some completed = Some s → s ∈ [pending; completed]) →
     r = Return VNone) ∧
    (¬ (∀ s, Some completed = Some s → s ∈ [pending; completed]) →
     r = Raise (ValueError StatusInvalid) ∧
     files w' = files (one_task pending)) ∧
    TodoManager.next_id (manager w')
      = TodoManager.next_id (manager (one_task pending)) ∧
    TodoManager.tasks (manager w')
      = <[0%nat := Task.mk
                 (Task.id (milk pending))
                 (from_option (λ s, VStr (strip s))
                              (Task.title (milk pending))
                              (Some (u " Buy bread ")))
                 (from_option (λ s, VStr (strip s))
                              (Task.description (milk pending)) None)
                 (match r with
                  | Return _ =>
                      from_option VStr (Task.status (milk pending))
                                  (Some completed)
                  | Raise _ => Task.status (milk pending)
                  end)
                 (Task.created_at (milk pending))]>
        (TodoManager.tasks (manager (one_task pending))).
Proof.
  apply (update_task_changes_given_fields (one_task pending) 1 0
           (milk pending)).
  vm_compute. reflexivity.
Defined.

(** X11. [toggle_task_status] does what [update_task] does when called
    with the other status alone: "completed" for a task that is
    "pending", "pending" for any other task.  The two calls return the
    same value and leave the same state and files. *)
Theorem toggle_is_update (w : world) (task_id : Z) (i : nat)
    (task : Task.t) :
  get_task_by_id (manager w) task_id = Some (i, task) →
  toggle_task_status task_id w
  = update_task task_id None None
      (Some (if py_eq_str (Task.status task) pending then completed
             else pending)) w.
Proof.
  intros Hget.
  rewrite (toggle_found w task_id i task Hget).
  rewrite (update_found w task_id i task None None _ Hget). cbv zeta.
  rewrite bool_decide_true.
  - do 2 f_equal. apply list_alter_ext; [|done]. intros task' _.
    unfold toggled. by destruct (py_eq_str (Task.status task) pending).
  - destruct (py_eq_str (Task.status task) pending); set_solver.
Qed.

Lemma toggle_is_update_witness :
  toggle_task_status 1 (one_task pending)
  = update_task 1 None None
      (Some (if py_eq_str (Task.status (milk pending)) pending
             then completed else pending))
      (one_task pending).
Proof.
  apply (toggle_is_update (one_task pending) 1 0 (milk pending)).
  vm_compute. reflexivity.
Defined.

Section Robust.

(** A property [Q] of the tasks and the counter that holds of the empty
    store and that every request other than a reload keeps in memory. *)
Context (Q : list Task.t → pyval → Prop).
Hypothesis Q_fresh : Q [] (VInt 1).
Hypothesis Q_step : ∀ (c : call) (w : world),
  c ≠ Reload →
  Q (TodoManager.tasks (manager w)) (TodoManager.next_id (manager w)) →
  Q (TodoManager.tasks (manager (step c w).1))
    (TodoManager.next_id (manager (step c w).1)).

(** Such a property holds in memory and of the storage file after every
    request, whatever becomes of the writes: a file that was not written
    is as it was, a file that was written holds the state in memory, and
    on a file whose write failed half-way [load_tasks] falls back to the
    empty store. *)
Lemma step_robust (c : call) (w : world) :
  robust Q w → robust Q (step c w).1.
Proof.
  intros [Hmem Hfile].
  assert (c = Reload ∨ c ≠ Reload) as [->|Hc]
    by (destruct c; (by left) || (by right)).
  - cbn [step]. rewrite load_tasks_eq. unfold robust, loads, set_state in *.
    destruct (files w !! TodoManager.storage_file (manager w))
      as [f|] eqn:Hf.
    + destruct (json_load f ≫= decode) as [[ts n]|e] eqn:Hdec.
      * cbn [fst snd manager files set_state TodoManager.storage_file
             TodoManager.tasks TodoManager.next_id].
        by rewrite Hf, Hdec.
      * destruct e; try done;
          cbn [fst snd manager files set_state TodoManager.storage_file
               TodoManager.tasks TodoManager.next_id];
          by rewrite Hf, Hdec.
    + cbn [fst snd manager files set_state TodoManager.storage_file
           TodoManager.tasks TodoManager.next_id].
      by rewrite Hf.
  - pose proof (Q_step c w Hc Hmem) as Hmem'. split; [done|].
    destruct (step_disk c w) as [Hpath _]. rewrite Hpath.
    unfold loads in *.
    destruct (step_files c w Hc) as [->|[->| ->]]; [done| |done].
    cbn [json_load mbind outcome_bind]. by rewrite decode_save_data.
Qed.

Lemma run_robust (cs : list call) (w : world) :
  robust Q w → robust Q (run cs w).1.
Proof.
  revert w. induction cs as [|c cs IH]; intros w Hinv; [done|].
  cbn [run]. pose proof (step_robust c w Hinv) as Hstep.
  destruct (step c w) as [w1 ids1]. specialize (IH w1 Hstep).
  by destruct (run cs w1).
Qed.

Lemma init_robust (path : string) (w : world) :
  loads Q path (files w) →
  ∃ w0, init path w = (Return VNone, w0) ∧ robust Q w0.
Proof.
  intros Hfile. rewrite init_eq, load_tasks_eq. unfold robust, set_state.
  unfold loads in Hfile |- *.
  cbn [manager files TodoManager.storage_file].
  destruct (files w !! path) as [f|] eqn:Hf.
  - destruct (json_load f ≫= decode) as [[ts n]|e] eqn:Hdec.
    + eexists. split; [reflexivity|].
      cbn [manager files set_state TodoManager.storage_file
           TodoManager.tasks TodoManager.next_id].
      by rewrite Hf, Hdec.
    + destruct e; try done; (eexists; split; [reflexivity|]);
        cbn [manager files set_state TodoManager.storage_file
             TodoManager.tasks TodoManager.next_id];
        by rewrite Hf, Hdec.
  - eexists. split; [reflexivity|].
    cbn [manager files set_state TodoManager.storage_file
         TodoManager.tasks TodoManager.next_id].
    by rewrite Hf.
Qed.

End Robust.

Section Statuses.

Lemma valid_status_toggled (task : Task.t) : valid_status (toggled task).
Proof.
  unfold toggled, valid_status.
  destruct (py_eq_str (Task.status task) pending); auto.
Qed.

Lemma Forall_alter_status (f : Task.t → Task.t) (i : nat)
    (ts : list Task.t) :
  (∀ task, valid_status (Task.status task) →
           valid_status (Task.status (f task))) →
  Forall (λ task, valid_status (Task.status task)) ts →
  Forall (λ task, valid_status (Task.status task)) (alter f i ts).
Proof.
  intros Hf Hts. revert i.
  induction Hts as [|task ts Htask Hts IH]; intros [|i]; cbn;
    constructor; auto.
Qed.

(** One request other than a reload keeps the statuses in memory
    valid. *)
Lemma step_statuses_valid (c : call) (w : world) :
  c ≠ Reload →
  Forall (λ task, valid_status (Task.status task))
         (TodoManager.tasks (manager w)) →
  Forall (λ task, valid_status (Task.status task))
         (TodoManager.tasks (manager (step c w).1)).
Proof.
  intros Hc Hmem.
  destruct c as [now title description|task_id title description status
                |task_id|task_id|]; cbn [step]; [| | | |done].
  - destruct (decide (strip title = [])) as [Hblank|Hfull].
    { by rewrite add_task_blank. }
    assert (Forall (λ task, valid_status (Task.status task))
              (TodoManager.tasks (manager w) ++
               [Task.init now (TodoManager.next_id (manager w))
                  (VStr (strip title)) (VStr (strip description))
                  (VStr pending)])) as Hnew.
    { apply Forall_app. split; [done|]. apply Forall_singleton. by left. }
    destruct (py_incr (TodoManager.next_id (manager w))) as [n|e] eqn:Hincr.
    + rewrite (add_task_ok w now title description n Hfull Hincr).
      cbv zeta. by rewrite save_tasks_eq.
    + by rewrite (add_task_counter_error w now title description e Hfull
                    Hincr).
  - destruct (get_task_by_id (manager w) task_id) as [[i task]|] eqn:Hget.
    + rewrite (update_found w task_id i task title description status Hget).
      cbv zeta. destruct status as [s|]; [case_bool_decide as Hs|];
        rewrite ?save_tasks_eq;
        cbn [fst snd manager set_state TodoManager.tasks];
        (apply Forall_alter_status; [|done]).
      * intros task' _. cbn. unfold valid_status.
        apply elem_of_cons in Hs as [->|Hs]; [by left|].
        apply list_elem_of_singleton in Hs as ->. by right.
      * intros task'. by destruct title, description.
      * intros task'. by destruct title, description.
    + by rewrite update_not_found.
  - destruct (get_task_by_id (manager w) task_id) as [[i task]|] eqn:Hget.
    + rewrite (delete_found w task_id i task Hget), save_tasks_eq.
      cbn [fst snd manager set_state TodoManager.tasks].
      by apply Forall_delete.
    + by rewrite delete_not_found.
  - destruct (get_task_by_id (manager w) task_id) as [[i task]|] eqn:Hget.
    + rewrite (toggle_found w task_id i task Hget), save_tasks_eq.
      cbn [fst snd manager set_state TodoManager.tasks].
      apply Forall_alter_status; [|done].
      intros task' _. apply valid_status_toggled.
    + by rewrite toggle_not_found.
Qed.

End Statuses.

(** X12. The status domain is an invariant of the store: start from a
    storage file that is absent, or on which [load_tasks] falls back to
    the empty list, or that decodes to tasks whose statuses are all
    "pending" or "completed".  Then after any sequence of create, update,
    delete and toggle calls (failed ones included) and reloads, whatever
    becomes of the writes, every task in the store, and every task in the
    storage file, has the status "pending" or "completed". *)
Theorem statuses_stay_valid (path : string) (w : world) (cs : list call) :
  statuses_sound path (files w) →
  ∃ w0 w',
    init path w = (Return VNone, w0) ∧
    (run cs w0).1 = w' ∧
    Forall (λ task, Task.status task = VStr pending ∨
                    Task.status task = VStr completed)
           (TodoManager.tasks (manager w')) ∧
    statuses_sound (TodoManager.storage_file (manager w')) (files w').
Proof.
  intros Hsound.
  destruct (init_robust _ (Forall_nil_2 _) path w Hsound)
    as (w0 & Hinit & Hinv).
  exists w0, (run cs w0).1. split; [done|]. split; [done|].
  apply (run_robust
           (λ ts _, Forall (λ task, valid_status (Task.status task)) ts)
           (Forall_nil_2 _)); [|done].
  intros c w1. apply step_statuses_valid.
Qed.

Lemma statuses_stay_valid_witness :
  ∃ w0 w',
    init "tasks.json" (one_task completed) = (Return VNone, w0) ∧
    (run scenario w0).1 = w' ∧
    Forall (λ task, Task.status task = VStr pending ∨
                    Task.status task = VStr completed)
           (TodoManager.tasks (manager w')) ∧
    statuses_sound (TodoManager.storage_file (manager w')) (files w').
Proof.
  apply (statuses_stay_valid "tasks.json" (one_task completed) scenario).
  apply Forall_singleton. right. reflexivity.
Defined.

Section Listing.

Lemma pending_neq_completed : pending ≠ completed.
Proof. discriminate. Qed.

Lemma list_tasks_filter (this : TodoManager.t) (s : pystr) :
  s ≠ [] →
  list_tasks this (Some s)
  = filter (λ task, py_eq_str (Task.status task) s = true)
           (TodoManager.tasks this).
Proof. by destruct s. Qed.

Lemma py_eq_str_true (v : pyval) (s : pystr) :
  py_eq_str v s = true ↔ v = VStr s.
Proof.
  destruct v; cbn; try (split; [done|by intros [=]]).
  case_bool_decide; split; (done || congruence).
Qed.

End Listing.

(** X13. [list_tasks] without a filter, or with the empty string as
    filter, returns all the tasks.  With another filter it returns, in
    store order, exactly the tasks whose status equals it.  Every task is
    listed under "pending", under "completed", or under neither when its
    status is neither: the three counts add up to the number of tasks. *)
Theorem list_tasks_by_status (this : TodoManager.t) :
  list_tasks this None = TodoManager.tasks this ∧
  list_tasks this (Some []) = TodoManager.tasks this ∧
  (∀ s, s ≠ [] →
     list_tasks this (Some s) `sublist_of` TodoManager.tasks this ∧
     ∀ task, task ∈ list_tasks this (Some s) ↔
             task ∈ TodoManager.tasks this ∧ Task.status task = VStr s) ∧
  length (list_tasks this (Some pending)) +
  length (list_tasks this (Some completed)) +
  length (filter (λ task, Task.status task ≠ VStr pending ∧
                          Task.status task ≠ VStr completed)
                 (TodoManager.tasks this))
  = length (TodoManager.tasks this).
Proof.
  split_and!; [done|done| |].
  - intros s Hs. rewrite list_tasks_filter by done. split.
    + apply sublist_filter.
    + intros task. rewrite list_elem_of_filter, py_eq_str_true. tauto.
  - rewrite !list_tasks_filter by done.
    induction (TodoManager.tasks this) as [|task ts IH]; [done|].
    rewrite !filter_cons.
    pose proof pending_neq_completed as Hpc.
    repeat case_decide;
      repeat match goal with
             | H : py_eq_str _ _ = true |- _ => apply py_eq_str_true in H
             | H : ¬ (py_eq_str _ _ = true) |- _ =>
                 rewrite py_eq_str_true in H
             end;
      cbn [length]; try lia; try congruence; try tauto.
Qed.

Lemma list_tasks_by_status_witness :
  list_tasks (manager (one_task pending)) (Some pending)
    `sublist_of` TodoManager.tasks (manager (one_task pending)) ∧
  ∀ task,
    task ∈ list_tasks (manager (one_task pending)) (Some pending) ↔
    task ∈ TodoManager.tasks (manager (one_task pending)) ∧
    Task.status task = VStr pending.
Proof.
  destruct (list_tasks_by_status (manager (one_task pending)))
    as (_ & _ & H & _).
  apply (H pending). vm_compute. discriminate.
Defined.

(** X1. [Task.from_dict] on an object that has the five keys "id",
    "title", "description", "status" and "created_at" returns the task
    made of their values, whatever these are, and ignores any other key.
    On an object that lacks one it raises [KeyError] for the first
    missing key in that order, and on a value that is not an object it
    raises [TypeError]. *)
Theorem from_dict_outcomes (data : pyval) :
  (∀ d, data = VDict d →
        (∀ k, k ∈ task_keys → is_Some (d !! k)) →
        ∃ task,
          Task.from_dict data = Return task ∧
          d !! u "id" = Some (Task.id task) ∧
          d !! u "title" = Some (Task.title task) ∧
          d !! u "description" = Some (Task.description task) ∧
          d !! u "status" = Some (Task.status task) ∧
          d !! u "created_at" = Some (Task.created_at task)) ∧
  (∀ d before k after,
        data = VDict d →
        task_keys = before ++ k :: after →
        (∀ k', k' ∈ before → is_Some (d !! k')) →
        d !! k = None →
        Task.from_dict data = Raise (KeyError k)) ∧
  ((∀ d, data ≠ VDict d) → Task.from_dict data = Raise TypeError).
Proof.
  split_and!.
  - intros d -> Hall. unfold Task.from_dict, py_getitem.
    destruct (Hall (u "id")) as [v1 H1]; [set_solver|].
    destruct (Hall (u "title")) as [v2 H2]; [set_solver|].
    destruct (Hall (u "description")) as [v3 H3]; [set_solver|].
    destruct (Hall (u "status")) as [v4 H4]; [set_solver|].
    destruct (Hall (u "created_at")) as [v5 H5]; [set_solver|].
    rewrite H1, H2, H3, H4, H5. by eexists.
  - intros d before k after -> Hkeys Hbefore Hnone.
    unfold Task.from_dict, py_getitem. unfold task_keys in Hkeys.
    do 5 (destruct before as [|k0 before]; cbn [app] in Hkeys;
          [injection Hkeys as <- _; by rewrite Hnone|];
          injection Hkeys as Hk0 Hkeys;
          destruct (Hbefore k0) as [? Hv]; [set_solver|];
          rewrite <- Hk0 in Hv; rewrite Hv; clear Hk0 Hv;
          cbn [mbind outcome_bind];
          assert (∀ k', k' ∈ before → is_Some (d !! k')) as Hbefore'
            by (intros; apply Hbefore; set_solver);
          clear Hbefore k0; rename Hbefore' into Hbefore).
    by destruct before.
  - intros Hnot. destruct data; try done. by destruct (Hnot d).
Qed.

Lemma from_dict_outcomes_witness :
  (∃ task,
     Task.from_dict (Task.to_dict (milk pending)) = Return task ∧
     (<[u "id" := VInt 1]> (<[u "title" := VStr (u "Buy milk")]>
        (<[u "description" := VStr (u "2 litres")]>
        (<[u "status" := VStr pending]>
        (<[u "created_at" := VStr (u "2024-01-01T09:00:00")]> ∅))))
      : gmap (list N) pyval) !! u "id" = Some (Task.id task)) ∧
  Task.from_dict (VDict no_status) = Raise (KeyError (u "description")) ∧
  Task.from_dict (VInt 1) = Raise TypeError.
Proof.
  split_and!.
  - destruct (from_dict_outcomes (Task.to_dict (milk pending))) as (H & _).
    destruct (H _ eq_refl) as (task & Hfrom & Hid & _).
    + intros k Hk. unfold task_keys in Hk.
      repeat (apply elem_of_cons in Hk as [->|Hk]; [by eexists|]).
      by apply elem_of_nil in Hk.
    + by exists task.
  - destruct (from_dict_outcomes (VDict no_status)) as (_ & H & _).
    apply (H no_status [u "id"; u "title"] (u "description")
             [u "status"; u "created_at"]); [reflexivity|reflexivity| |].
    + intros k Hk.
      repeat (apply elem_of_cons in Hk as [->|Hk]; [by eexists|]).
      by apply elem_of_nil in Hk.
    + reflexivity.
  - destruct (from_dict_outcomes (VInt 1)) as (_ & _ & H).
    apply H. discriminate.
Defined.

Lemma delete_last_appended {A} (l : list A) (x : A) :
  delete (length l) (l ++ [x]) = l.
Proof. induction l as [|y l IH]; [done|]. cbn. f_equal. exact IH. Qed.

(** X14. Creating a task and then deleting it leaves the list of tasks
    as it was before the two calls, but not the counter: [next_id] has
    advanced, so the id is not given out again. *)
Theorem add_then_delete (w : world) (now title description : pystr)
    (n : Z) :
  strip title ≠ [] →
  TodoManager.next_id (manager w) = VInt n →
  get_task_by_id (manager w) n = None →
  ∃ task w1 w2,
    add_task now title description w = (Return task, w1) ∧
    Task.id task = VInt n ∧
    delete_task n w1 = (Return VNone, w2) ∧
    TodoManager.tasks (manager w2) = TodoManager.tasks (manager w) ∧
    TodoManager.next_id (manager w2) = VInt (n + 1) ∧
    get_task_by_id (manager w2) n = None.
Proof.
  intros Htitle Hn Hnone.
  rewrite (add_task_ok w now title description (VInt (n + 1)) Htitle)
    by (by rewrite Hn).
  cbv zeta. rewrite save_tasks_eq. cbn [snd]. eexists _, _, _.
  split; [reflexivity|]. split; [by rewrite Hn|].
  set (task := Task.init _ _ _ _ _).
  set (w1 := World _ _ _).
  assert (get_task_by_id (manager w1) n
          = Some (length (TodoManager.tasks (manager w)), task)) as Hget.
  { unfold get_task_by_id in *. cbn [w1 manager set_state TodoManager.tasks].
    apply list_find_snoc_new; [done|]. subst task. cbn. rewrite Hn. cbn.
    apply Z.eqb_refl. }
  rewrite (delete_found w1 n _ task Hget), save_tasks_eq.
  split; [reflexivity|].
  cbn [w1 manager set_state TodoManager.tasks TodoManager.next_id].
  rewrite delete_last_appended. split_and!; [done|done|].
  unfold get_task_by_id in *. by cbn [TodoManager.tasks].
Qed.

Lemma add_then_delete_witness :
  ∃ task w1 w2,
    add_task (u "2024-01-02T10:00:00") (u "Call bank") (u "")
             (one_task pending) = (Return task, w1) ∧
    Task.id task = VInt 2 ∧
    delete_task 2 w1 = (Return VNone, w2) ∧
    TodoManager.tasks (manager w2)
      = TodoManager.tasks (manager (one_task pending)) ∧
    TodoManager.next_id (manager w2) = VInt (2 + 1) ∧
    get_task_by_id (manager w2) 2 = None.
Proof.
  apply (add_then_delete (one_task pending)).
  - vm_compute. discriminate.
  - reflexivity.
  - vm_compute. reflexivity.
Defined.

(** X15. Repeating an [update_task] call changes nothing further: called
    again with the same arguments on the state the first call left, it
    gives the same result and leaves that state, files included, as it
    is. *)
Theorem update_task_idempotent (w : world) (task_id : Z)
    (title description status : option pystr) :
  ∃ r w1,
    update_task task_id title description status w = (r, w1) ∧
    update_task task_id title description status w1 = (r, w1).
Proof.
  destruct (get_task_by_id (manager w) task_id) as [[i task]|] eqn:Hget.
  2:{ rewrite update_not_found by done. eexists _, _.
      split; [reflexivity|]. by rewrite update_not_found. }
  assert (∀ (f : Task.t → Task.t) fs d,
            (∀ x, Task.id (f x) = Task.id x) →
            get_task_by_id
              (manager
                 (World (TodoManager.mk
                           (TodoManager.storage_file (manager w))
                           (alter f i (TodoManager.tasks (manager w)))
                           (TodoManager.next_id (manager w))) fs d))
              task_id = Some (i, f task)) as Hget'.
  { intros f fs d Hf. cbn [manager].
    by apply (get_task_by_id_alter (manager w)). }
  assert (∀ f : Task.t → Task.t,
            (∀ x, f (f x) = f x) →
            alter f i (alter f i (TodoManager.tasks (manager w)))
            = alter f i (TodoManager.tasks (manager w))) as Htwice.
  { intros f Hf. rewrite list_alter_alter_eq.
    apply list_alter_ext; [intros x _; apply Hf|done]. }
  rewrite (update_found w task_id i task title description status Hget).
  cbv zeta. destruct status as [s|]; [case_bool_decide as Hs|].
  - rewrite save_tasks_eq. unfold set_state. cbn [manager files disk].
    eexists _, _. split; [reflexivity|].
    erewrite update_found; [|apply Hget'; intros x; by destruct title, description].
    cbv zeta. rewrite bool_decide_true by done.
    rewrite save_tasks_eq. unfold set_state.
    cbn [manager files disk TodoManager.storage_file TodoManager.tasks
         TodoManager.next_id].
    rewrite Htwice by (intros x; by destruct x, title, description).
    by rewrite written_files_twice.
  - unfold set_state. eexists _, _. split; [reflexivity|].
    erewrite update_found; [|apply Hget'; intros x; by destruct title, description].
    cbv zeta. rewrite bool_decide_false by done. unfold set_state.
    cbn [manager files TodoManager.storage_file TodoManager.tasks
         TodoManager.next_id].
    by rewrite Htwice by (intros x; by destruct x, title, description).
  - rewrite save_tasks_eq. unfold set_state. cbn [manager files disk].
    eexists _, _. split; [reflexivity|].
    erewrite update_found; [|apply Hget'; intros x; by destruct title, description].
    cbv zeta. rewrite save_tasks_eq. unfold set_state.
    cbn [manager files disk TodoManager.storage_file TodoManager.tasks
         TodoManager.next_id].
    rewrite Htwice by (intros x; by destruct x, title, description).
    by rewrite written_files_twice.
Qed.

(** * Properties of the menu layer *)

Section Raising.

(** The exceptions of the four mutating methods. *)
Lemma add_task_raises (w w' : world) (now title description : pystr)
    (e : exn) :
  add_task now title description w = (Raise e, w') →
  (e = ValueError TitleEmpty ∧ strip title = [] ∧ w' = w) ∨
  (e = TypeError ∧ strip title ≠ [] ∧
   py_incr (TodoManager.next_id (manager w)) = Raise TypeError).
Proof.
  destruct (decide (strip title = [])) as [Hblank|Hfull].
  { rewrite add_task_blank by done. intros [= <- <-]. by left. }
  destruct (py_incr (TodoManager.next_id (manager w))) as [n|e'] eqn:Hincr.
  - by rewrite (add_task_ok w now title description n Hfull Hincr).
  - rewrite (add_task_counter_error w now title description e' Hfull Hincr).
    assert (e' = TypeError) as ->.
    { revert Hincr.
      by destruct (TodoManager.next_id (manager w)); intros [= <-]. }
    intros [= <- <-]. by right.
Qed.

Lemma update_task_raises (w w' : world) (task_id : Z)
    (title description status : option pystr) (e : exn) :
  update_task task_id title description status w = (Raise e, w') →
  (e = ValueError (TaskNotFound task_id) ∧ w' = w) ∨
  (e = ValueError StatusInvalid ∧
   ∃ s, status = Some s ∧ s ∉ [pending; completed]).
Proof.
  destruct (get_task_by_id (manager w) task_id) as [[i task]|] eqn:Hget.
  - rewrite (update_found w task_id i task title description status Hget).
    cbv zeta. destruct status as [s|]; [case_bool_decide|];
      rewrite ?save_tasks_eq; try done.
    intros [= <- <-]. right. eauto.
  - rewrite update_not_found by done. intros [= <- <-]. by left.
Qed.

Lemma delete_task_raises (w w' : world) (task_id : Z) (e : exn) :
  delete_task task_id w = (Raise e, w') →
  e = ValueError (TaskNotFound task_id) ∧ w' = w.
Proof.
  destruct (get_task_by_id (manager w) task_id) as [[i task]|] eqn:Hget.
  - by rewrite (delete_found w task_id i task Hget), save_tasks_eq.
  - rewrite delete_not_found by done. by intros [= <- <-].
Qed.

Lemma toggle_task_status_raises (w w' : world) (task_id : Z) (e : exn) :
  toggle_task_status task_id w = (Raise e, w') →
  e = ValueError (TaskNotFound task_id) ∧ w' = w.
Proof.
  destruct (get_task_by_id (manager w) task_id) as [[i task]|] eqn:Hget.
  - by rewrite (toggle_found w task_id i task Hget), save_tasks_eq.
  - rewrite toggle_not_found by done. by intros [= <- <-].
Qed.

Lemma or_None_Some (s x : pystr) : or_None s = Some x → x = s ∧ s ≠ [].
Proof. destruct s; [done|]. by intros [= <-]. Qed.

End Raising.

Ltac run_UI :=
  unfold show, add_task_ui, update_task_ui, delete_task_ui,
    toggle_task_status_ui, list_tasks_ui, display_menu, except_ValueError,
    method, todo_manager, print, input;
  unfold mbind, mret, fmap, UI_bind, UI_ret, UI_fmap;
  cbn [store stdin stdout].

Ltac ui_simpl := repeat (progress (cbv beta; cbn [store stdin stdout])).

(** Case analysis on what is typed at the next prompt. *)
Ltac next_key :=
  match goal with
  | |- context [match ?keys with [] => _ | _ :: _ => _ end] =>
      is_var keys; destruct keys as [|[?|] ?]; ui_simpl
  end.

Ltac solve_output :=
  cbn [stdout]; rewrite <- ?(assoc_L (++)); by eexists.
Ltac solve_input :=
  cbn [stdin];
  first [by exists [] | by eexists [_] | by eexists [_; _]
        | by eexists [_; _; _] | by eexists [_; _; _; _]].

Section Screens.

Context (py_int : pystr → option Z) (py_lower py_upper : pystr → pystr).

Lemma delete_task_ui_orderly (c : console) :
  ∃ r c', delete_task_ui py_int c = (r, c') ∧ orderly c r c'.
Proof.
  destruct c as [w keys out]. run_UI. next_key.
  - eexists _, _. split; [reflexivity|].
    split_and!; [apply guarded_none|solve_output|solve_input|done|done].
  - destruct (py_int s) as [task_id|]; ui_simpl.
    + destruct (delete_task task_id w) as [[v|e] w'] eqn:Hcall.
      * eexists _, _. split; [reflexivity|].
        split_and!; [|solve_output|solve_input|done|done].
        cbn. replace w' with (delete_task task_id w).2 by (by rewrite Hcall).
        apply guarded_delete.
      * apply delete_task_raises in Hcall as [-> ->].
        eexists _, _. split; [reflexivity|].
        split_and!; [apply guarded_none|solve_output|solve_input|done|done].
    + eexists _, _. split; [reflexivity|].
      split_and!; [apply guarded_none|solve_output|solve_input|done|done].
  - eexists _, _. split; [reflexivity|].
    split_and!; [apply guarded_none|solve_output|solve_input|done|done].
Qed.

Ltac leaf tac :=
  eexists _, _; (split; [reflexivity|]);
  split_and!; [tac|solve_output|solve_input|try done|try done].

Lemma toggle_task_status_ui_orderly (c : console) :
  ∃ r c', toggle_task_status_ui py_int c = (r, c') ∧ orderly c r c'.
Proof.
  destruct c as [w keys out]. run_UI. next_key;
    [leaf ltac:(apply guarded_none)| |leaf ltac:(apply guarded_none)].
  destruct (py_int s) as [task_id|]; ui_simpl;
    [|leaf ltac:(apply guarded_none)].
  destruct (get_task_by_id (manager w) task_id) as [[i task]|] eqn:Hget.
  - destruct (toggle_get w task_id i task Hget) as (w' & Hcall & Hget').
    rewrite Hcall. ui_simpl. rewrite Hget'.
    leaf ltac:(cbn; replace w' with (toggle_task_status task_id w).2
                 by (by rewrite Hcall); apply guarded_toggle).
  - rewrite toggle_not_found by done. leaf ltac:(apply guarded_none).
Qed.

Lemma add_task_ui_orderly (now : pystr) (c : console) :
  ∃ r c', add_task_ui now c = (r, c') ∧ orderly c r c'.
Proof.
  destruct c as [w keys out]. run_UI. next_key;
    [leaf ltac:(apply guarded_none)| |leaf ltac:(apply guarded_none)].
  destruct (strip s) as [|ch title] eqn:Htitle; ui_simpl;
    [leaf ltac:(apply guarded_none)|].
  assert (strip (ch :: title) ≠ []) as Hfull
    by (by rewrite <- Htitle, strip_idemp, Htitle).
  next_key;
    [leaf ltac:(apply guarded_none)| |leaf ltac:(apply guarded_none)].
  destruct (add_task now (ch :: title) (strip s0) w) as [[task|e] w']
    eqn:Hcall; ui_simpl.
  - leaf ltac:(cbn; replace w' with
                 (add_task now (ch :: title) (strip s0) w).2
                 by (by rewrite Hcall); by apply guarded_add).
  - pose proof Hcall as Hraise.
    apply add_task_raises in Hraise as [(_ & Hblank & _)|(-> & _ & Hincr)];
      [done|].
    leaf ltac:(cbn; replace w' with
                 (add_task now (ch :: title) (strip s0) w).2
                 by (by rewrite Hcall); by apply guarded_add).
    by intros e [= <-].
Qed.

Lemma update_task_ui_orderly (c : console) :
  ∃ r c', update_task_ui py_int py_lower c = (r, c') ∧ orderly c r c'.
Proof.
  destruct c as [w keys out]. run_UI. next_key;
    [leaf ltac:(apply guarded_none)| |leaf ltac:(apply guarded_none)].
  destruct (py_int s) as [task_id|]; ui_simpl;
    [|leaf ltac:(apply guarded_none)].
  destruct (get_task_by_id (manager w) task_id) as [[i task]|] eqn:Hget;
    ui_simpl; [|leaf ltac:(apply guarded_none)].
  do 3 (next_key;
    [leaf ltac:(apply guarded_none)| |leaf ltac:(apply guarded_none)]).
  match goal with
  | |- context [update_task task_id ?t ?d ?st w] =>
      set (title := t); set (description := d); set (status := st)
  end.
  assert (guarded w (update_task task_id title description status w).2)
    as Hguarded.
  { apply guarded_update.
    - intros x [-> Hx]%or_None_Some. by rewrite strip_idemp.
    - subst status. intros x. case_bool_decide; [by intros [= <-]|done]. }
  destruct (update_task task_id title description status w) as [[v|e] w']
    eqn:Hcall; ui_simpl.
  - leaf ltac:(exact Hguarded).
  - pose proof Hcall as Hraise.
    apply update_task_raises in Hraise as [[-> _]|[-> _]];
      leaf ltac:(exact Hguarded).
Qed.

Lemma show_tasks_eq (tasks : list Task.t) (c : console) :
  show_tasks tasks c
  = (Done (),
     Console (store c) (stdin c) (stdout c ++ (tasks ≫= task_lines))).
Proof.
  revert c. induction tasks as [|task tasks IH]; intros [w keys out].
  - cbn. by rewrite app_nil_r.
  - cbn [show_tasks]. unfold show_task. run_UI.
    destruct (py_bool (Task.description task)) eqn:Hd; ui_simpl;
      rewrite IH; cbn [store stdin stdout]; do 2 f_equal;
      rewrite bind_cons; unfold task_lines; rewrite Hd;
      rewrite <- ?(assoc_L (++)); reflexivity.
Qed.

Lemma list_tasks_ui_orderly (status_filter : option pystr) (c : console) :
  ∃ r c', list_tasks_ui py_upper status_filter c = (r, c') ∧ orderly c r c'.
Proof.
  destruct c as [w keys out]. run_UI.
  destruct (list_tasks _ _) as [|task tasks]; ui_simpl.
  - leaf ltac:(apply guarded_none).
  - change (show_task task ≫= λ _, show_tasks tasks)
      with (show_tasks (task :: tasks)).
    rewrite show_tasks_eq. leaf ltac:(apply guarded_none).
Qed.

Lemma show_orderly (s : screen) (c : console) :
  ∃ r c', show py_int py_lower py_upper s c = (r, c') ∧ orderly c r c'.
Proof.
  destruct s; cbn [show].
  - apply add_task_ui_orderly.
  - apply list_tasks_ui_orderly.
  - apply update_task_ui_orderly.
  - apply delete_task_ui_orderly.
  - apply toggle_task_status_ui_orderly.
Qed.

End Screens.

Section UniqueIds.

Local Open Scope Z_scope.

Lemma NoDup_delete_ids {A} (l : list A) (i : nat) :
  NoDup l → NoDup (delete i l).
Proof. intros H. eapply sublist_NoDup; [exact H|apply sublist_delete]. Qed.

(** One request other than a reload keeps the ids of the store pairwise
    distinct. *)
Lemma step_ids_unique (c : call) (n : Z) (w : world) :
  c ≠ Reload →
  counter_over n (manager w) →
  NoDup (Task.id <$> TodoManager.tasks (manager w)) →
  NoDup (Task.id <$> TodoManager.tasks (manager (step c w).1)).
Proof.
  intros Hc (Hn & Hbelow) Hnodup.
  destruct c as [now title description|task_id title description status
                |task_id|task_id|]; cbn [step]; [| | | |done].
  - destruct (decide (strip title = [])) as [Hblank|Hfull].
    { by rewrite add_task_blank. }
    rewrite (add_task_ok w now title description (VInt (n + 1)) Hfull)
      by (by rewrite Hn).
    cbv zeta. rewrite save_tasks_eq.
    cbn [fst snd manager set_state TodoManager.tasks].
    rewrite fmap_app. apply NoDup_app. split_and!; [done| |apply NoDup_singleton].
    intros v Hv Hnew. apply list_elem_of_singleton in Hnew. subst v.
    cbn in Hv. rewrite Hn in Hv. unfold ids_below in Hbelow.
    rewrite Forall_forall in Hbelow.
    destruct (Hbelow _ Hv) as (k & [= <-] & Hlt). lia.
  - destruct (get_task_by_id (manager w) task_id) as [[i task]|] eqn:Hget.
    + rewrite (update_found w task_id i task title description status Hget).
      cbv zeta. destruct status as [s|]; [case_bool_decide|];
        rewrite ?save_tasks_eq;
        cbn [fst snd manager set_state TodoManager.tasks];
        rewrite fmap_id_alter; try done;
        intros task'; cbn; apply edited_id.
    + by rewrite update_not_found.
  - destruct (get_task_by_id (manager w) task_id) as [[i task]|] eqn:Hget.
    + rewrite (delete_found w task_id i task Hget), save_tasks_eq.
      cbn [fst snd manager set_state TodoManager.tasks].
      rewrite list_fmap_delete. by apply NoDup_delete_ids.
    + by rewrite delete_not_found.
  - destruct (get_task_by_id (manager w) task_id) as [[i task]|] eqn:Hget.
    + rewrite (toggle_found w task_id i task Hget), save_tasks_eq.
      cbn [fst snd manager set_state TodoManager.tasks].
      by rewrite fmap_id_alter.
    + by rewrite toggle_not_found.
Qed.

(** The counter is an integer above the ids, which are pairwise
    distinct: a property every request other than a reload keeps. *)
Lemma step_distinct_below (c : call) (w : world) :
  c ≠ Reload →
  distinct_below (TodoManager.tasks (manager w))
                 (TodoManager.next_id (manager w)) →
  distinct_below (TodoManager.tasks (manager (step c w).1))
                 (TodoManager.next_id (manager (step c w).1)).
Proof.
  intros Hc (n & Hn & Hbelow & Hnodup).
  pose proof (step_ids_unique c n w Hc (conj Hn Hbelow) Hnodup) as Hnodup'.
  destruct (step_counter_over c n w Hc (conj Hn Hbelow))
    as [[[Hn' Hbelow'] _]|[[Hn' Hbelow'] _]].
  - by exists n.
  - by exists (n + 1).
Qed.

Lemma distinct_below_fresh : distinct_below [] (VInt 1).
Proof. exists 1. split_and!; [done|constructor|constructor]. Qed.

End UniqueIds.

(** X16. Ids are unique within the store: start from a storage file
    that is absent, or that decodes to tasks with pairwise distinct ids
    and an integer "next_id" above all of them.  Then after any sequence
    of create, update, delete and toggle calls (failed ones included) and
    reloads, whatever becomes of the writes, no two tasks of the store
    have the same id. *)
Theorem ids_stay_unique (path : string) (w : world) (cs : list call) :
  storage_sound path (files w) →
  (∀ f ts n, files w !! path = Some f →
             json_load f ≫= decode = Return (ts, n) →
             NoDup (Task.id <$> ts)) →
  ∃ w0,
    init path w = (Return VNone, w0) ∧
    NoDup (Task.id <$> TodoManager.tasks (manager (run cs w0).1)).
Proof.
  intros Hsound Hdistinct.
  destruct (init_robust distinct_below distinct_below_fresh path w)
    as (w0 & Hinit & Hinv).
  { unfold storage_sound in Hsound. unfold loads.
    destruct (files w !! path) as [f|] eqn:Hfile; [|done].
    destruct Hsound as (ts & n & Hdec & Hbelow). rewrite Hdec.
    exists n. split_and!; [done..|]. by apply (Hdistinct f ts (VInt n)). }
  exists w0. split; [done|].
  destruct (run_robust distinct_below distinct_below_fresh
              step_distinct_below cs w0 Hinv) as [(n & _ & _ & Hnodup) _].
  exact Hnodup.
Qed.

Lemma ids_stay_unique_witness :
  ∃ w0,
    init "tasks.json" blank = (Return VNone, w0) ∧
    NoDup (Task.id <$> TodoManager.tasks (manager (run scenario w0).1)).
Proof.
  apply (ids_stay_unique "tasks.json" blank scenario).
  - vm_compute. exact I.
  - intros f ts n Hf. vm_compute in Hf. discriminate Hf.
Defined.

Section Healthy.

Lemma guarded_step (w w' : world) :
  guarded w w' → w' = w ∨ ∃ c, c ≠ Reload ∧ w' = (step c w).1.
Proof.
  intros [|now title description _|task_id title description status _ _
         |task_id|task_id]; [by left|right..].
  - exists (Create now title description). split; [done|]. cbn [step].
    by destruct (add_task now title description w) as [[task|e] w1].
  - by exists (Update task_id title description status).
  - by exists (Delete task_id).
  - by exists (Toggle task_id).
Qed.

Lemma titled_stripped (s : pystr) (task : Task.t) :
  strip s ≠ [] → Task.title task = VStr (strip s) → titled task.
Proof. intros Hs Ht. exists (strip s). by rewrite strip_idemp. Qed.

Lemma guarded_titled (w w' : world) :
  guarded w w' →
  Forall titled (TodoManager.tasks (manager w)) →
  Forall titled (TodoManager.tasks (manager w')).
Proof.
  intros [|now title description Htitle
         |task_id title description status Htitle _
         |task_id|task_id] Hall; [done|..].
  - assert (Forall titled
              (TodoManager.tasks (manager w) ++
               [Task.init now (TodoManager.next_id (manager w))
                  (VStr (strip title)) (VStr (strip description))
                  (VStr pending)])) as Hnew.
    { apply Forall_app. split; [done|]. apply Forall_singleton.
      by apply (titled_stripped title). }
    destruct (py_incr (TodoManager.next_id (manager w))) as [n|e] eqn:Hincr.
    + rewrite (add_task_ok w now title description n Htitle Hincr).
      cbv zeta. by rewrite save_tasks_eq.
    + by rewrite (add_task_counter_error w now title description e Htitle
                    Hincr).
  - destruct (get_task_by_id (manager w) task_id) as [[i task]|] eqn:Hget.
    + assert (∀ task', titled task' →
                       titled (edited title description task')) as Hedit.
      { intros task' Htask. destruct title as [s|].
        - apply (titled_stripped s); [by apply Htitle|].
          by destruct description.
        - destruct Htask as (s & Hs & Hne). exists s.
          by destruct description. }
      rewrite (update_found w task_id i task title description status Hget).
      cbv zeta. destruct status as [s|]; [case_bool_decide|];
        rewrite ?save_tasks_eq;
        cbn [snd manager set_state TodoManager.tasks];
        apply Forall_alter; try done; intros task' _ Htask;
        by apply Hedit in Htask.
    + by rewrite update_not_found.
  - destruct (get_task_by_id (manager w) task_id) as [[i task]|] eqn:Hget.
    + rewrite (delete_found w task_id i task Hget), save_tasks_eq.
      cbn [snd manager set_state TodoManager.tasks]. by apply Forall_delete.
    + by rewrite delete_not_found.
  - destruct (get_task_by_id (manager w) task_id) as [[i task]|] eqn:Hget.
    + rewrite (toggle_found w task_id i task Hget), save_tasks_eq.
      cbn [snd manager set_state TodoManager.tasks].
      by apply Forall_alter.
    + by rewrite toggle_not_found.
Qed.

(** The calls of the menu layer keep the store healthy. *)
Lemma guarded_healthy (w w' : world) :
  guarded w w' → healthy w → healthy w'.
Proof.
  intros Hguarded ([n Hcounter] & Hnodup & Hstatus & Htitled).
  pose proof (guarded_titled w w' Hguarded Htitled) as Htitled'.
  unfold healthy.
  destruct (guarded_step w w' Hguarded) as [->|(c & Hc & ->)];
    [by eauto 10|].
  split_and!; [|by eapply step_ids_unique|by apply step_statuses_valid|done].
  destruct (step_counter_over c n w Hc Hcounter) as [[H _]|[H _]]; eauto.
Qed.

Lemma healthy_counter (w : world) :
  healthy w → py_incr (TodoManager.next_id (manager w)) ≠ Raise TypeError.
Proof. intros ([n (Hn & _)] & _). by rewrite Hn. Qed.

End Healthy.

Section Menu.

Context (py_int : pystr → option Z) (py_lower py_upper : pystr → pystr).
Context (now : nat → pystr).

Lemma choices_range (i : nat) (s : pystr) (n : Z) :
  choices !! i = Some (s, n) → (0 ≤ n ≤ 7)%Z.
Proof.
  unfold choices.
  do 8 (destruct i as [|i]; [intros [= <- <-]; lia|]). done.
Qed.

(** [get_user_choice] leaves the store alone, reads at least one line
    when it returns, returns a number from 0 to 7, and raises nothing but
    [EOFError], at the end of the input. *)
Lemma get_user_choice_from_spec (keys : list keyboard) (w : world)
    (out : list text) :
  ∃ r rest extra used,
    get_user_choice_from keys w out = (r, Console w rest (out ++ extra)) ∧
    keys = used ++ rest ∧
    match r with
    | Done n => (0 ≤ n ≤ 7)%Z ∧ length rest < length keys
    | Abort e => e = EOFError ∧ rest = []
    end.
Proof.
  revert out. induction keys as [|[s|] keys IH]; intros out;
    cbn [get_user_choice_from].
  - by exists (Abort EOFError), [], [AskChoice], [].
  - destruct (list_find _ choices) as [[i [s' n]]|] eqn:Hfind.
    + exists (Done n), keys, [AskChoice], [Line s].
      split; [done|]. split; [done|]. split; [|cbn; lia].
      apply list_find_Some in Hfind as (Hi & _). by eapply choices_range.
    + destruct (IH (out ++ [AskChoice; InvalidChoice]))
        as (r & rest & extra & used & -> & -> & Hr).
      exists r, rest, ([AskChoice; InvalidChoice] ++ extra), (Line s :: used).
      split; [by rewrite (assoc_L (++))|]. split; [done|].
      destruct r; [|done]. cbn. rewrite length_app in *. cbn. lia.
  - exists (Done 0%Z), keys, [AskChoice; Exiting], [CtrlC].
    split; [done|]. split; [done|]. split; [lia|cbn; lia].
Qed.

Lemma dispatch_orderly (choice : Z) (turn : nat) (c : console) :
  ∃ r c',
    dispatch py_int py_lower py_upper now choice turn c = (r, c') ∧
    orderly c r c'.
Proof.
  assert (∃ r c', (mret () : UI unit) c = (r, c') ∧ orderly c r c') as Hnone.
  { exists (Done ()), c. split; [done|].
    split_and!; [apply guarded_none|by exists []; rewrite app_nil_r
                |by exists []|done|done]. }
  unfold dispatch.
  destruct choice as [|p|p]; [exact Hnone| |exact Hnone].
  do 4 (try destruct p as [p|p|]);
    first [exact Hnone | apply add_task_ui_orderly | apply list_tasks_ui_orderly
          | apply update_task_ui_orderly | apply delete_task_ui_orderly
          | apply toggle_task_status_ui_orderly].
Qed.

Lemma suffix_length {A} (l used rest : list A) :
  l = used ++ rest → length rest ≤ length l.
Proof. intros ->. rewrite length_app. lia. Qed.

(** The loop of [main] from a healthy store: the turns are enough, the
    store stays healthy, and the loop ends with the farewell, with the end
    of the input, or with an interrupt. *)
Lemma main_loop_healthy (fuel turn : nat) (c : console) :
  length (stdin c) < fuel →
  healthy (store c) →
  ∃ r c',
    main_loop py_int py_lower py_upper now fuel turn c = Some (r, c') ∧
    healthy (store c') ∧
    (r = Done () → last (stdout c') = Some Goodbye) ∧
    (∀ e, r = Abort e →
          e = EOFError ∧ stdin c' = [] ∨ e = KeyboardInterrupt).
Proof.
  revert turn c. induction fuel as [|fuel IH]; intros turn c Hfuel Hhealthy;
    [lia|].
  cbn [main_loop]. destruct c as [w keys out]. cbn [store stdin] in *.
  unfold display_menu, get_user_choice, print.
  unfold mbind at 1. unfold UI_bind at 1. cbn [store stdin stdout].
  destruct (get_user_choice_from_spec keys w (out ++ [Menu]))
    as (r1 & rest & extra & used & -> & Hused & Hr1).
  destruct r1 as [choice|e1].
  2:{ destruct Hr1 as [-> ->]. eexists _, _. split; [reflexivity|].
      split_and!; [done|done|]. intros e [= <-]. by left. }
  destruct Hr1 as [Hrange Hless].
  destruct (Z.eqb_spec choice 0) as [->|Hnonzero].
  { eexists _, _. split; [reflexivity|]. cbn [store stdout].
    split_and!; [done|by rewrite last_snoc|done]. }
  unfold mbind at 1. unfold UI_bind at 1.
  destruct (dispatch_orderly choice turn (Console w rest (out ++ [Menu] ++ extra)))
    as (r2 & c2 & Hcall & Hguarded & _ & [used2 Hused2] & Hescape & Heof).
  rewrite (assoc_L (++)) in Hcall. rewrite Hcall.
  cbn [store stdin] in *.
  pose proof (guarded_healthy _ _ Hguarded Hhealthy) as Hhealthy2.
  destruct r2 as [[]|e2].
  2:{ eexists _, _. split; [reflexivity|]. split_and!; [done|done|].
      intros e [= <-]. destruct e2 as [e| |].
      - destruct (Hescape e eq_refl) as [_ Hincr].
        by destruct (healthy_counter w Hhealthy).
      - left. split; [done|]. by apply Heof.
      - by right. }
  destruct c2 as [w2 keys2 out2]. unfold input. cbn [store stdin stdout] in *.
  destruct keys2 as [|[s|] keys3].
  - eexists _, _. split; [reflexivity|]. split_and!; [done|done|].
    intros e [= <-]. by left.
  - apply IH; [|done]. cbn [stdin].
    apply suffix_length in Hused2. cbn in Hused2. lia.
  - eexists _, _. split; [reflexivity|]. split_and!; [done|done|].
    intros e [= <-]. by right.
Qed.

Lemma construct_healthy (path : string) (c : console) :
  file_healthy path (files (store c)) →
  ∃ w0,
    construct path c = (Done (), Console w0 (stdin c) (stdout c)) ∧
    healthy w0.
Proof.
  intros Hfile. unfold construct. rewrite init_eq, load_tasks_eq.
  cbn [manager files TodoManager.storage_file].
  unfold file_healthy in Hfile.
  destruct (files (store c) !! path) as [f|] eqn:Hf.
  - destruct Hfile as (ts & n & Hdec & Hbelow & Hnodup & Hstatus & Htitled).
    rewrite Hdec. eexists. rewrite app_nil_r. split; [reflexivity|].
    unfold healthy, counter_over.
    cbn [manager set_state TodoManager.tasks TodoManager.next_id].
    split_and!; try done; eauto 10.
  - eexists. rewrite app_nil_r. split; [reflexivity|].
    unfold healthy, counter_over.
    cbn [manager set_state TodoManager.tasks TodoManager.next_id].
    split_and!; try done; try constructor.
    exists 1%Z. split_and!; [done|constructor].
Qed.

End Menu.

Section MenuProperties.

Context (py_int : pystr → option Z) (py_lower py_upper : pystr → pystr).
Context (now : nat → pystr).

(** X17. Whatever is typed, each of the five menu functions calls the
    store at most once, and only through [add_task] with a title that is
    not blank, [update_task] with no blank title and no invalid status,
    [delete_task] or [toggle_task_status].  It only adds to the output
    and only consumes input; no [ValueError] leaves it, and tasks whose
    titles were not blank keep titles that are not blank. *)
Theorem screens_guard_the_store (s : screen) (c : console) :
  ∃ r c',
    show py_int py_lower py_upper s c = (r, c') ∧
    guarded (store c) (store c') ∧
    (∃ extra, stdout c' = stdout c ++ extra) ∧
    (∃ used, stdin c = used ++ stdin c') ∧
    (∀ e, r ≠ Abort (Escaped (ValueError e))) ∧
    (Forall titled (TodoManager.tasks (manager (store c))) →
     Forall titled (TodoManager.tasks (manager (store c')))).
Proof.
  destruct (show_orderly py_int py_lower py_upper s c)
    as (r & c' & Hcall & Hguarded & Hout & Hin & Hescape & _).
  exists r, c'. split_and!; try done.
  - intros e ->. by destruct (Hescape _ eq_refl).
  - by apply guarded_titled.
Qed.

(** X18. The whole program keeps the store sound.  Start [main] with a
    storage file that is absent, or that decodes to tasks with pairwise
    distinct integer ids below an integer "next_id", valid statuses and
    titles that are not blank.  Then whatever is typed, [main] ends; the
    store it leaves has an integer counter above all ids, pairwise
    distinct ids, valid statuses and titles that are not blank.  It ends
    normally only after printing the farewell, and otherwise only with
    [EOFError] at the end of the input or with [KeyboardInterrupt]. *)
Theorem main_keeps_the_store_sound (c : console) :
  file_healthy "tasks.json" (files (store c)) →
  ∃ r c',
    main py_int py_lower py_upper now c = Some (r, c') ∧
    (∃ n, TodoManager.next_id (manager (store c')) = VInt n ∧
          ids_below n (Task.id <$> TodoManager.tasks (manager (store c')))) ∧
    NoDup (Task.id <$> TodoManager.tasks (manager (store c'))) ∧
    Forall (λ task, Task.status task = VStr pending ∨
                    Task.status task = VStr completed)
           (TodoManager.tasks (manager (store c'))) ∧
    Forall titled (TodoManager.tasks (manager (store c'))) ∧
    (r = Done () → last (stdout c') = Some Goodbye) ∧
    (∀ e, r = Abort e →
          e = EOFError ∧ stdin c' = [] ∨ e = KeyboardInterrupt).
Proof.
  intros Hfile. unfold main, print.
  unfold mbind at 1. unfold UI_bind at 1.
  destruct (construct_healthy "tasks.json"
              (Console (store c) (stdin c) (stdout c ++ [Welcome])) Hfile)
    as (w0 & -> & Hhealthy).
  destruct (main_loop_healthy py_int py_lower py_upper now
              (S (length (stdin c))) 0
              (Console w0 (stdin c) (stdout c ++ [Welcome])))
    as (r & c' & Hloop & ([n (Hn & Hbelow)] & Hnodup & Hstatus
        & Htitled) & Hdone & Habort); [cbn; lia|done|].
  exists r, c'. split; [exact Hloop|]. split_and!; try done. by exists n.
Qed.



End MenuProperties.



Lemma main_keeps_the_store_sound_witness :
  ∃ r c',
    main one_digit same_case same_case noon
         (Console blank
            (Line <$> [u "1"; u "Call bank"; u ""; u ""; u "5"; u "1"; u "";
                       u "0"]) [])
      = Some (r, c') ∧
    (∃ n, TodoManager.next_id (manager (store c')) = VInt n ∧
          ids_below n (Task.id <$> TodoManager.tasks (manager (store c')))) ∧
    NoDup (Task.id <$> TodoManager.tasks (manager (store c'))) ∧
    Forall (λ task, Task.status task = VStr pending ∨
                    Task.status task = VStr completed)
           (TodoManager.tasks (manager (store c'))) ∧
    Forall titled (TodoManager.tasks (manager (store c'))) ∧
    (r = Done () → last (stdout c') = Some Goodbye) ∧
    (∀ e, r = Abort e →
          e = EOFError ∧ stdin c' = [] ∨ e = KeyboardInterrupt).
Proof.
  apply (main_keeps_the_store_sound one_digit same_case same_case noon).
  vm_compute. exact I.
Defined.

Lemma screens_guard_the_store_witness :
  ∃ r c',
    show one_digit same_case same_case UpdateScreen
         (typed [u "1"; u "   "; u ""; u "done"]) = (r, c') ∧
    guarded (one_task pending) (store c') ∧
    (∃ extra, stdout c' = [] ++ extra) ∧
    (∃ used, Line <$> [u "1"; u "   "; u ""; u "done"] = used ++ stdin c') ∧
    (∀ e, r ≠ Abort (Escaped (ValueError e))) ∧
    Forall titled (TodoManager.tasks (manager (store c'))).
Proof.
  destruct (screens_guard_the_store one_digit same_case same_case
              UpdateScreen (typed [u "1"; u "   "; u ""; u "done"]))
    as (r & c' & Hshow & Hguarded & Hout & Hin & Hescape & Htitled).
  exists r, c'. split_and!; try done.
  apply Htitled. apply Forall_singleton. exists (u "Buy milk").
  split; [reflexivity|]. vm_compute. discriminate.
Defined.

Section MenuAnswers.

Context (py_int : pystr → option Z) (py_lower py_upper : pystr → pystr).



(** X23. [list_tasks_ui] reads nothing and changes nothing in the store;
    it never raises.  It prints the header, and then "No tasks found."
    when the listing is empty, or else the lines of each listed task in
    store order. *)
Theorem list_tasks_ui_reads_only (status_filter : option pystr)
    (c : console) :
  let filtered :=
    if status_filter is Some (ch :: s) then Some (ch :: s) else None in
  let tasks := list_tasks (manager (store c)) filtered in
  list_tasks_ui py_upper status_filter c
  = (Done (),
     Console (store c) (stdin c)
       (stdout c ++
        ListHeader (py_upper <$> filtered) ::
        (if tasks is [] then [NoTasks] else tasks ≫= task_lines))).
Proof.
  destruct c as [w keys out]. cbv zeta. run_UI.
  destruct (list_tasks _ _) as [|task tasks]; ui_simpl.
  - by rewrite <- !(assoc_L (++)).
  - change (show_task task ≫= λ _, show_tasks tasks)
      with (show_tasks (task :: tasks)).
    rewrite show_tasks_eq. cbn [store stdin stdout].
    by rewrite <- !(assoc_L (++)).
Qed.

Lemma choices_keys (i j : nat) (s : pystr) (n m : Z) :
  choices !! i = Some (s, n) → choices !! j = Some (s, m) → n = m.
Proof.
  unfold choices.
  do 8 (destruct i as [|i]; [intros [= <- <-];
        (do 8 (destruct j as [|j]; [by intros [= <-]|])); done|]).
  done.
Qed.

(** X3. [get_user_choice] never touches the store.  It returns the
    number of the first line typed that, stripped, is one of "0" to "7",
    after answering every line before it with "Invalid choice"; Ctrl-C
    makes it return 0; and when the input ends first it raises
    [EOFError].  The number returned is always one from 0 to 7, and at
    least one line has been read. *)
Theorem get_user_choice_returns_menu_number (c : console) :
  ∃ r c',
    get_user_choice c = (r, c') ∧
    store c' = store c ∧
    (∃ used, stdin c = used ++ stdin c') ∧
    match r with
    | Done n => (0 ≤ n ≤ 7)%Z ∧ length (stdin c') < length (stdin c)
    | Abort e => e = EOFError ∧ stdin c' = []
    end ∧
    (∀ rest, stdin c = CtrlC :: rest → r = Done 0%Z ∧ stdin c' = rest) ∧
    (∀ s rest i n,
       stdin c = Line s :: rest → choices !! i = Some (strip s, n) →
       r = Done n ∧ stdin c' = rest) ∧
    (∀ s rest,
       stdin c = Line s :: rest →
       (∀ i n, choices !! i ≠ Some (strip s, n)) →
       (r, c') = get_user_choice
                   (Console (store c) rest
                            (stdout c ++ [AskChoice; InvalidChoice]))).
Proof.
  destruct c as [w keys out]. unfold get_user_choice. cbn [store stdin stdout].
  destruct (get_user_choice_from_spec keys w out)
    as (r & rest & extra & used & Hcall & Hused & Hr).
  exists r, (Console w rest (out ++ extra)). cbn [store stdin stdout].
  split_and!; [done|done|by exists used|done|..].
  - intros rest' ->. cbn in Hcall. by injection Hcall as <- <- _.
  - intros s rest' i n -> Hi. cbn [get_user_choice_from] in Hcall.
    destruct (list_find _ choices) as [[j [s' m]]|] eqn:Hfind.
    + apply list_find_Some in Hfind as (Hj & Hs' & _). cbn in Hs'. subst s'.
      injection Hcall as <- <- _. split; [|done]. f_equal.
      by apply (choices_keys j i (strip s)).
    + apply list_find_None in Hfind. rewrite Forall_forall in Hfind.
      destruct (Hfind (strip s, n)); [|done].
      by apply list_elem_of_lookup_2 in Hi.
  - intros s rest' -> Hnone. cbn [get_user_choice_from] in Hcall.
    destruct (list_find _ choices) as [[j [s' m]]|] eqn:Hfind.
    + apply list_find_Some in Hfind as (Hj & Hs' & _). cbn in Hs'. subst s'.
      by destruct (Hnone j m).
    + done.
Qed.

End MenuAnswers.

Lemma get_user_choice_returns_menu_number_witness :
  ∃ r c',
    get_user_choice (typed [u " 3 "; u "0"]) = (r, c') ∧
    r = Done 3%Z ∧ stdin c' = Line <$> [u "0"].
Proof.
  destruct (get_user_choice_returns_menu_number (typed [u " 3 "; u "0"]))
    as (r & c' & Hcall & _ & _ & _ & _ & Hline & _).
  exists r, c'. split; [exact Hcall|].
  apply (Hline (u " 3 ") (Line <$> [u "0"]) 3%nat 3%Z); reflexivity.
Defined.


